(** * EdgeDetectionViewer: the native frame pipeline, the GL presenter and
      the JNI statistics, embedded in Rocq.

    The development follows the three C++ translation units:
    - [EdgeDetection] : edge_detection.cpp ([applyCanny], [applySobel],
      [edgeToRGBA], [processFrame]);
    - [GLRenderer]    : gl_renderer.cpp ([compileShader],
      [createShaderProgram], [renderTexture]);
    - [JNI]           : jni_bridge.cpp (the performance counters,
      [nativeInit], [cleanup] and the [processFrame] entry point);
    - [GLResources]   : gl_renderer.cpp ([initializeGL], [createTexture],
      [updateTexture], [onSurfaceChanged], [cleanupGL]) on a device that
      also tracks the buffer and texture objects;
    - [JNIRenderer]   : jni_bridge.cpp ([initGL], [createShaderProgram],
      [createTexture], [updateTexture], [renderFrame]) and sequences of
      calls from Java.

    The sources call into OpenCV and OpenGL ES.  Module [cv] records what
    the OpenCV entry points check and the shape of what they return; the
    pixel arithmetic of the filters stays abstract (class [cv.Kernels]).
    The GL driver is an oracle ([GLRenderer.Driver]) and every GL call is
    appended to a trace. *)

From Stdlib Require Import ZArith Lia Bool.
From Stdlib Require Import Floats.SpecFloat.
From stdpp Require Import base list strings gmap.

Local Open Scope Z_scope.

#[local] Set Warnings "-clear-no-such-hyp".

(** ** C integers *)

Definition INT_MAX : Z := 2147483647.
Definition INT_MIN : Z := -2147483648.

(** Two's-complement wrap-around of a 32-bit [int]. *)
Definition wrap32 (z : Z) : Z := (z + 2 ^ 31) mod 2 ^ 32 - 2 ^ 31.

(** C++ [%] on [int]: the remainder of the truncating division. *)
Definition int_rem (a b : Z) : Z := Z.rem a b.

(** ** IEEE-754 binary64, the C++ [double] *)

Module Double.

Definition prec : Z := 53.
Definition emax : Z := 1024.

Definition double : Type := spec_float.

(** Conversion of an integer, round to nearest even. *)
Definition of_Z (z : Z) : double := binary_normalize prec emax z 0 false.

Definition add : double -> double -> double := SFadd prec emax.
Definition mul : double -> double -> double := SFmul prec emax.
Definition div : double -> double -> double := SFdiv prec emax.
Definition sqrt : double -> double := SFsqrt prec emax.
Definition ltb : double -> double -> bool := SFltb.
Definition leb : double -> double -> bool := SFleb.

Definition is_zero (x : double) : bool :=
  match x with S754_zero _ => true | _ => false end.

(** The magnitude [m * 2^e] of a finite value rounded to the nearest
    integer, ties to even. *)
Definition round_mag (m : positive) (e : Z) : Z :=
  if 0 <=? e then Zpos m * 2 ^ e
  else
    let d := 2 ^ (- e) in
    let q := Zpos m / d in
    let r := Zpos m mod d in
    if 2 * r <? d then q
    else if d <? 2 * r then q + 1
    else if Z.even q then q else q + 1.

(** The magnitude truncated toward zero. *)
Definition trunc_mag (m : positive) (e : Z) : Z :=
  if 0 <=? e then Zpos m * 2 ^ e else Zpos m / 2 ^ (- e).

(** [lrint] in the default rounding mode; [None] on NaN and infinities. *)
Definition lrint (x : double) : option Z :=
  match x with
  | S754_zero _ => Some 0
  | S754_finite s m e => Some (if s then - round_mag m e else round_mag m e)
  | _ => None
  end.

(** The C cast [(int)x] where it is defined: truncation toward zero. *)
Definition trunc (x : double) : option Z :=
  match x with
  | S754_zero _ => Some 0
  | S754_finite s m e => Some (if s then - trunc_mag m e else trunc_mag m e)
  | _ => None
  end.

End Double.

Abbreviation double := Double.double.

(** ** The OpenCV calls made by edge_detection.cpp *)

Module cv.

(** [cv::Mat] holding 8-bit or 64-bit elements: [data] is the row-major,
    channel-interleaved element sequence. *)
Record Mat (A : Type) : Type := mkMat {
  rows : Z;
  cols : Z;
  channels : Z;
  data : list A
}.
Arguments mkMat {A} _ _ _ _.
Arguments rows {A} _.
Arguments cols {A} _.
Arguments channels {A} _.
Arguments data {A} _.

(** [Mat::total()]: the number of pixels. *)
Definition total {A} (m : Mat A) : Z := rows m * cols m.

(** [Mat::empty()] for a header over non-null data. *)
Definition empty {A} (m : Mat A) : bool := total m =? 0.

Definition clone {A} (m : Mat A) : Mat A := m.

(** [Mat(rows, cols, CV_8UC(cn), ptr)]: a header over a caller buffer. *)
Definition Mat_over (h w cn : Z) (buf : list Z) : Mat Z :=
  mkMat h w cn (take (Z.to_nat (h * w * cn)) buf).

Definition tabulate {A} (n : nat) (f : nat -> A) : list A := f <$> seq 0 n.

(** [Mat::create] asserts that no extent is negative. *)
Definition size_ok {A} (m : Mat A) : bool := (0 <=? rows m) && (0 <=? cols m).

Inductive ColorConversionCode := COLOR_RGBA2GRAY | COLOR_BGR2GRAY.

(** The per-element arithmetic of the four filters: the value the
    filter stores at element [i] of its destination.
    [cvRound_outside_int] is what the double-to-int conversion of the
    platform returns for a NaN, an infinity or a value that does not fit
    an [int]: the "integer indefinite" [INT_MIN] on x86, a saturated or a
    wrapped value on the ARM builds. *)
Class Kernels : Type := {
  cvtColor_at : ColorConversionCode -> Mat Z -> nat -> Z;
  GaussianBlur_at : Mat Z -> Z -> Z -> double -> double -> nat -> Z;
  Sobel_at : Mat Z -> Z -> Z -> Z -> nat -> double;
  Canny_at : Mat Z -> double -> double -> Z -> bool -> nat -> Z;
  cvRound_outside_int : double -> Z
}.

(** [saturate_cast<uchar>(int)]. *)
Definition saturate_cast_uchar_int (v : Z) : Z :=
  if (0 <=? v) && (v <=? 255) then v else if 0 <? v then 255 else 0.

Section Rounding.
Context `{K : Kernels}.

(** [cvRound]: [lrint] (round to nearest, ties to even) narrowed to
    [int].  Where the rounded value fits an [int] it is the result;
    elsewhere the result is the platform's. *)
Definition cvRound (x : double) : Z :=
  match Double.lrint x with
  | Some z => if (INT_MIN <=? z) && (z <=? INT_MAX) then z
              else cvRound_outside_int x
  | None => cvRound_outside_int x
  end.

(** [saturate_cast<uchar>(double)]. *)
Definition saturate_cast_uchar (x : double) : Z :=
  saturate_cast_uchar_int (cvRound x).

End Rounding.

(** The conversion that the specification text describes for the Sobel
    magnitude, kept for comparison with [saturate_cast_uchar]: the C cast
    to [int] followed by reduction modulo 256. *)
Definition truncating_cast_uchar (x : double) : Z :=
  match Double.trunc x with
  | Some z => z mod 256
  | None => 0
  end.

Section Calls.
Context `{K : Kernels}.

(** [cv::cvtColor] to gray: source must have 3 or 4 channels; the
    destination is single-channel and of the same size.  [None] is a
    thrown [cv::Exception]. *)
Definition cvtColor (code : ColorConversionCode) (src : Mat Z) : option (Mat Z) :=
  if size_ok src && ((channels src =? 3) || (channels src =? 4))
  then Some (mkMat (rows src) (cols src) 1
               (tabulate (Z.to_nat (total src)) (cvtColor_at code src)))
  else None.

(** Kernel extent derived from sigma for 8-bit data:
    [cvRound(sigma*3*2 + 1) | 1]. *)
Definition auto_ksize (sigma : double) : Z :=
  Z.lor (cvRound (Double.add
                    (Double.mul (Double.mul sigma (Double.of_Z 3)) (Double.of_Z 2))
                    (Double.of_Z 1))) 1.

(** [cv::GaussianBlur(src, dst, Size(kw, kh), sigma1, sigma2)] with the
    default border: an extent of the kernel along a one-pixel dimension
    becomes 1; a 1x1 kernel copies; a non-positive extent with a
    positive sigma is derived from sigma; after that both extents must
    be positive and odd. *)
Definition GaussianBlur (src : Mat Z) (kw kh : Z) (sigma1 sigma2 : double)
  : option (Mat Z) :=
  if empty src || negb (size_ok src) then None
  else
    let kh := if rows src =? 1 then 1 else kh in
    let kw := if cols src =? 1 then 1 else kw in
    if (kw =? 1) && (kh =? 1) then Some (clone src)
    else
      let sigma2 := if Double.leb sigma2 (Double.of_Z 0) then sigma1 else sigma2 in
      let kw := if (kw <=? 0) && Double.ltb (Double.of_Z 0) sigma1
                then auto_ksize sigma1 else kw in
      let kh := if (kh <=? 0) && Double.ltb (Double.of_Z 0) sigma2
                then auto_ksize sigma2 else kh in
      if (0 <? kw) && Z.odd kw && (0 <? kh) && Z.odd kh
      then Some (mkMat (rows src) (cols src) (channels src)
                   (tabulate (Z.to_nat (total src * channels src))
                      (GaussianBlur_at src kw kh sigma1 sigma2)))
      else None.

(** [cv::Canny(src, dst, lo, hi, aperture, L2gradient)] on 8-bit data of
    any channel count: the aperture must be odd and in 3..7 (or -1);
    the destination is single-channel and of the same size. *)
Definition Canny (src : Mat Z) (lo hi : double) (aperture : Z) (L2 : bool)
  : option (Mat Z) :=
  if negb (size_ok src) then None
  else if Z.even aperture
          || (negb (aperture =? -1) && ((aperture <? 3) || (7 <? aperture)))
  then None
  else Some (mkMat (rows src) (cols src) 1
               (tabulate (Z.to_nat (total src)) (Canny_at src lo hi aperture L2))).

(** [cv::Sobel(src, dst, CV_64F, dx, dy, ksize)]: a positive kernel
    size must be odd and at most 31 (a non-positive one selects the
    Scharr kernel); the destination keeps size and channel count. *)
Definition Sobel (src : Mat Z) (dx dy ksize : Z) : option (Mat double) :=
  if negb (size_ok src) then None
  else if (0 <? ksize) && (Z.even ksize || (31 <? ksize)) then None
  else Some (mkMat (rows src) (cols src) (channels src)
               (tabulate (Z.to_nat (total src * channels src))
                  (Sobel_at src dx dy ksize))).

End Calls.

(** [cv::magnitude(x, y, dst)]: element-wise [sqrt(x*x + y*y)]; the two
    operands must agree in size and type. *)
Definition magnitude_at (x y : double) : double :=
  Double.sqrt (Double.add (Double.mul x x) (Double.mul y y)).

Definition magnitude (x y : Mat double) : option (Mat double) :=
  if (rows x =? rows y) && (cols x =? cols y) && (channels x =? channels y)
  then Some (mkMat (rows x) (cols x) (channels x)
               (zip_with magnitude_at (data x) (data y)))
  else None.

(** [m.convertTo(dst, CV_8UC1)]: every element goes through
    [saturate_cast<uchar>]; the channel count of the source is kept. *)
Definition convertTo_8U `{K : Kernels} (m : Mat double) : Mat Z :=
  mkMat (rows m) (cols m) (channels m) (saturate_cast_uchar <$> data m).

(** The channels of pixel [p]. *)
Definition pixel {A} (m : Mat A) (p : nat) : list A :=
  take (Z.to_nat (channels m)) (drop (p * Z.to_nat (channels m)) (data m)).

(** [CV_CN_MAX]: the most channels a matrix can have. *)
Definition CV_CN_MAX : Z := 512.

(** [cv::merge(mv, dst)]: the planes must agree in size and their
    channels together must not exceed [CV_CN_MAX] (every plane has at
    least one); pixel [p] of the destination is the concatenation of
    pixel [p] of every plane. *)
Definition merge {A} (mv : list (Mat A)) : option (Mat A) :=
  match mv with
  | [] => None
  | m0 :: _ =>
      let cn := foldr (fun m acc => channels m + acc) 0 mv in
      if forallb (fun m => (rows m =? rows m0) && (cols m =? cols m0)) mv
         && (cn <=? CV_CN_MAX)
      then Some (mkMat (rows m0) (cols m0) cn
                   (concat ((fun p => concat ((fun m => pixel m p) <$> mv))
                              <$> seq 0 (Z.to_nat (total m0)))))
      else None
  end.

(** The invariant of a [cv::Mat] header: non-negative extents and exactly
    [rows * cols * channels] elements. *)
Definition wf {A} (m : Mat A) : Prop :=
  0 <= rows m /\ 0 <= cols m /\ 0 <= channels m /\
  Z.of_nat (length (data m)) = rows m * cols m * channels m.

End cv.

(** ** edge_detection.cpp *)

Module EdgeDetection.
Import cv.

(** A [false] return, named after the [LOGE] line that precedes it. *)
Inductive Failure :=
| InputMatrixEmpty      (* "Input matrix is empty" *)
| EdgeMatrixEmpty       (* "Edge matrix is empty" *)
| OpenCVException.      (* "OpenCV exception in ..." *)

Definition succeeded {A} (r : Failure + A) : bool :=
  match r with inr _ => true | inl _ => false end.

(** The constant [1.4] of the Canny path, as the nearest double. *)
Definition sigma_1_4 : double := Double.div (Double.of_Z 14) (Double.of_Z 10).

Section WithKernels.
Context `{K : Kernels}.

(** "Convert to grayscale if needed": the conversion common to both
    detectors. *)
Definition toGray (inputMat : Mat Z) : option (Mat Z) :=
  if channels inputMat =? 4 then cvtColor COLOR_RGBA2GRAY inputMat
  else if channels inputMat =? 3 then cvtColor COLOR_BGR2GRAY inputMat
  else Some (clone inputMat).

Definition applyCanny (inputMat : Mat Z) (lowThreshold highThreshold : double)
    (kernelSize : Z) : Failure + Mat Z :=
  if empty inputMat then inl InputMatrixEmpty
  else
    match
      grayMat ← toGray inputMat;
      blurredMat ← GaussianBlur grayMat kernelSize kernelSize sigma_1_4 (Double.of_Z 0);
      Canny blurredMat lowThreshold highThreshold 3 false
    with
    | Some outputMat => inr outputMat
    | None => inl OpenCVException
    end.

(** The two derivative planes that [applySobel] computes before it
    combines them. *)
Definition sobelDerivatives (inputMat : Mat Z) (kernelSize : Z)
  : option (Mat double * Mat double) :=
  grayMat ← toGray inputMat;
  blurredMat ← GaussianBlur grayMat 3 3 (Double.of_Z 0) (Double.of_Z 0);
  sobelX ← Sobel blurredMat 1 0 kernelSize;
  sobelY ← Sobel blurredMat 0 1 kernelSize;
  Some (sobelX, sobelY).

Definition applySobel (inputMat : Mat Z) (kernelSize : Z) : Failure + Mat Z :=
  if empty inputMat then inl InputMatrixEmpty
  else
    match
      grayMat ← toGray inputMat;
      blurredMat ← GaussianBlur grayMat 3 3 (Double.of_Z 0) (Double.of_Z 0);
      sobelX ← Sobel blurredMat 1 0 kernelSize;
      sobelY ← Sobel blurredMat 0 1 kernelSize;
      magnitude ← magnitude sobelX sobelY;
      Some (convertTo_8U magnitude)
    with
    | Some outputMat => inr outputMat
    | None => inl OpenCVException
    end.

End WithKernels.

Definition edgeToRGBA (edgeMat : Mat Z) : Failure + Mat Z :=
  if empty edgeMat then inl EdgeMatrixEmpty
  else
    match merge [edgeMat; edgeMat; edgeMat; edgeMat] with
    | Some rgbaMat => inr rgbaMat
    | None => inl OpenCVException
    end.

(** [memcpy(dst + off, src, n)] on the caller's buffer. *)
Definition memcpy (dst : list Z) (off : nat) (src : list Z) (n : nat) : list Z :=
  take off dst ++ take n src ++ drop (off + n) dst.

(** Row [i] of a matrix, [m.ptr<uint8_t>(i)]. *)
Definition row_ptr (m : Mat Z) (i : nat) : list Z :=
  drop (i * Z.to_nat (cols m * channels m)) (data m).

(** The row-by-row copy of the non-continuous branch. *)
Fixpoint copy_rows (outputData : list Z) (outputMat : Mat Z) (width : Z)
    (i n : nat) : list Z :=
  match n with
  | O => outputData
  | S n' =>
      copy_rows
        (memcpy outputData (i * Z.to_nat (wrap32 (width * 4)))
           (row_ptr outputMat i) (Z.to_nat (wrap32 (width * 4))))
        outputMat width (S i) n'
  end.

Section WithKernels.
Context `{K : Kernels}.

(** [processFrame]: a null pointer is [None]; the second component is
    the caller's output buffer after the call.  [continuous] is
    [outputMat.isContinuous()]. *)
Definition processFrame_with (continuous : bool) (inputData : option (list Z))
    (width height : Z) (outputData : option (list Z))
  : bool * option (list Z) :=
  match inputData, outputData with
  | Some inp, Some out =>
      let inputMat := Mat_over height width 4 inp in
      match applyCanny inputMat (Double.of_Z 50) (Double.of_Z 150) 3 with
      | inl _ => (false, Some out)
      | inr edgeMat =>
          match edgeToRGBA edgeMat with
          | inl _ => (false, Some out)
          | inr outputMat =>
              if continuous
              then (true, Some (memcpy out 0 (data outputMat)
                                  (Z.to_nat (wrap32 (width * height * 4)))))
              else (true, Some (copy_rows out outputMat width 0 (Z.to_nat height)))
          end
      end
  | _, _ => (false, outputData)
  end.

(** [cv::merge] allocates its destination: it is continuous. *)
Definition processFrame := processFrame_with true.

End WithKernels.

End EdgeDetection.

(** ** gl_renderer.cpp *)

Module GLRenderer.

Inductive GLenum :=
| GL_COLOR_BUFFER_BIT | GL_TEXTURE0 | GL_TEXTURE_2D
| GL_ARRAY_BUFFER | GL_ELEMENT_ARRAY_BUFFER
| GL_FLOAT | GL_UNSIGNED_INT | GL_TRIANGLES
| GL_VERTEX_SHADER | GL_FRAGMENT_SHADER
| GL_COMPILE_STATUS | GL_LINK_STATUS.

(** Every entry point of the GL API that the renderer reaches. *)
Inductive Call :=
| glClear (mask : GLenum)
| glUseProgram (program : Z)
| glActiveTexture (texture : GLenum)
| glBindTexture (target : GLenum) (texture : Z)
| glUniform1i (location v : Z)
| glBindBuffer (target : GLenum) (buffer : Z)
| glVertexAttribPointer (index size : Z) (type : GLenum) (normalized : bool)
    (stride offset : Z)
| glEnableVertexAttribArray (index : Z)
| glDisableVertexAttribArray (index : Z)
| glDrawElements (mode : GLenum) (count : Z) (type : GLenum) (offset : Z)
| glGetError
| glCreateShader (type : GLenum)
| glShaderSource (shader : Z) (source : string)
| glCompileShader (shader : Z)
| glGetShaderiv (shader : Z) (pname : GLenum)
| glGetShaderInfoLog (shader : Z)
| glDeleteShader (shader : Z)
| glCreateProgram
| glAttachShader (program shader : Z)
| glLinkProgram (program : Z)
| glGetProgramiv (program : Z) (pname : GLenum)
| glGetProgramInfoLog (program : Z)
| glDeleteProgram (program : Z)
| glGetAttribLocation (program : Z) (name : string)
| glGetUniformLocation (program : Z) (name : string).

Inductive LogArg := ArgS (s : string) | ArgZ (z : Z) | ArgF (x : double).

(** A line written through [__android_log_print]: format and arguments. *)
Inductive LogLine :=
| LOGI (fmt : string) (args : list LogArg)
| LOGE (fmt : string) (args : list LogArg).

(** The graphics context as the renderer sees it: the shader and program
    names it has created and not yet handed to [glDelete*], the static
    buffer names, the calls issued so far and the log. *)
Record Context := mkContext {
  shaders : gset Z;
  programs : gset Z;
  VAO : Z;
  VBO : Z;
  EBO : Z;
  calls : list Call;
  log : list LogLine
}.

Definition emit (c : Call) (st : Context) : Context :=
  mkContext (shaders st) (programs st) (VAO st) (VBO st) (EBO st)
    (calls st ++ [c]) (log st).

Definition write_log (l : LogLine) (st : Context) : Context :=
  mkContext (shaders st) (programs st) (VAO st) (VBO st) (EBO st)
    (calls st) (log st ++ [l]).

(** What the driver answers: whether an object can be created, the
    compile and link status, the diagnostics, the resolved locations and
    the pending error code.  The link status read for program name 0 is
    whatever the uninitialised local happens to hold. *)
Class Driver : Type := {
  shader_alloc_fails : Context -> GLenum -> bool;
  compile_status : GLenum -> string -> bool;
  shader_info_log : GLenum -> string -> string;
  program_alloc_fails : Context -> bool;
  link_status : Context -> Z -> bool;
  program_info_log : Context -> Z -> string;
  attrib_location : Context -> Z -> string -> Z;
  uniform_location : Context -> Z -> string -> Z;
  pending_error : Context -> Z
}.

(** A name the driver hands out: non-zero and not in use. *)
Definition fresh_name (st : Context) : Z :=
  fresh ({[0]} ∪ shaders st ∪ programs st).

(** [glDeleteShader] and [glDeleteProgram]: the name 0 is silently
    ignored.  (The driver keeps a deleted shader alive while it is
    attached; the sets below track the names the renderer still owes a
    delete.) *)
Definition do_glDeleteShader (shader : Z) (st : Context) : Context :=
  let st := emit (glDeleteShader shader) st in
  if shader =? 0 then st
  else mkContext (shaders st ∖ {[shader]}) (programs st) (VAO st) (VBO st) (EBO st)
         (calls st) (log st).

Definition do_glDeleteProgram (program : Z) (st : Context) : Context :=
  let st := emit (glDeleteProgram program) st in
  if program =? 0 then st
  else mkContext (shaders st) (programs st ∖ {[program]}) (VAO st) (VBO st) (EBO st)
         (calls st) (log st).

Record ShaderProgram := mkShaderProgram {
  programId : Z;
  positionAttrib : Z;
  texCoordAttrib : Z;
  textureUniform : Z;
  mvpMatrixUniform : Z
}.

Record TextureInfo := mkTextureInfo {
  textureId : Z;
  width : Z;
  height : Z;
  format : Z
}.

Definition GL_NO_ERROR : Z := 0.

Section WithDriver.
Context `{D : Driver}.

Definition do_glCreateShader (type : GLenum) (st : Context) : Z * Context :=
  let st := emit (glCreateShader type) st in
  if shader_alloc_fails st type then (0, st)
  else
    let shader := fresh_name st in
    (shader, mkContext ({[shader]} ∪ shaders st) (programs st)
               (VAO st) (VBO st) (EBO st) (calls st) (log st)).

Definition do_glCreateProgram (st : Context) : Z * Context :=
  let st := emit glCreateProgram st in
  if program_alloc_fails st then (0, st)
  else
    let program := fresh_name st in
    (program, mkContext (shaders st) ({[program]} ∪ programs st)
                (VAO st) (VBO st) (EBO st) (calls st) (log st)).

Definition checkGLError (operation : string) (st : Context) : Context :=
  let error := pending_error st in
  let st := emit glGetError st in
  if error =? GL_NO_ERROR then st
  else write_log (LOGE "OpenGL error after %s: 0x%x" [ArgS operation; ArgZ error]) st.

Definition compileShader (type : GLenum) (source : string) (st : Context)
  : Z * Context :=
  let '(shader, st) := do_glCreateShader type st in
  if shader =? 0 then (0, write_log (LOGE "Failed to create shader" []) st)
  else
    let st := emit (glShaderSource shader source) st in
    let st := emit (glCompileShader shader) st in
    let st := emit (glGetShaderiv shader GL_COMPILE_STATUS) st in
    if compile_status type source then (shader, st)
    else
      let st := emit (glGetShaderInfoLog shader) st in
      let st := write_log (LOGE "Shader compilation failed: %s"
                             [ArgS (shader_info_log type source)]) st in
      (0, do_glDeleteShader shader st).

(** The block "Create shader program" of [createShaderProgram], up to
    the read of [GL_LINK_STATUS]: the new program name and the context in
    which the status is read. *)
Definition linkProgram_query (vertexShader fragmentShader : Z) (st : Context)
  : Z * Context :=
  let '(id, st) := do_glCreateProgram st in
  let st := emit (glAttachShader id vertexShader) st in
  let st := emit (glAttachShader id fragmentShader) st in
  let st := emit (glLinkProgram id) st in
  (id, emit (glGetProgramiv id GL_LINK_STATUS) st).

(** ... and the block "Check linking status": the value left in
    [program.programId]. *)
Definition linkProgram (vertexShader fragmentShader : Z) (st : Context)
  : Z * Context :=
  let '(id, st) := linkProgram_query vertexShader fragmentShader st in
  if link_status st id then (id, st)
  else
    let infoLog := program_info_log st id in
    let st := emit (glGetProgramInfoLog id) st in
    let st := write_log (LOGE "Shader program linking failed: %s" [ArgS infoLog]) st in
    (0, do_glDeleteProgram id st).

Definition createShaderProgram (vertexShaderSource fragmentShaderSource : string)
    (st : Context) : ShaderProgram * Context :=
  let program := mkShaderProgram 0 0 0 0 0 in
  let '(vertexShader, st) := compileShader GL_VERTEX_SHADER vertexShaderSource st in
  if vertexShader =? 0
  then (program, write_log (LOGE "Failed to compile vertex shader" []) st)
  else
    let '(fragmentShader, st) :=
      compileShader GL_FRAGMENT_SHADER fragmentShaderSource st in
    if fragmentShader =? 0
    then
      let st := write_log (LOGE "Failed to compile fragment shader" []) st in
      (program, do_glDeleteShader vertexShader st)
    else
      let '(id, st) := linkProgram vertexShader fragmentShader st in
      let st := do_glDeleteShader vertexShader st in
      let st := do_glDeleteShader fragmentShader st in
      let '(program, st) :=
        if id =? 0 then (mkShaderProgram id 0 0 0 0, st)
        else
          let pos := attrib_location st id "aPosition" in
          let st := emit (glGetAttribLocation id "aPosition") st in
          let tex := attrib_location st id "aTexCoord" in
          let st := emit (glGetAttribLocation id "aTexCoord") st in
          let smp := uniform_location st id "uTexture" in
          let st := emit (glGetUniformLocation id "uTexture") st in
          let mvp := uniform_location st id "uMVPMatrix" in
          let st := emit (glGetUniformLocation id "uMVPMatrix") st in
          (mkShaderProgram id pos tex smp mvp,
           write_log (LOGI "Shader program created successfully (ID: %d)"
                        [ArgZ id]) st) in
      (program, checkGLError "createShaderProgram" st).

(** [sizeof(float)]. *)
Definition sizeof_float : Z := 4.

(** The conversion of an [int] location to the [GLuint] index that
    [glVertexAttribPointer], [glEnableVertexAttribArray] and
    [glDisableVertexAttribArray] take: a negative [int] gains 2^32, so
    the location -1 of an attribute that was not found becomes
    4294967295.  (A value outside [int] cannot occur; it is left as it
    is.) *)
Definition GLuint_of_int (i : Z) : Z :=
  if (INT_MIN <=? i) && (i <? 0) then i + 2 ^ 32 else i.

Definition renderTexture (shaderProgram : ShaderProgram) (textureInfo : TextureInfo)
    (st : Context) : Context :=
  if (programId shaderProgram =? 0) || (textureId textureInfo =? 0)
  then write_log (LOGE "Invalid shader program or texture" []) st
  else
    let st := emit (glClear GL_COLOR_BUFFER_BIT) st in
    let st := emit (glUseProgram (programId shaderProgram)) st in
    let st := emit (glActiveTexture GL_TEXTURE0) st in
    let st := emit (glBindTexture GL_TEXTURE_2D (textureId textureInfo)) st in
    let st := emit (glUniform1i (textureUniform shaderProgram) 0) st in
    let st := emit (glBindBuffer GL_ARRAY_BUFFER (VBO st)) st in
    let st := emit (glVertexAttribPointer
                      (GLuint_of_int (positionAttrib shaderProgram)) 2
                      GL_FLOAT false (4 * sizeof_float) 0) st in
    let st := emit (glEnableVertexAttribArray
                      (GLuint_of_int (positionAttrib shaderProgram))) st in
    let st := emit (glVertexAttribPointer
                      (GLuint_of_int (texCoordAttrib shaderProgram)) 2
                      GL_FLOAT false (4 * sizeof_float) (2 * sizeof_float)) st in
    let st := emit (glEnableVertexAttribArray
                      (GLuint_of_int (texCoordAttrib shaderProgram))) st in
    let st := emit (glBindBuffer GL_ELEMENT_ARRAY_BUFFER (EBO st)) st in
    let st := emit (glDrawElements GL_TRIANGLES 6 GL_UNSIGNED_INT 0) st in
    let st := emit (glDisableVertexAttribArray
                      (GLuint_of_int (positionAttrib shaderProgram))) st in
    let st := emit (glDisableVertexAttribArray
                      (GLuint_of_int (texCoordAttrib shaderProgram))) st in
    checkGLError "renderTexture" st.

End WithDriver.

End GLRenderer.

(** ** jni_bridge.cpp *)

Module JNI.

(** The three file-scope performance counters.  [lastFrameTime] is a
    reading of [high_resolution_clock] in ticks of one nanosecond. *)
Record Stats := mkStats {
  lastFrameTime : Z;
  frameCount : Z;
  averageFps : double
}.

Definition ticks_per_ms : Z := 1000000.

(** [duration_cast<milliseconds>(t1 - t0).count()]: truncation toward zero. *)
Definition duration_ms (t1 t0 : Z) : Z := Z.quot (t1 - t0) ticks_per_ms.

(** [nativeInit] at clock reading [now]. *)
Definition nativeInit (now : Z) (st : Stats) : bool * Stats :=
  (true, mkStats now 0 (Double.of_Z 0)).

Definition cleanup (st : Stats) : Stats :=
  mkStats (lastFrameTime st) 0 (Double.of_Z 0).

(** What the Java VM answers during one [processFrame] call. *)
Record JNIEnv := mkJNIEnv {
  input_elements_ok : bool;    (* GetByteArrayElements(inputArray) non-null *)
  NewByteArray_ok : bool;      (* NewByteArray non-null *)
  output_elements_ok : bool    (* GetByteArrayElements(outputArray) non-null *)
}.

(** The figure stored at a sample: [30000.0 / totalDuration]. *)
Definition fps_of (totalDuration : Z) : double :=
  Double.div (Double.of_Z 30000) (Double.of_Z totalDuration).

(** "Update performance metrics", at clock reading [frameEnd].  The
    increment of the [int] counter wraps; at [INT_MAX] C++ leaves it
    undefined. *)
Definition updateMetrics (frameEnd : Z) (st : Stats) : Stats :=
  let frameCount' := wrap32 (frameCount st + 1) in
  if int_rem frameCount' 30 =? 0
  then mkStats frameEnd frameCount'
         (fps_of (duration_ms frameEnd (lastFrameTime st)))
  else mkStats (lastFrameTime st) frameCount' (averageFps st).

Section WithKernels.
Context `{K : cv.Kernels}.

(** [Java_..._processFrame]: [None] is Java [null]; the result is the
    returned array and the counters after the call.  The expected length
    [width * height * 4] is formed in [jint] arithmetic. *)
Definition processFrame (env : JNIEnv) (inputArray : option (list Z))
    (width height : Z) (frameEnd : Z) (st : Stats) : option (list Z) * Stats :=
  match inputArray with
  | None => (None, st)
  | Some inputBytes =>
      if negb (input_elements_ok env) then (None, st)
      else
        let inputLength := Z.of_nat (length inputBytes) in
        if negb (inputLength =? wrap32 (wrap32 (width * height) * 4)) then (None, st)
        else if negb (NewByteArray_ok env) then (None, st)
        else
          let outputBytes := replicate (length inputBytes) 0 in
          if negb (output_elements_ok env) then (None, st)
          else
            match EdgeDetection.processFrame (Some inputBytes) width height
                    (Some outputBytes) with
            | (true, Some outputArray) => (Some outputArray, updateMetrics frameEnd st)
            | _ => (None, st)
            end
  end.

(** One call of [processFrame] by the Java side: the VM's answers, the
    arguments and the clock reading when the frame is finished. *)
Record FrameCall := mkFrameCall {
  env : JNIEnv;
  inputArray : option (list Z);
  width : Z;
  height : Z;
  frameEnd : Z
}.

Definition call (f : FrameCall) (st : Stats) : option (list Z) * Stats :=
  processFrame (env f) (inputArray f) (width f) (height f) (frameEnd f) st.

(** The counters after a sequence of calls. *)
Fixpoint run (frames : list FrameCall) (st : Stats) : Stats :=
  match frames with
  | [] => st
  | f :: frames' => run frames' (snd (call f st))
  end.

(** Every call of the sequence returns an array. *)
Fixpoint all_succeed (frames : list FrameCall) (st : Stats) : Prop :=
  match frames with
  | [] => True
  | f :: frames' => is_Some (fst (call f st)) /\ all_succeed frames' (snd (call f st))
  end.

End WithKernels.

End JNI.

(** ** gl_renderer.cpp: surface set-up, textures and clean-up

    [initializeGL], [createTexture], [updateTexture], [onSurfaceChanged]
    and [cleanupGL] create and delete buffer and texture objects and reach
    further entry points of the GL API.  The device below extends the
    renderer's context by the buffer and texture names that are live and
    by one trace of all GL calls in the order in which they are issued. *)

Module GLResources.
Import GLRenderer.

Inductive Param :=
| GL_BLEND | GL_SRC_ALPHA | GL_ONE_MINUS_SRC_ALPHA | GL_STATIC_DRAW
| GL_TEXTURE_MIN_FILTER | GL_TEXTURE_MAG_FILTER
| GL_TEXTURE_WRAP_S | GL_TEXTURE_WRAP_T
| GL_LINEAR | GL_CLAMP_TO_EDGE | GL_UNSIGNED_BYTE.

Definition GL_RGBA : Z := 0x1908.

(** The quad: four vertices of two position and two texture coordinates
    (all of them integral [float] values), and the six indices of its two
    triangles. *)
Definition quadVertices : list Z :=
  [-1; 1; 0; 0;   -1; -1; 0; 1;   1; -1; 1; 1;   1; 1; 1; 0].

Definition quadIndices : list Z := [0; 1; 2;  0; 2; 3].

Definition sizeof_unsigned_int : Z := 4.

(** [sizeof] of a static array with elements of [elem] bytes. *)
Definition sizeof_array (elem : Z) (a : list Z) : Z := elem * Z.of_nat (length a).

(** The entry points reached by these functions only. *)
Inductive SetupCall :=
| glViewport (x y width height : Z)
| glEnable (cap : Param)
| glBlendFunc (sfactor dfactor : Param)
| glGenBuffers (n : Z)
| glBufferData (target : GLenum) (size : Z) (data : list Z) (usage : Param)
| glClearColor (red green blue alpha : Z)
| glGenTextures (n : Z)
| glTexParameteri (target : GLenum) (pname param : Param)
| glTexImage2D (target : GLenum) (level internalformat width height border format : Z)
    (type : Param)
| glTexSubImage2D (target : GLenum) (level xoffset yoffset width height format : Z)
    (type : Param) (pixels : list Z)
| glDeleteTextures (texture : Z)
| glDeleteBuffers (buffer : Z).

Inductive Event :=
| Core (c : Call)
| Setup (c : SetupCall).

Record Device := mkDevice {
  context : Context;
  textures : gset Z;
  buffers : gset Z;
  events : list Event
}.

(** The calls a function of the renderer has added to the context. *)
Definition new_calls (before after : Context) : list Call :=
  drop (length (calls before)) (calls after).

(** A function of the renderer's context, run on the device. *)
Definition lift (f : Context -> Context) (dev : Device) : Device :=
  let ctx := f (context dev) in
  mkDevice ctx (textures dev) (buffers dev)
    (events dev ++ (Core <$> new_calls (context dev) ctx)).

Definition lift_with {A : Type} (f : Context -> A * Context) (dev : Device)
  : A * Device :=
  let '(a, ctx) := f (context dev) in
  (a, mkDevice ctx (textures dev) (buffers dev)
        (events dev ++ (Core <$> new_calls (context dev) ctx))).

Definition issue (c : SetupCall) (dev : Device) : Device :=
  mkDevice (context dev) (textures dev) (buffers dev) (events dev ++ [Setup c]).

(** [glGenBuffers(1, &name)] and [glGenTextures(1, &name)]: the driver
    hands out a name that is non-zero and not in use for an object of that
    kind. *)
Definition do_glGenBuffers (dev : Device) : Z * Device :=
  let dev := issue (glGenBuffers 1) dev in
  let name := fresh ({[0]} ∪ buffers dev) in
  (name, mkDevice (context dev) (textures dev) ({[name]} ∪ buffers dev) (events dev)).

Definition do_glGenTextures (dev : Device) : Z * Device :=
  let dev := issue (glGenTextures 1) dev in
  let name := fresh ({[0]} ∪ textures dev) in
  (name, mkDevice (context dev) ({[name]} ∪ textures dev) (buffers dev) (events dev)).

(** [glDeleteBuffers(1, &name)] and [glDeleteTextures(1, &name)]: the
    name 0 and names that are not in use are silently ignored. *)
Definition do_glDeleteBuffers (name : Z) (dev : Device) : Device :=
  let dev := issue (glDeleteBuffers name) dev in
  mkDevice (context dev) (textures dev) (buffers dev ∖ {[name]}) (events dev).

Definition do_glDeleteTextures (name : Z) (dev : Device) : Device :=
  let dev := issue (glDeleteTextures name) dev in
  mkDevice (context dev) (textures dev ∖ {[name]}) (buffers dev) (events dev).

(** Assignments to the three file-scope buffer names. *)
Definition set_VAO (name : Z) (dev : Device) : Device :=
  let c := context dev in
  mkDevice (mkContext (shaders c) (programs c) name (VBO c) (EBO c) (calls c) (log c))
    (textures dev) (buffers dev) (events dev).

Definition set_VBO (name : Z) (dev : Device) : Device :=
  let c := context dev in
  mkDevice (mkContext (shaders c) (programs c) (VAO c) name (EBO c) (calls c) (log c))
    (textures dev) (buffers dev) (events dev).

Definition set_EBO (name : Z) (dev : Device) : Device :=
  let c := context dev in
  mkDevice (mkContext (shaders c) (programs c) (VAO c) (VBO c) name (calls c) (log c))
    (textures dev) (buffers dev) (events dev).

(** The values of the three file-scope buffer names. *)
Definition buffer_names (c : Context) : Z * Z * Z := (VAO c, VBO c, EBO c).

(** The objects that are live: shaders, programs, textures and buffers. *)
Definition live (dev : Device) : gset Z * gset Z * gset Z * gset Z :=
  (shaders (context dev), programs (context dev), textures dev, buffers dev).

Section WithDriver.
Context `{D : Driver}.

Definition initializeGL (width height : Z) (dev : Device) : bool * Device :=
  let dev := lift (write_log (LOGI "Initializing OpenGL ES renderer (%dx%d)"
                                [ArgZ width; ArgZ height])) dev in
  let dev := issue (glViewport 0 0 width height) dev in
  let dev := lift (checkGLError "glViewport") dev in
  let dev := issue (glEnable GL_BLEND) dev in
  let dev := issue (glBlendFunc GL_SRC_ALPHA GL_ONE_MINUS_SRC_ALPHA) dev in
  let dev := lift (checkGLError "glBlendFunc") dev in
  let '(vao, dev) := do_glGenBuffers dev in
  let dev := set_VAO vao dev in
  let '(vbo, dev) := do_glGenBuffers dev in
  let dev := set_VBO vbo dev in
  let '(ebo, dev) := do_glGenBuffers dev in
  let dev := set_EBO ebo dev in
  let dev := lift (emit (glBindBuffer GL_ARRAY_BUFFER (VBO (context dev)))) dev in
  let dev := issue (glBufferData GL_ARRAY_BUFFER (sizeof_array sizeof_float quadVertices)
                      quadVertices GL_STATIC_DRAW) dev in
  let dev := lift (emit (glBindBuffer GL_ELEMENT_ARRAY_BUFFER (EBO (context dev)))) dev in
  let dev := issue (glBufferData GL_ELEMENT_ARRAY_BUFFER
                      (sizeof_array sizeof_unsigned_int quadIndices)
                      quadIndices GL_STATIC_DRAW) dev in
  let dev := lift (checkGLError "Buffer setup") dev in
  let dev := issue (glClearColor 0 0 0 1) dev in
  let dev := lift (write_log (LOGI "OpenGL ES initialization completed successfully"
                                [])) dev in
  (true, dev).

Definition createShaderProgram (vertexShaderSource fragmentShaderSource : string)
    (dev : Device) : ShaderProgram * Device :=
  lift_with (GLRenderer.createShaderProgram vertexShaderSource fragmentShaderSource) dev.

Definition createTexture (width height : Z) (dev : Device) : TextureInfo * Device :=
  let '(id, dev) := do_glGenTextures dev in
  let dev := lift (emit (glBindTexture GL_TEXTURE_2D id)) dev in
  let dev := issue (glTexParameteri GL_TEXTURE_2D GL_TEXTURE_MIN_FILTER GL_LINEAR) dev in
  let dev := issue (glTexParameteri GL_TEXTURE_2D GL_TEXTURE_MAG_FILTER GL_LINEAR) dev in
  let dev := issue (glTexParameteri GL_TEXTURE_2D GL_TEXTURE_WRAP_S GL_CLAMP_TO_EDGE) dev in
  let dev := issue (glTexParameteri GL_TEXTURE_2D GL_TEXTURE_WRAP_T GL_CLAMP_TO_EDGE) dev in
  let dev := issue (glTexImage2D GL_TEXTURE_2D 0 GL_RGBA width height 0 GL_RGBA
                      GL_UNSIGNED_BYTE) dev in
  let texInfo := mkTextureInfo id width height GL_RGBA in
  let dev := lift (checkGLError "createTexture") dev in
  let dev := lift (write_log (LOGI "Texture created successfully (ID: %d, Size: %dx%d)"
                                [ArgZ id; ArgZ width; ArgZ height])) dev in
  (texInfo, dev).

(** [pixelData] is [None] for a null pointer. *)
Definition updateTexture (textureInfo : TextureInfo) (pixelData : option (list Z))
    (dev : Device) : Device :=
  match pixelData with
  | Some pixels =>
      if textureId textureInfo =? 0
      then lift (write_log (LOGE "Invalid texture or pixel data" [])) dev
      else
        let dev := lift (emit (glBindTexture GL_TEXTURE_2D (textureId textureInfo))) dev in
        let dev := issue (glTexSubImage2D GL_TEXTURE_2D 0 0 0
                            (width textureInfo) (height textureInfo)
                            (format textureInfo) GL_UNSIGNED_BYTE pixels) dev in
        lift (checkGLError "updateTexture") dev
  | None => lift (write_log (LOGE "Invalid texture or pixel data" [])) dev
  end.

Definition renderTexture (shaderProgram : ShaderProgram) (textureInfo : TextureInfo)
    (dev : Device) : Device :=
  lift (GLRenderer.renderTexture shaderProgram textureInfo) dev.

Definition onSurfaceChanged (newWidth newHeight : Z) (dev : Device) : Device :=
  let dev := issue (glViewport 0 0 newWidth newHeight) dev in
  lift (write_log (LOGI "Surface changed to %dx%d" [ArgZ newWidth; ArgZ newHeight])) dev.

Definition cleanupGL (shaderProgram : ShaderProgram) (textureInfo : TextureInfo)
    (dev : Device) : Device :=
  let dev :=
    if programId shaderProgram =? 0 then dev
    else
      let dev := lift (do_glDeleteProgram (programId shaderProgram)) dev in
      lift (write_log (LOGI "Deleted shader program: %d"
                         [ArgZ (programId shaderProgram)])) dev in
  let dev :=
    if textureId textureInfo =? 0 then dev
    else
      let dev := do_glDeleteTextures (textureId textureInfo) dev in
      lift (write_log (LOGI "Deleted texture: %d" [ArgZ (textureId textureInfo)])) dev in
  let dev := if VAO (context dev) =? 0 then dev
             else do_glDeleteBuffers (VAO (context dev)) dev in
  let dev := if VBO (context dev) =? 0 then dev
             else do_glDeleteBuffers (VBO (context dev)) dev in
  let dev := if EBO (context dev) =? 0 then dev
             else do_glDeleteBuffers (EBO (context dev)) dev in
  lift (write_log (LOGI "OpenGL cleanup completed" [])) dev.

End WithDriver.

End GLResources.

(** ** jni_bridge.cpp: the entry points of the renderer *)

Module JNIRenderer.
Import GLRenderer GLResources.

Definition vertexShaderSource : string :=
"
#version 100
attribute vec2 aPosition;
attribute vec2 aTexCoord;
varying vec2 vTexCoord;
uniform mat4 uMVPMatrix;

void main() {
    vTexCoord = aTexCoord;
    gl_Position = vec4(aPosition, 0.0, 1.0);
}
".

Definition fragmentShaderSource : string :=
"
#version 100
precision mediump float;
varying vec2 vTexCoord;
uniform sampler2D uTexture;

void main() {
    vec4 textureColor = texture2D(uTexture, vTexCoord);
    gl_FragColor = textureColor;
}
".

(** [static_cast<jint>] of an [unsigned int] and [static_cast<unsigned
    int>] of a [jint]. *)
Definition to_jint (u : Z) : Z := wrap32 u.
Definition to_unsigned (i : Z) : Z := i mod 2 ^ 32.

Section WithDriver.
Context `{D : Driver}.

Definition initGL (width height : Z) (dev : Device) : bool * Device :=
  let dev := lift (write_log (LOGI "Initializing OpenGL ES renderer (%dx%d)"
                                [ArgZ width; ArgZ height])) dev in
  let '(success, dev) := initializeGL width height dev in
  (if success then true else false, dev).

Definition createShaderProgram (dev : Device) : Z * Device :=
  let '(program, dev) :=
    GLResources.createShaderProgram vertexShaderSource fragmentShaderSource dev in
  (to_jint (programId program), dev).

Definition createTexture (width height : Z) (dev : Device) : Z * Device :=
  let '(textureInfo, dev) := GLResources.createTexture width height dev in
  (to_jint (textureId textureInfo), dev).

(** [elements_ok]: [GetByteArrayElements(pixelData)] is not null. *)
Definition updateTexture (elements_ok : bool) (textureId : Z)
    (pixelData : option (list Z)) (width height : Z) (dev : Device) : Device :=
  match pixelData with
  | None => lift (write_log (LOGE "Pixel data is null" [])) dev
  | Some pixels =>
      if negb elements_ok
      then lift (write_log (LOGE "Failed to get pixel data elements" [])) dev
      else
        let textureInfo := mkTextureInfo (to_unsigned textureId) width height 0x1908 in
        GLResources.updateTexture textureInfo (Some pixels) dev
  end.

(** [uninit] is what the fields of the local [textureInfo] hold that
    [renderFrame] does not assign. *)
Definition renderFrame (programId textureId : Z) (uninit : TextureInfo)
    (dev : Device) : Device :=
  let program := mkShaderProgram (to_unsigned programId) 0 1 0 (-1) in
  let textureInfo :=
    mkTextureInfo (to_unsigned textureId) (width uninit) (height uninit)
      (format uninit) in
  GLResources.renderTexture program textureInfo dev.

End WithDriver.

(** The native side as a whole: the counters and the device. *)
Record Native := mkNative {
  stats : JNI.Stats;
  device : Device
}.

(** Lines appended to the log, in order. *)
Definition write_lines (lines : list LogLine) (dev : Device) : Device :=
  foldl (fun d l => lift (write_log l) d) dev lines.

Section FrameLog.
Context `{K : cv.Kernels}.

(** What [applyCanny] and [edgeToRGBA] log; [what] is the text of the
    exception when one is thrown. *)
Definition applyCanny_log (what : string) (r : EdgeDetection.Failure + cv.Mat Z)
  : list LogLine :=
  match r with
  | inl EdgeDetection.InputMatrixEmpty => [LOGE "Input matrix is empty" []]
  | inl _ => [LOGE "OpenCV exception in applyCanny: %s" [ArgS what]]
  | inr _ => [LOGI "Canny edge detection completed successfully" []]
  end.

Definition edgeToRGBA_log (what : string) (r : EdgeDetection.Failure + cv.Mat Z)
  : list LogLine :=
  match r with
  | inl EdgeDetection.EdgeMatrixEmpty => [LOGE "Edge matrix is empty" []]
  | inl _ => [LOGE "OpenCV exception in edgeToRGBA: %s" [ArgS what]]
  | inr _ => []
  end.

(** What [EdgeDetection::processFrame] and its callees log. *)
Definition frame_log (what : string) (inputData : option (list Z))
    (width height : Z) (outputData : option (list Z)) : list LogLine :=
  match inputData, outputData with
  | Some inp, Some out =>
      let canny :=
        EdgeDetection.applyCanny (cv.Mat_over height width 4 inp)
          (Double.of_Z 50) (Double.of_Z 150) 3 in
      applyCanny_log what canny ++
      match canny with
      | inl _ => [LOGE "Failed to apply Canny edge detection" []]
      | inr edgeMat =>
          let rgba := EdgeDetection.edgeToRGBA edgeMat in
          edgeToRGBA_log what rgba ++
          match rgba with
          | inl _ => [LOGE "Failed to convert edges to RGBA" []]
          | inr _ => []
          end
      end
  | _, _ => [LOGE "Invalid input or output data pointers" []]
  end.

(** What a call of the JNI [processFrame] logs: [frameStart] is the
    clock reading taken on entry. *)
Definition processFrame_log (what : string) (frameStart : Z) (f : JNI.FrameCall)
    (st : JNI.Stats) : list LogLine :=
  match JNI.inputArray f with
  | None => [LOGE "Input array is null" []]
  | Some inputBytes =>
      if negb (JNI.input_elements_ok (JNI.env f))
      then [LOGE "Failed to get input byte array elements" []]
      else
        let inputLength := Z.of_nat (length inputBytes) in
        let expected := wrap32 (wrap32 (JNI.width f * JNI.height f) * 4) in
        if negb (inputLength =? expected)
        then [LOGE "Input array size mismatch: expected %d, got %d"
                [ArgZ expected; ArgZ inputLength]]
        else if negb (JNI.NewByteArray_ok (JNI.env f))
        then [LOGE "Failed to create output byte array" []]
        else if negb (JNI.output_elements_ok (JNI.env f))
        then [LOGE "Failed to get output byte array elements" []]
        else
          let outputBytes := replicate (length inputBytes) 0 in
          frame_log what (Some inputBytes) (JNI.width f) (JNI.height f)
            (Some outputBytes) ++
          match EdgeDetection.processFrame (Some inputBytes) (JNI.width f)
                  (JNI.height f) (Some outputBytes) with
          | (true, Some _) =>
              let st' := JNI.updateMetrics (JNI.frameEnd f) st in
              if int_rem (JNI.frameCount st') 30 =? 0
              then [LOGI "Frame %d processed in %ld ms, Average FPS: %.2f"
                      [ArgZ (JNI.frameCount st');
                       ArgZ (JNI.duration_ms (JNI.frameEnd f) frameStart);
                       ArgF (JNI.averageFps st')]]
              else []
          | _ => [LOGE "Frame processing failed" []]
          end
  end.

End FrameLog.

(** One call of the Java class into the library.  For [ProcessFrame],
    [what] is the text of the exception the frame pipeline may throw and
    [frameStart] the clock reading on entry. *)
Inductive Entry :=
| NativeInit (now : Z)
| ProcessFrame (what : string) (frameStart : Z) (f : JNI.FrameCall)
| InitGL (width height : Z)
| CreateShaderProgram
| CreateTexture (width height : Z)
| UpdateTexture (elements_ok : bool) (textureId : Z) (pixelData : option (list Z))
    (width height : Z)
| RenderFrame (programId textureId : Z) (uninit : TextureInfo)
| Cleanup.

(** The entries that are made for every frame. *)
Definition per_frame (e : Entry) : bool :=
  match e with
  | ProcessFrame _ _ _ | UpdateTexture _ _ _ _ _ | RenderFrame _ _ _ => true
  | _ => false
  end.

Section WithOracles.
Context `{K : cv.Kernels} `{D : Driver}.

Definition enter (e : Entry) (n : Native) : Native :=
  match e with
  | NativeInit now =>
      mkNative (snd (JNI.nativeInit now (stats n)))
        (write_lines [LOGI "Initializing native edge detection system" [];
                      LOGI "Native initialization completed successfully" []]
           (device n))
  | ProcessFrame what frameStart f =>
      mkNative (snd (JNI.call f (stats n)))
        (write_lines (processFrame_log what frameStart f (stats n)) (device n))
  | InitGL width height => mkNative (stats n) (snd (initGL width height (device n)))
  | CreateShaderProgram => mkNative (stats n) (snd (createShaderProgram (device n)))
  | CreateTexture width height =>
      mkNative (stats n) (snd (createTexture width height (device n)))
  | UpdateTexture elements_ok textureId pixelData width height =>
      mkNative (stats n)
        (updateTexture elements_ok textureId pixelData width height (device n))
  | RenderFrame programId textureId uninit =>
      mkNative (stats n) (renderFrame programId textureId uninit (device n))
  | Cleanup =>
      mkNative (JNI.cleanup (stats n))
        (write_lines [LOGI "Cleaning up native resources" [];
                      LOGI "Native cleanup completed" []]
           (device n))
  end.

Fixpoint session (entries : list Entry) (n : Native) : Native :=
  match entries with
  | [] => n
  | e :: entries' => session entries' (enter e n)
  end.

End WithOracles.

End JNIRenderer.

(** ** Sessions of the JNI entry point *)

Module Session.

Section WithKernels.
Context `{K : cv.Kernels}.

(** What a sequence of [processFrame] calls returns to Java, call by
    call. *)
Fixpoint returned (frames : list JNI.FrameCall) (st : JNI.Stats)
  : list (option (list Z)) :=
  match frames with
  | [] => []
  | f :: frames' => fst (JNI.call f st) :: returned frames' (snd (JNI.call f st))
  end.

End WithKernels.

End Session.

(** ** An executable kernel instance

    Integer kernels on which the model can be run.  The smoothing uses
    binomial taps, which for extent 3 and sigma 0 are the taps
    [1 2 1]/4 of [cv::GaussianBlur]; the derivative is the 3x3 Sobel
    kernel [-1 0 1] x [1 2 1]; both use the reflected border
    (BORDER_REFLECT_101).  The grey conversion uses fixed-point luma
    weights, and a thresholded L1 gradient stands in for the Canny
    decision.  The theorems are stated for every instance of
    [cv.Kernels]; this one evaluates them on concrete frames. *)

Module Demo.
Import cv.

Definition reflect101 (n i : Z) : Z :=
  if n <=? 1 then 0
  else if i <? 0 then - i
  else if n <=? i then 2 * (n - 1) - i
  else i.

Definition cn_of (m : Mat Z) : Z := Z.max 1 (channels m).

(** Element [(r, c, ch)], coordinates reflected into the image. *)
Definition at_ (m : Mat Z) (r c ch : Z) : Z :=
  nth (Z.to_nat ((reflect101 (rows m) r * cols m + reflect101 (cols m) c)
                 * cn_of m + ch)) (data m) 0.

Definition row_of (m : Mat Z) (i : nat) : Z := Z.of_nat i / (cols m * cn_of m).
Definition col_of (m : Mat Z) (i : nat) : Z := (Z.of_nat i / cn_of m) mod cols m.
Definition ch_of (m : Mat Z) (i : nat) : Z := Z.of_nat i mod cn_of m.

(** Row [k-1] of Pascal's triangle, as weights at offsets
    [-(k-1)/2 .. (k-1)/2]. *)
Fixpoint pascal (n : nat) : list Z :=
  match n with
  | O => [1]
  | S n' => zip_with Z.add (0 :: pascal n') (pascal n' ++ [0])
  end.

Definition taps (k : Z) : list (Z * Z) :=
  let n := Z.to_nat (k - 1) in
  zip ((fun j => Z.of_nat j - (k - 1) / 2) <$> seq 0 (S n)) (pascal n).

Definition sumZ (l : list Z) : Z := foldr Z.add 0 l.

(** Separable filter with column taps [tx] and row taps [ty]. *)
Definition filter2D (m : Mat Z) (tx ty : list (Z * Z)) (i : nat) : Z :=
  sumZ ((fun '(dr, wr) =>
           sumZ ((fun '(dc, wc) =>
                    wr * wc * at_ m (row_of m i + dr) (col_of m i + dc) (ch_of m i))
                   <$> tx)) <$> ty).

Definition blur (m : Mat Z) (kw kh : Z) (i : nat) : Z :=
  let s := 2 ^ (kw - 1 + (kh - 1)) in
  (2 * filter2D m (taps kw) (taps kh) i + s) / (2 * s).

Definition deriv3 : list (Z * Z) := [(-1, -1); (0, 0); (1, 1)].

Definition sobel3 (m : Mat Z) (dx dy : Z) (i : nat) : Z :=
  if dx =? 1 then filter2D m deriv3 (taps 3) i
  else filter2D m (taps 3) deriv3 i.

Definition luma (code : ColorConversionCode) (m : Mat Z) (i : nat) : Z :=
  let px := pixel m i in
  let '(r, b) := match code with
                 | COLOR_RGBA2GRAY => (nth 0 px 0, nth 2 px 0)
                 | COLOR_BGR2GRAY => (nth 2 px 0, nth 0 px 0)
                 end in
  (r * 4899 + nth 1 px 0 * 9617 + b * 1868 + 8192) / 16384.

Definition edge_l1 (m : Mat Z) (lo hi : double) (i : nat) : Z :=
  let g := Z.abs (sobel3 m 1 0 i) + Z.abs (sobel3 m 0 1 i) in
  if Double.ltb hi (Double.of_Z g) then 255 else 0.

#[export] Instance kernels : Kernels := {|
  cvtColor_at := luma;
  GaussianBlur_at := fun m kw kh _ _ => blur m kw kh;
  Sobel_at := fun m dx dy _ i => Double.of_Z (sobel3 m dx dy i);
  Canny_at := fun m lo hi _ _ => edge_l1 m lo hi;
  cvRound_outside_int := fun _ => INT_MIN
|}.

(** A 3x4 single-channel frame with one vertical step from 0 to 252. *)
Definition step_frame : Mat Z :=
  mkMat 3 4 1 [0; 0; 252; 252;  0; 0; 252; 252;  0; 0; 252; 252].

(** The horizontal and vertical derivative planes of the blurred step. *)
Definition step_gx : Mat double :=
  mkMat 3 4 1 (Double.of_Z <$> [0; 756; 756; 0;  0; 756; 756; 0;  0; 756; 756; 0]).

Definition step_gy : Mat double :=
  mkMat 3 4 1 (Double.of_Z <$> [0; 0; 0; 0;  0; 0; 0; 0;  0; 0; 0; 0]).

(** A 2x2 frame with two channels per pixel. *)
Definition two_channel_frame : Mat Z :=
  mkMat 2 2 2 [10; 20;  30; 40;  50; 60;  70; 80].

(** The bytes of a 3x2 RGBA frame (width 3, height 2): two black pixels
    and a white one in each row. *)
Definition rgba_bytes : list Z :=
  [0; 0; 0; 255;  0; 0; 0; 255;  255; 255; 255; 255;
   0; 0; 0; 255;  0; 0; 0; 255;  255; 255; 255; 255].

Definition rgba_frame : Mat Z := Mat_over 2 3 4 rgba_bytes.

(** A well-formed call on that frame which finishes at clock reading [t],
    and thirty of them, 40 ms apart. *)
Definition frame_at (t : Z) : JNI.FrameCall :=
  JNI.mkFrameCall (JNI.mkJNIEnv true true true) (Some rgba_bytes) 3 2 t.

Definition thirty_frames : list JNI.FrameCall :=
  (fun i => frame_at (Z.of_nat (S i) * 40000000)) <$> seq 0 30.

(** Thirty more, 50 ms apart, after those. *)
Definition thirty_more_frames : list JNI.FrameCall :=
  (fun i => frame_at (1200000000 + Z.of_nat (S i) * 50000000)) <$> seq 0 30.

End Demo.

(** A driver on which the renderer can be run: an object can always be
    created, a shader compiles unless its source is empty, linking succeeds
    or not as [links] says, and no error is ever pending. *)

Module DemoGL.
Import GLRenderer.

Definition driver (links : bool) : Driver := {|
  shader_alloc_fails := fun _ _ => false;
  compile_status := fun _ source => negb (String.eqb source "");
  shader_info_log := fun _ _ => "0:1: syntax error";
  program_alloc_fails := fun _ => false;
  link_status := fun _ _ => links;
  program_info_log := fun _ _ => "link error";
  attrib_location := fun _ _ name => if String.eqb name "aPosition" then 0 else 1;
  uniform_location := fun _ _ name => if String.eqb name "uTexture" then 0 else -1;
  pending_error := fun _ => 0
|}.

(** A context after initialisation: no shader or program yet, the three
    buffer names generated. *)
Definition ready : Context := mkContext ∅ ∅ 1 2 3 [] [].

(** A device on which nothing has been created yet. *)
Definition blank : GLResources.Device :=
  GLResources.mkDevice (mkContext ∅ ∅ 0 0 0 [] []) ∅ ∅ [].

End DemoGL.

(** * Properties *)

Import cv.

(** ** Lists laid out in blocks *)

Section Blocks.
Context {A : Type}.

Lemma length_tabulate (n : nat) (f : nat -> A) : length (tabulate n f) = n.
Proof. unfold tabulate. by rewrite length_fmap, length_seq. Qed.

Lemma lookup_tabulate (n i : nat) (f : nat -> A) :
  (i < n)%nat -> tabulate n f !! i = Some (f i).
Proof.
  intros Hi. unfold tabulate.
  rewrite list_lookup_fmap, lookup_seq_lt by done. done.
Qed.

Lemma lookup_concat_uniform (k : nat) (ls : list (list A)) :
  Forall (fun l => length l = k) ls ->
  forall p c, (c < k)%nat ->
    concat ls !! (p * k + c)%nat = ls !! p ≫= (fun l => l !! c).
Proof.
  induction 1 as [|l ls Hl Hls IH]; intros p c Hc.
  - by rewrite !lookup_nil.
  - destruct p as [|p]; simpl.
    + rewrite lookup_app_l by lia. done.
    + rewrite lookup_app_r by lia.
      replace (k + p * k + c - length l)%nat with (p * k + c)%nat by lia.
      by apply IH.
Qed.

Lemma length_concat_uniform (k : nat) (ls : list (list A)) :
  Forall (fun l => length l = k) ls -> length (concat ls) = (length ls * k)%nat.
Proof.
  induction 1 as [|l ls Hl Hls IH]; simpl; [done|].
  rewrite length_app, IH. lia.
Qed.

End Blocks.

(** ** Channel expansion *)

Lemma pixel_single {A} (m : Mat A) (p : nat) (v : A) :
  channels m = 1 -> data m !! p = Some v -> pixel m p = [v].
Proof.
  intros Hc Hp. unfold pixel. rewrite Hc. simpl.
  rewrite Nat.mul_1_r, (drop_S _ _ _ Hp). done.
Qed.

Lemma wf_single_length {A} (m : Mat A) :
  wf m -> channels m = 1 -> length (data m) = Z.to_nat (total m).
Proof. unfold wf, total. intros (? & ? & ? & Hlen) Hc. rewrite Hc in Hlen. lia. Qed.

(** The four-plane block that [cv::merge] writes for pixel [p]. *)
Lemma merge4_block (edgeMat : Mat Z) (p : nat) (v : Z) :
  channels edgeMat = 1 -> data edgeMat !! p = Some v ->
  concat ((fun m => pixel m p) <$> [edgeMat; edgeMat; edgeMat; edgeMat]) = [v; v; v; v].
Proof. intros Hc Hp. simpl. by rewrite (pixel_single _ _ _ Hc Hp). Qed.

Lemma merge4_blocks_uniform (edgeMat : Mat Z) :
  wf edgeMat -> channels edgeMat = 1 ->
  Forall (fun l : list Z => length l = 4%nat)
    ((fun p => concat ((fun m => pixel m p) <$> [edgeMat; edgeMat; edgeMat; edgeMat]))
       <$> seq 0 (Z.to_nat (total edgeMat))).
Proof.
  intros Hwf Hc. apply Forall_fmap, Forall_seq. intros p Hp.
  rewrite <- (wf_single_length _ Hwf Hc) in Hp.
  destruct (lookup_lt_is_Some_2 (data edgeMat) p) as [v Hv]; [lia|].
  simpl. by rewrite (pixel_single _ _ _ Hc Hv).
Qed.

Lemma merge4_spec (edgeMat : Mat Z) :
  wf edgeMat -> channels edgeMat = 1 ->
  exists rgbaMat,
    merge [edgeMat; edgeMat; edgeMat; edgeMat] = Some rgbaMat /\
    rows rgbaMat = rows edgeMat /\ cols rgbaMat = cols edgeMat /\
    channels rgbaMat = 4 /\
    length (data rgbaMat) = (4 * length (data edgeMat))%nat /\
    forall p v, data edgeMat !! p = Some v ->
      forall c, (c < 4)%nat -> data rgbaMat !! (4 * p + c)%nat = Some v.
Proof.
  intros Hwf Hc. eexists. split.
  { unfold merge. cbv zeta. cbn [forallb foldr]. rewrite !Z.eqb_refl, Hc.
    cbn [andb]. reflexivity. }
  cbn [rows cols channels data foldr].
  repeat split; try done.
  - rewrite (length_concat_uniform 4) by by apply merge4_blocks_uniform.
    rewrite length_fmap, length_seq, (wf_single_length _ Hwf Hc). lia.
  - intros p v Hp c Hlt.
    replace (4 * p + c)%nat with (p * 4 + c)%nat by lia.
    rewrite (lookup_concat_uniform 4) by (by apply merge4_blocks_uniform || done).
    rewrite list_lookup_fmap, lookup_seq_lt.
    2:{ rewrite <- (wf_single_length _ Hwf Hc). by eapply lookup_lt_Some. }
    cbn [fmap option_fmap option_map mbind option_bind]. rewrite Nat.add_0_l.
    change (concat ((fun m => pixel m p) <$> [edgeMat; edgeMat; edgeMat; edgeMat])
              !! c = Some v).
    rewrite (merge4_block _ _ _ Hc Hp).
    by do 4 (destruct c as [|c]; [done|]); lia.
Qed.

Lemma edgeToRGBA_empty (edgeMat : Mat Z) :
  empty edgeMat = true ->
  EdgeDetection.edgeToRGBA edgeMat = inl EdgeDetection.EdgeMatrixEmpty.
Proof. unfold EdgeDetection.edgeToRGBA. by intros ->. Qed.

Lemma edgeToRGBA_single_channel (edgeMat : Mat Z) :
  empty edgeMat = false -> wf edgeMat -> channels edgeMat = 1 ->
  exists rgbaMat,
    EdgeDetection.edgeToRGBA edgeMat = inr rgbaMat /\
    rows rgbaMat = rows edgeMat /\ cols rgbaMat = cols edgeMat /\
    channels rgbaMat = 4 /\
    length (data rgbaMat) = (4 * length (data edgeMat))%nat /\
    forall p v, data edgeMat !! p = Some v ->
      forall c, (c < 4)%nat -> data rgbaMat !! (4 * p + c)%nat = Some v.
Proof.
  unfold EdgeDetection.edgeToRGBA. intros -> Hwf Hc.
  destruct (merge4_spec edgeMat Hwf Hc) as (rgbaMat & -> & H).
  by exists rgbaMat.
Qed.

(** C5. [edgeToRGBA] on a non-empty single-channel edge map returns a
    four-channel matrix of the same size in which the four channel values
    of every pixel equal the intensity of that pixel of the edge map (so a
    map that is [v] everywhere gives R = G = B = A = [v] everywhere); on
    an empty edge map it fails, logging "Edge matrix is empty". *)
Theorem edgeToRGBA_replicates_intensity (edgeMat : Mat Z) :
  (empty edgeMat = true ->
     EdgeDetection.edgeToRGBA edgeMat = inl EdgeDetection.EdgeMatrixEmpty) /\
  (empty edgeMat = false -> wf edgeMat -> channels edgeMat = 1 ->
     exists rgbaMat,
       EdgeDetection.edgeToRGBA edgeMat = inr rgbaMat /\
       rows rgbaMat = rows edgeMat /\ cols rgbaMat = cols edgeMat /\
       channels rgbaMat = 4 /\
       length (data rgbaMat) = (4 * length (data edgeMat))%nat /\
       forall p v, data edgeMat !! p = Some v ->
         forall c, (c < 4)%nat -> data rgbaMat !! (4 * p + c)%nat = Some v).
Proof.
  split; [apply edgeToRGBA_empty | apply edgeToRGBA_single_channel].
Qed.

Lemma edgeToRGBA_replicates_intensity_witness :
  EdgeDetection.edgeToRGBA (mkMat 0 0 1 []) = inl EdgeDetection.EdgeMatrixEmpty /\
  exists rgbaMat,
    EdgeDetection.edgeToRGBA (mkMat 1 2 1 [0; 255]) = inr rgbaMat /\
    rows rgbaMat = 1 /\ cols rgbaMat = 2 /\ channels rgbaMat = 4 /\
    length (data rgbaMat) = 8%nat /\
    forall p v, [0; 255] !! p = Some v ->
      forall c, (c < 4)%nat -> data rgbaMat !! (4 * p + c)%nat = Some v.
Proof.
  split.
  - apply (proj1 (edgeToRGBA_replicates_intensity (mkMat 0 0 1 []))). reflexivity.
  - apply (proj2 (edgeToRGBA_replicates_intensity (mkMat 1 2 1 [0; 255]))).
    + reflexivity.
    + unfold wf. simpl. lia.
    + reflexivity.
Defined.

(** ** Shapes of the OpenCV results *)

Lemma sigma_1_4_positive : Double.ltb (Double.of_Z 0) EdgeDetection.sigma_1_4 = true.
Proof. vm_compute. reflexivity. Qed.

Lemma zero_leb_zero : Double.leb (Double.of_Z 0) (Double.of_Z 0) = true.
Proof. vm_compute. reflexivity. Qed.

Lemma zero_ltb_zero : Double.ltb (Double.of_Z 0) (Double.of_Z 0) = false.
Proof. vm_compute. reflexivity. Qed.

(** The kernel extent OpenCV derives from sigma 1.4 on 8-bit data. *)
Lemma auto_ksize_sigma_1_4 `{K : Kernels} : auto_ksize EdgeDetection.sigma_1_4 = 9.
Proof. vm_compute. reflexivity. Qed.

Section Shapes.
Context `{K : Kernels}.

Lemma cvtColor_shape code src g :
  cvtColor code src = Some g ->
  rows g = rows src /\ cols g = cols src /\ channels g = 1.
Proof.
  unfold cvtColor. destruct (_ && _); [|done]. intros [= <-]. done.
Qed.

Lemma cvtColor_Some code src :
  size_ok src = true -> channels src = 3 \/ channels src = 4 ->
  is_Some (cvtColor code src).
Proof.
  intros Hs Hc. unfold cvtColor. rewrite Hs.
  destruct Hc as [-> | ->]; by eexists.
Qed.

Lemma toGray_shape m g :
  EdgeDetection.toGray m = Some g -> rows g = rows m /\ cols g = cols m.
Proof.
  unfold EdgeDetection.toGray.
  destruct (channels m =? 4); [|destruct (channels m =? 3)].
  - intros H. apply cvtColor_shape in H. tauto.
  - intros H. apply cvtColor_shape in H. tauto.
  - intros [= <-]. done.
Qed.

(** No channel count makes the conversion fail. *)
Lemma toGray_Some m : size_ok m = true -> is_Some (EdgeDetection.toGray m).
Proof.
  intros Hs. unfold EdgeDetection.toGray.
  destruct (channels m =? 4) eqn:H4; [|destruct (channels m =? 3) eqn:H3].
  - apply cvtColor_Some; [done|]. right. lia.
  - apply cvtColor_Some; [done|]. left. lia.
  - by eexists.
Qed.

Lemma GaussianBlur_shape src kw kh s1 s2 b :
  GaussianBlur src kw kh s1 s2 = Some b ->
  rows b = rows src /\ cols b = cols src /\ channels b = channels src /\
  empty src = false /\ size_ok src = true.
Proof.
  unfold GaussianBlur.
  destruct (empty src) eqn:He; [done|].
  destruct (size_ok src) eqn:Hs; [|done]. cbn [orb negb].
  repeat case_match; try done; intros [= <-]; done.
Qed.

Lemma Canny_shape src lo hi a L2 e :
  Canny src lo hi a L2 = Some e ->
  rows e = rows src /\ cols e = cols src /\ channels e = 1 /\
  size_ok src = true /\ length (data e) = Z.to_nat (total src).
Proof.
  unfold Canny. destruct (size_ok src); [|done]. cbn [negb].
  case_match; [done|]. intros [= <-]. cbn [rows cols channels data].
  by rewrite length_tabulate.
Qed.

Lemma Canny_aperture_3 src lo hi :
  size_ok src = true -> is_Some (Canny src lo hi 3 false).
Proof. intros Hs. unfold Canny. rewrite Hs. by eexists. Qed.

(** When the blur of the Canny path raises: only for a positive even
    kernel size, and not on a single-pixel frame. *)
Lemma GaussianBlur_canny_None src k :
  empty src = false -> size_ok src = true ->
  GaussianBlur src k k EdgeDetection.sigma_1_4 (Double.of_Z 0) = None <->
  0 < k /\ Z.even k = true /\ (rows src <> 1 \/ cols src <> 1).
Proof.
  intros He Hs. unfold GaussianBlur. rewrite He, Hs. cbn [orb negb]. cbv zeta.
  rewrite zero_leb_zero, sigma_1_4_positive, auto_ksize_sigma_1_4, !andb_true_r.
  assert (1 <= rows src /\ 1 <= cols src) as [Hr1 Hc1].
  { unfold empty, total, size_ok in *. nia. }
  destruct (Z.even k) eqn:Hev.
  - assert (Z.odd k = false) as Hodd by (by rewrite <- Z.negb_even, Hev).
    destruct (rows src =? 1) eqn:Hr, (cols src =? 1) eqn:Hc; cbn [andb];
      destruct (k =? 1) eqn:Hk1; try (assert (k = 1) as -> by lia; done);
      destruct (k <=? 0) eqn:Hk0; cbn; rewrite ?Hodd, ?andb_false_r;
      (split; [try done; intros _|try done; intros (? & ? & ?); try lia]);
      (repeat split; lia).
  - assert (Z.odd k = true) as Hodd by (by rewrite <- Z.negb_even, Hev).
    split; [|by intros (? & ? & ?)].
    destruct (rows src =? 1) eqn:Hr, (cols src =? 1) eqn:Hc; cbn [andb];
      destruct (k =? 1) eqn:Hk1; try done;
      destruct (k <=? 0) eqn:Hk0; cbn; rewrite ?Hodd; try done;
      assert ((0 <? k) = true) as -> by lia; done.
Qed.

Lemma applyCanny_shape m lo hi k e :
  EdgeDetection.applyCanny m lo hi k = inr e ->
  rows e = rows m /\ cols e = cols m /\ channels e = 1 /\ wf e /\ empty e = false.
Proof.
  unfold EdgeDetection.applyCanny. destruct (empty m) eqn:He; [done|].
  destruct (EdgeDetection.toGray m) as [g|] eqn:Hg; [|done]. cbn [mbind option_bind].
  destruct (GaussianBlur g k k _ _) as [b|] eqn:Hb; [|done]. cbn [mbind option_bind].
  destruct (Canny b lo hi 3 false) as [o|] eqn:Ho; [|done]. intros [= ->].
  apply toGray_shape in Hg as (Hg1 & Hg2).
  apply GaussianBlur_shape in Hb as (Hb1 & Hb2 & _).
  apply Canny_shape in Ho as (Ho1 & Ho2 & Ho3 & Hs & Hl).
  unfold size_ok in Hs. unfold empty, total in *. unfold wf.
  rewrite Ho1, Ho2, Ho3, Hl. unfold total. rewrite Hb1, Hb2, Hg1, Hg2.
  repeat split; try lia.
Qed.

(** The Canny path fails in exactly three ways. *)
Lemma applyCanny_failure m lo hi k :
  EdgeDetection.succeeded (EdgeDetection.applyCanny m lo hi k) = false <->
  empty m = true \/ size_ok m = false \/
  (0 < k /\ Z.even k = true /\ (rows m <> 1 \/ cols m <> 1)).
Proof.
  unfold EdgeDetection.applyCanny. destruct (empty m) eqn:He; [cbn; tauto|].
  destruct (size_ok m) eqn:Hs.
  - destruct (toGray_Some m Hs) as [g Hg]. rewrite Hg. cbn [mbind option_bind].
    destruct (toGray_shape _ _ Hg) as (Hr & Hc).
    assert (empty g = false) as Heg by (unfold empty, total in *; by rewrite Hr, Hc).
    assert (size_ok g = true) as Hsg by (unfold size_ok in *; by rewrite Hr, Hc).
    pose proof (GaussianBlur_canny_None g k Heg Hsg) as Hb. rewrite Hr, Hc in Hb.
    destruct (GaussianBlur g k k _ _) as [b|] eqn:Hbe.
    + cbn [mbind option_bind].
      apply GaussianBlur_shape in Hbe as (Hb1 & Hb2 & _).
      destruct (Canny_aperture_3 b lo hi) as [o ->].
      { unfold size_ok in *. by rewrite Hb1, Hb2. }
      cbn. split; [done|]. intros [?|[?|H]]; try done.
      apply Hb in H. done.
    + cbn. split; [|done]. intros _. right. right. by apply Hb.
  - split; [tauto|]. intros _.
    unfold EdgeDetection.toGray.
    assert (forall code, cvtColor code m = None) as Hcv.
    { intros code. unfold cvtColor. by rewrite Hs. }
    destruct (channels m =? 4); [by rewrite Hcv|].
    destruct (channels m =? 3); [by rewrite Hcv|].
    cbn [mbind option_bind]. unfold GaussianBlur, clone. rewrite He, Hs. done.
Qed.

End Shapes.

(** ** The real-time frame path *)

Lemma memcpy_whole (dst src : list Z) (n : nat) :
  length src = n -> length dst = n -> EdgeDetection.memcpy dst 0 src n = src.
Proof.
  intros Hs Hd. unfold EdgeDetection.memcpy.
  rewrite take_0, Nat.add_0_l, take_ge, drop_ge, app_nil_r by lia. done.
Qed.

Lemma wrap32_small z : INT_MIN <= z <= INT_MAX -> wrap32 z = z.
Proof.
  unfold wrap32, INT_MIN, INT_MAX. intros H.
  rewrite Z.mod_small by lia. lia.
Qed.

Section FramePath.
Context `{K : Kernels}.

(** On a frame with positive extents the fixed Canny stage succeeds. *)
Lemma applyCanny_realtime_Some inp w h :
  0 < w -> 0 < h ->
  exists edgeMat,
    EdgeDetection.applyCanny (Mat_over h w 4 inp) (Double.of_Z 50) (Double.of_Z 150) 3
    = inr edgeMat.
Proof.
  intros Hw Hh.
  destruct (EdgeDetection.applyCanny _ _ _ _) as [f|e] eqn:E; [|by exists e].
  assert (EdgeDetection.succeeded
            (EdgeDetection.applyCanny (Mat_over h w 4 inp)
               (Double.of_Z 50) (Double.of_Z 150) 3) = false) as Hf by by rewrite E.
  apply applyCanny_failure in Hf. unfold empty, total, size_ok, Mat_over in Hf.
  cbn [rows cols] in Hf. destruct Hf as [?|[?|(_ & ? & _)]]; [lia|lia|done].
Qed.


End FramePath.


Section FrameFailure.
Context `{K : Kernels}.

Lemma processFrame_with_false continuous inputData width height outputData :
  fst (EdgeDetection.processFrame_with continuous inputData width height outputData)
  = false ->
  snd (EdgeDetection.processFrame_with continuous inputData width height outputData)
  = outputData.
Proof.
  unfold EdgeDetection.processFrame_with.
  destruct inputData as [inp|], outputData as [out|]; try done.
  destruct (EdgeDetection.applyCanny _ _ _ _) as [f|edgeMat]; [done|].
  destruct (EdgeDetection.edgeToRGBA edgeMat) as [f|rgbaMat]; [done|].
  by destruct continuous.
Qed.

(** C6. Whenever [processFrame] returns [false] the caller's output
    buffer is what it was before the call, whichever copy branch the
    success path would take; and it returns [false] exactly in the
    failure cases: a null input or output pointer, a failed Canny stage, a
    failed RGBA expansion.  The buffer is written only after both stages
    have succeeded. *)
Theorem processFrame_failure_keeps_output (continuous : bool)
    (inputData outputData : option (list Z)) (width height : Z) :
  (fst (EdgeDetection.processFrame_with continuous inputData width height outputData)
   = false ->
   snd (EdgeDetection.processFrame_with continuous inputData width height outputData)
   = outputData) /\
  (fst (EdgeDetection.processFrame_with continuous inputData width height outputData)
   = false <->
   inputData = None \/ outputData = None \/
   exists inp,
     inputData = Some inp /\
     match EdgeDetection.applyCanny (Mat_over height width 4 inp)
             (Double.of_Z 50) (Double.of_Z 150) 3 with
     | inl _ => True
     | inr edgeMat =>
         EdgeDetection.succeeded (EdgeDetection.edgeToRGBA edgeMat) = false
     end).
Proof.
  split; [apply processFrame_with_false|].
  unfold EdgeDetection.processFrame_with.
  destruct inputData as [inp|], outputData as [out|]; cbn [fst]; try tauto.
  destruct (EdgeDetection.applyCanny _ _ _ _) as [f|edgeMat] eqn:Hc.
  - cbn [fst]. split; [|done]. intros _. right. right. exists inp. by rewrite Hc.
  - destruct (EdgeDetection.edgeToRGBA edgeMat) as [f|rgbaMat] eqn:Hr.
    + cbn [fst]. split; [|done]. intros _. right. right. exists inp.
      by rewrite Hc, Hr.
    + split.
      * by destruct continuous.
      * intros [?|[?|(inp' & [= <-] & H)]]; try done.
        rewrite Hc, Hr in H. done.
Qed.

End FrameFailure.

Lemma processFrame_failure_keeps_output_witness :
  snd (EdgeDetection.processFrame (K:=Demo.kernels) (Some []) 0 0 (Some [1; 2; 3; 4]))
    = Some [1; 2; 3; 4] /\
  fst (EdgeDetection.processFrame (K:=Demo.kernels) None 3 2 (Some [1; 2; 3; 4]))
    = false.
Proof.
  split.
  - apply (proj1 (processFrame_failure_keeps_output (K:=Demo.kernels) true
                    (Some []) (Some [1; 2; 3; 4]) 0 0)).
    vm_compute. reflexivity.
  - apply (proj2 (proj2 (processFrame_failure_keeps_output (K:=Demo.kernels) true
                    None (Some [1; 2; 3; 4]) 3 2))).
    left. reflexivity.
Defined.

(** ** The Sobel path *)

Lemma saturate_cast_uchar_int_range (v : Z) : 0 <= saturate_cast_uchar_int v <= 255.
Proof.
  unfold saturate_cast_uchar_int.
  destruct (0 <=? v) eqn:H0, (v <=? 255) eqn:H1; cbn [andb]; [lia|..];
    destruct (0 <? v); lia.
Qed.

Lemma saturate_cast_uchar_int_clamp (v : Z) :
  saturate_cast_uchar_int v = Z.max 0 (Z.min 255 v).
Proof.
  unfold saturate_cast_uchar_int.
  destruct (0 <=? v) eqn:H0, (v <=? 255) eqn:H1; cbn [andb]; [lia|..];
    destruct (0 <? v) eqn:H2; lia.
Qed.

(** [cvRound] where the rounded value fits an [int], and elsewhere. *)
Lemma cvRound_inside_int `{K : Kernels} (x : double) (r : Z) :
  Double.lrint x = Some r -> INT_MIN <= r <= INT_MAX -> cvRound x = r.
Proof.
  intros Hr Hrange. unfold cvRound. rewrite Hr.
  assert ((INT_MIN <=? r) = true) as -> by lia.
  by assert ((r <=? INT_MAX) = true) as -> by lia.
Qed.

Lemma cvRound_outside `{K : Kernels} (x : double) :
  Double.lrint x = None \/
  (exists r, Double.lrint x = Some r /\ ~ (INT_MIN <= r <= INT_MAX)) ->
  cvRound x = cvRound_outside_int x.
Proof.
  unfold cvRound. intros [-> | (r & -> & Hout)]; [done|].
  destruct (Z.leb_spec INT_MIN r), (Z.leb_spec r INT_MAX); cbn [andb]; try done. lia.
Qed.

Section SobelPath.
Context `{K : Kernels}.

Lemma Sobel_shape src dx dy k g :
  Sobel src dx dy k = Some g ->
  rows g = rows src /\ cols g = cols src /\ channels g = channels src /\
  length (data g) = Z.to_nat (total src * channels src).
Proof.
  unfold Sobel. destruct (negb (size_ok src)); [done|].
  case_match; [done|]. intros [= <-]. cbn [rows cols channels data].
  by rewrite length_tabulate.
Qed.

Lemma Sobel_Some src dx dy k :
  size_ok src = true -> 0 < k <= 31 -> Z.odd k = true ->
  is_Some (Sobel src dx dy k).
Proof.
  intros Hs Hk Hodd. unfold Sobel. rewrite Hs. cbn [negb].
  rewrite <- Z.negb_odd, Hodd. cbn [negb orb].
  assert ((31 <? k) = false) as -> by lia. rewrite andb_false_r. by eexists.
Qed.

(** The blur of the Sobel path (3x3, sigma 0) never raises on a
    non-empty frame. *)
Lemma GaussianBlur_sobel_Some src :
  empty src = false -> size_ok src = true ->
  is_Some (GaussianBlur src 3 3 (Double.of_Z 0) (Double.of_Z 0)).
Proof.
  intros He Hs. unfold GaussianBlur. rewrite He, Hs. cbn [orb negb]. cbv zeta.
  rewrite zero_leb_zero, zero_ltb_zero, !andb_false_r.
  destruct (rows src =? 1), (cols src =? 1); cbn; by eexists.
Qed.

Lemma applySobel_of_derivatives m k gx gy :
  empty m = false -> EdgeDetection.sobelDerivatives m k = Some (gx, gy) ->
  EdgeDetection.applySobel m k = inr (convertTo_8U
    (mkMat (rows gx) (cols gx) (channels gx)
       (zip_with magnitude_at (data gx) (data gy)))).
Proof.
  unfold EdgeDetection.sobelDerivatives, EdgeDetection.applySobel. intros -> H.
  destruct (EdgeDetection.toGray m) as [g|]; [|done]. cbn [mbind option_bind] in *.
  destruct (GaussianBlur g 3 3 _ _) as [b|]; [|done]. cbn [mbind option_bind] in *.
  destruct (Sobel b 1 0 k) as [sx|] eqn:Hx; [|done]. cbn [mbind option_bind] in *.
  destruct (Sobel b 0 1 k) as [sy|] eqn:Hy; [|done]. cbn [mbind option_bind] in *.
  injection H as <- <-.
  apply Sobel_shape in Hx as (Hx1 & Hx2 & Hx3 & _).
  apply Sobel_shape in Hy as (Hy1 & Hy2 & Hy3 & _).
  unfold magnitude. rewrite Hx1, Hx2, Hx3, Hy1, Hy2, Hy3, !Z.eqb_refl. done.
Qed.

End SobelPath.

Section SobelSaturation.
Context `{K : Kernels}.

(** C1 (amended). At every element, [applySobel] stores
    [saturate_cast<uchar>] of the magnitude [sqrt(gx*gx + gy*gy)] of the
    two derivative planes, a value in 0..255.  Where the magnitude
    rounded to the nearest integer (ties to even) fits an [int], the
    stored value is that integer clamped to 0..255: 255 wherever it
    exceeds 255, the integer itself where it lies in 0..255.  Where the
    magnitude is not finite or its rounding does not fit an [int], the
    stored value is the clamp of what the platform's conversion
    returns. *)
Theorem applySobel_saturates_magnitude (m : Mat Z) (k : Z) (gx gy : Mat double) :
  empty m = false ->
  EdgeDetection.sobelDerivatives m k = Some (gx, gy) ->
  exists out,
    EdgeDetection.applySobel m k = inr out /\
    forall i x y, data gx !! i = Some x -> data gy !! i = Some y ->
      let mag := Double.sqrt (Double.add (Double.mul x x) (Double.mul y y)) in
      (exists v, data out !! i = Some v /\ 0 <= v <= 255) /\
      (forall r, Double.lrint mag = Some r -> INT_MIN <= r <= INT_MAX ->
         data out !! i = Some (Z.max 0 (Z.min 255 r)) /\
         (255 < r -> data out !! i = Some 255) /\
         (0 <= r <= 255 -> data out !! i = Some r)) /\
      (Double.lrint mag = None \/
       (exists r, Double.lrint mag = Some r /\ ~ (INT_MIN <= r <= INT_MAX)) ->
       data out !! i = Some (Z.max 0 (Z.min 255 (cvRound_outside_int mag)))).
Proof.
  intros He Hd. eexists. split; [by apply applySobel_of_derivatives|].
  intros i x y Hx Hy mag. unfold convertTo_8U. cbn [data].
  assert ((saturate_cast_uchar <$> zip_with magnitude_at (data gx) (data gy)) !! i
          = Some (saturate_cast_uchar mag)) as Hi.
  { rewrite list_lookup_fmap, lookup_zip_with, Hx, Hy. done. }
  rewrite Hi. unfold saturate_cast_uchar. split; [|split].
  - eexists. split; [done|]. apply saturate_cast_uchar_int_range.
  - intros r Hr Hrange. rewrite (cvRound_inside_int _ _ Hr Hrange).
    rewrite saturate_cast_uchar_int_clamp.
    split; [done|]. split; intros H; f_equal; lia.
  - intros Hout. rewrite (cvRound_outside _ Hout).
    by rewrite saturate_cast_uchar_int_clamp.
Qed.

End SobelSaturation.

Lemma applySobel_saturates_magnitude_witness :
  exists out,
    EdgeDetection.applySobel (K:=Demo.kernels) Demo.step_frame 3 = inr out /\
    data out !! 1%nat = Some 255 /\ data out !! 0%nat = Some 0.
Proof.
  destruct (applySobel_saturates_magnitude (K:=Demo.kernels) Demo.step_frame 3
              Demo.step_gx Demo.step_gy) as (out & Hout & Hpix).
  - reflexivity.
  - vm_compute. reflexivity.
  - exists out. split; [exact Hout|]. split.
    + destruct (Hpix 1%nat (Double.of_Z 756) (Double.of_Z 0)) as (_ & Hin & _);
        [reflexivity | reflexivity |].
      destruct (Hin 756) as (_ & Hsat & _);
        [vm_compute; reflexivity | unfold INT_MIN, INT_MAX; lia |].
      apply Hsat. lia.
    + destruct (Hpix 0%nat (Double.of_Z 0) (Double.of_Z 0)) as (_ & Hin & _);
        [reflexivity | reflexivity |].
      destruct (Hin 0) as (_ & _ & Hkeep);
        [vm_compute; reflexivity | unfold INT_MIN, INT_MAX; lia |].
      apply Hkeep. lia.
Defined.

(** C1, as stated, fails on the step frame: at element 1 the derivatives
    are 756 and 0, the magnitude 756 exceeds 255, [applySobel] stores 255,
    and the cast-and-reduce conversion of the specification gives 244. *)
Lemma applySobel_truncation_counterexample :
  exists out gx gy,
    EdgeDetection.sobelDerivatives (K:=Demo.kernels) Demo.step_frame 3 = Some (gx, gy) /\
    EdgeDetection.applySobel (K:=Demo.kernels) Demo.step_frame 3 = inr out /\
    data gx !! 1%nat = Some (Double.of_Z 756) /\
    data gy !! 1%nat = Some (Double.of_Z 0) /\
    magnitude_at (Double.of_Z 756) (Double.of_Z 0) = Double.of_Z 756 /\
    Double.ltb (Double.of_Z 255) (Double.of_Z 756) = true /\
    truncating_cast_uchar (magnitude_at (Double.of_Z 756) (Double.of_Z 0)) = 244 /\
    data out !! 1%nat = Some 255 /\
    data out !! 1%nat <>
      Some (truncating_cast_uchar (magnitude_at (Double.of_Z 756) (Double.of_Z 0))).
Proof.
  eexists _, _, _.
  split; [vm_compute; reflexivity|].
  split; [vm_compute; reflexivity|].
  repeat split; try (vm_compute; reflexivity).
  vm_compute. discriminate.
Qed.

(** ** Input validation of the two detectors *)

Section Validation.
Context `{K : Kernels}.

Lemma applyCanny_empty_iff m lo hi k :
  EdgeDetection.applyCanny m lo hi k = inl EdgeDetection.InputMatrixEmpty <->
  empty m = true.
Proof.
  unfold EdgeDetection.applyCanny. destruct (empty m); [done|].
  split; [|done]. by repeat case_match.
Qed.

Lemma applySobel_empty_iff m k :
  EdgeDetection.applySobel m k = inl EdgeDetection.InputMatrixEmpty <->
  empty m = true.
Proof.
  unfold EdgeDetection.applySobel. destruct (empty m); [done|].
  split; [|done]. by repeat case_match.
Qed.

Lemma sobelDerivatives_Some m k :
  empty m = false -> size_ok m = true -> 0 < k <= 31 -> Z.odd k = true ->
  is_Some (EdgeDetection.sobelDerivatives m k).
Proof.
  intros He Hs Hk Hodd. unfold EdgeDetection.sobelDerivatives.
  destruct (toGray_Some m Hs) as [g Hg]. rewrite Hg. cbn [mbind option_bind].
  destruct (toGray_shape _ _ Hg) as (Hr & Hc).
  assert (empty g = false) as Heg by (unfold empty, total in *; by rewrite Hr, Hc).
  assert (size_ok g = true) as Hsg by (unfold size_ok in *; by rewrite Hr, Hc).
  destruct (GaussianBlur_sobel_Some g Heg Hsg) as [b Hb]. rewrite Hb.
  cbn [mbind option_bind].
  apply GaussianBlur_shape in Hb as (Hb1 & Hb2 & _).
  assert (size_ok b = true) as Hsb by (unfold size_ok in *; by rewrite Hb1, Hb2).
  destruct (Sobel_Some b 1 0 k Hsb Hk Hodd) as [sx ->].
  destruct (Sobel_Some b 0 1 k Hsb Hk Hodd) as [sy ->].
  by eexists.
Qed.

Lemma applySobel_succeeds m k :
  empty m = false -> size_ok m = true -> 0 < k <= 31 -> Z.odd k = true ->
  EdgeDetection.succeeded (EdgeDetection.applySobel m k) = true.
Proof.
  intros He Hs Hk Hodd.
  destruct (sobelDerivatives_Some m k He Hs Hk Hodd) as [[gx gy] Hd].
  by rewrite (applySobel_of_derivatives m k gx gy He Hd).
Qed.

Lemma applyCanny_succeeds m lo hi k :
  empty m = false -> size_ok m = true ->
  k <= 0 \/ Z.odd k = true ->
  EdgeDetection.succeeded (EdgeDetection.applyCanny m lo hi k) = true.
Proof.
  intros He Hs Hk.
  destruct (EdgeDetection.succeeded _) eqn:E; [done|].
  apply applyCanny_failure in E as [?|[?|(? & Hev & _)]]; [congruence|congruence|].
  destruct Hk as [?|Hodd]; [lia|]. rewrite <- Z.negb_even, Hev in Hodd. done.
Qed.

(** C2 (amended). Both detectors reject a frame as empty exactly when it
    is empty.  The channel count is not validated: it only selects the
    grey conversion (4: RGBA, 3: BGR, anything else: the frame is cloned
    and processed as it is), so on a non-empty frame of any channel count
    the Canny path succeeds for every odd kernel size and the Sobel path
    for every odd kernel size up to 31. *)
Theorem detectors_reject_only_empty (m : Mat Z) (lo hi : double) (k : Z) :
  (EdgeDetection.applyCanny m lo hi k = inl EdgeDetection.InputMatrixEmpty <->
   empty m = true) /\
  (EdgeDetection.applySobel m k = inl EdgeDetection.InputMatrixEmpty <->
   empty m = true) /\
  (channels m <> 3 -> channels m <> 4 ->
   EdgeDetection.toGray m = Some (clone m)) /\
  (empty m = false -> size_ok m = true -> 0 < k -> Z.odd k = true ->
   EdgeDetection.succeeded (EdgeDetection.applyCanny m lo hi k) = true /\
   (k <= 31 -> EdgeDetection.succeeded (EdgeDetection.applySobel m k) = true)).
Proof.
  split; [apply applyCanny_empty_iff|].
  split; [apply applySobel_empty_iff|].
  split.
  - intros H3 H4. unfold EdgeDetection.toGray.
    assert ((channels m =? 4) = false) as -> by lia.
    by assert ((channels m =? 3) = false) as -> by lia.
  - intros He Hs Hk Hodd. split.
    + apply applyCanny_succeeds; auto.
    + intros Hk'. apply applySobel_succeeds; auto with lia.
Qed.

(** C3 (amended). On a non-empty frame the Canny path has no kernel-size
    check of its own; it fails, through the exception of
    [cv::GaussianBlur], exactly for a positive even kernel size (and only
    when the frame has more than one pixel).  Every odd size from 1 on
    succeeds, and so does every non-positive size, which the blur replaces
    by the extent derived from sigma 1.4. *)
Theorem applyCanny_kernel_size (m : Mat Z) (lo hi : double) (k : Z) :
  empty m = false -> size_ok m = true ->
  (EdgeDetection.succeeded (EdgeDetection.applyCanny m lo hi k) = false <->
   0 < k /\ Z.even k = true /\ (rows m <> 1 \/ cols m <> 1)) /\
  (0 < k -> Z.even k = true -> rows m <> 1 \/ cols m <> 1 ->
   EdgeDetection.applyCanny m lo hi k = inl EdgeDetection.OpenCVException) /\
  (1 <= k -> Z.odd k = true ->
   EdgeDetection.succeeded (EdgeDetection.applyCanny m lo hi k) = true) /\
  (k <= 0 ->
   EdgeDetection.succeeded (EdgeDetection.applyCanny m lo hi k) = true).
Proof.
  intros He Hs.
  assert (EdgeDetection.succeeded (EdgeDetection.applyCanny m lo hi k) = false <->
          0 < k /\ Z.even k = true /\ (rows m <> 1 \/ cols m <> 1)) as Hiff.
  { rewrite applyCanny_failure. rewrite He, Hs. intuition congruence. }
  split; [done|]. split; [|split].
  - intros Hk Hev Hdim.
    assert (EdgeDetection.succeeded (EdgeDetection.applyCanny m lo hi k) = false)
      as Hf by by apply Hiff.
    destruct (EdgeDetection.applyCanny m lo hi k) as [[]|] eqn:E; try done.
    + apply applyCanny_empty_iff in E. congruence.
    + unfold EdgeDetection.applyCanny in E. rewrite He in E.
      by repeat case_match.
  - intros Hk Hodd. apply applyCanny_succeeds; auto.
  - intros Hk. apply applyCanny_succeeds; auto.
Qed.

End Validation.

Lemma detectors_reject_only_empty_witness :
  EdgeDetection.toGray (K:=Demo.kernels) Demo.two_channel_frame
    = Some (clone Demo.two_channel_frame) /\
  EdgeDetection.succeeded
    (EdgeDetection.applyCanny (K:=Demo.kernels) Demo.two_channel_frame
       (Double.of_Z 50) (Double.of_Z 150) 3) = true /\
  EdgeDetection.succeeded
    (EdgeDetection.applySobel (K:=Demo.kernels) Demo.two_channel_frame 3) = true.
Proof.
  destruct (detectors_reject_only_empty (K:=Demo.kernels) Demo.two_channel_frame
              (Double.of_Z 50) (Double.of_Z 150) 3) as (_ & _ & Hg & Hok).
  split.
  - apply Hg; vm_compute; discriminate.
  - destruct Hok as [Hc Hs]; [reflexivity | reflexivity | lia | reflexivity |].
    split; [exact Hc | apply Hs; lia].
Defined.

(** C2, as stated, fails: a frame with two channels per pixel is neither
    empty nor of channel count 1, 3 or 4, and both detectors process it. *)
Lemma two_channel_frame_counterexample :
  empty Demo.two_channel_frame = false /\
  channels Demo.two_channel_frame = 2 /\
  EdgeDetection.applyCanny (K:=Demo.kernels) Demo.two_channel_frame
    (Double.of_Z 50) (Double.of_Z 150) 3 = inr (mkMat 2 2 1 [0; 0; 0; 0]) /\
  EdgeDetection.succeeded
    (EdgeDetection.applySobel (K:=Demo.kernels) Demo.two_channel_frame 3) = true.
Proof. repeat split; vm_compute; reflexivity. Qed.

Lemma applyCanny_kernel_size_witness :
  EdgeDetection.applyCanny (K:=Demo.kernels) Demo.rgba_frame
    (Double.of_Z 50) (Double.of_Z 150) 2 = inl EdgeDetection.OpenCVException /\
  EdgeDetection.succeeded
    (EdgeDetection.applyCanny (K:=Demo.kernels) Demo.rgba_frame
       (Double.of_Z 50) (Double.of_Z 150) 5) = true /\
  EdgeDetection.succeeded
    (EdgeDetection.applyCanny (K:=Demo.kernels) Demo.rgba_frame
       (Double.of_Z 50) (Double.of_Z 150) 0) = true.
Proof.
  split; [|split].
  - apply (proj1 (proj2 (applyCanny_kernel_size (K:=Demo.kernels) Demo.rgba_frame
             (Double.of_Z 50) (Double.of_Z 150) 2 eq_refl eq_refl))).
    + lia.
    + reflexivity.
    + left. vm_compute. discriminate.
  - apply (proj1 (proj2 (proj2 (applyCanny_kernel_size (K:=Demo.kernels)
             Demo.rgba_frame (Double.of_Z 50) (Double.of_Z 150) 5 eq_refl eq_refl)))).
    + lia.
    + reflexivity.
  - apply (proj2 (proj2 (proj2 (applyCanny_kernel_size (K:=Demo.kernels)
             Demo.rgba_frame (Double.of_Z 50) (Double.of_Z 150) 0 eq_refl eq_refl)))).
    lia.
Defined.

(** C3, as stated, fails: kernel sizes 0 and -2 are non-positive, and the
    Canny path succeeds on them. *)
Lemma nonpositive_kernel_counterexample :
  EdgeDetection.succeeded
    (EdgeDetection.applyCanny (K:=Demo.kernels) Demo.rgba_frame
       (Double.of_Z 50) (Double.of_Z 150) 0) = true /\
  EdgeDetection.succeeded
    (EdgeDetection.applyCanny (K:=Demo.kernels) Demo.rgba_frame
       (Double.of_Z 50) (Double.of_Z 150) (-2)) = true.
Proof. split; vm_compute; reflexivity. Qed.

(** ** The GL presenter *)

Section Presenter.
Import GLRenderer.
Context `{D : Driver}.

Lemma calls_checkGLError operation st :
  calls (checkGLError operation st) = calls st ++ [glGetError] /\
  shaders (checkGLError operation st) = shaders st /\
  programs (checkGLError operation st) = programs st.
Proof. unfold checkGLError. by destruct (_ =? _). Qed.

(** C7. [renderTexture] with a zero program handle or a zero texture
    handle issues no GL call and changes nothing but the log, to which it
    adds the error line "Invalid shader program or texture"; with both
    handles non-zero it clears, binds program, texture and buffers, sets
    the two attributes, draws the 6 indices of the quad, disables the
    attributes and reads the error flag.  The attribute calls receive
    the [int] locations converted to [GLuint]: a location that is not
    negative as it is, the location -1 as 4294967295. *)
Theorem renderTexture_guards_handles
    (shaderProgram : ShaderProgram) (textureInfo : TextureInfo) (st : Context) :
  (programId shaderProgram = 0 \/ textureId textureInfo = 0 ->
   renderTexture shaderProgram textureInfo st
     = write_log (LOGE "Invalid shader program or texture" []) st /\
   calls (renderTexture shaderProgram textureInfo st) = calls st /\
   log (renderTexture shaderProgram textureInfo st)
     = log st ++ [LOGE "Invalid shader program or texture" []]) /\
  (programId shaderProgram <> 0 -> textureId textureInfo <> 0 ->
   calls (renderTexture shaderProgram textureInfo st) =
     calls st ++
     [glClear GL_COLOR_BUFFER_BIT;
      glUseProgram (programId shaderProgram);
      glActiveTexture GL_TEXTURE0;
      glBindTexture GL_TEXTURE_2D (textureId textureInfo);
      glUniform1i (textureUniform shaderProgram) 0;
      glBindBuffer GL_ARRAY_BUFFER (VBO st);
      glVertexAttribPointer (GLuint_of_int (positionAttrib shaderProgram)) 2
        GL_FLOAT false 16 0;
      glEnableVertexAttribArray (GLuint_of_int (positionAttrib shaderProgram));
      glVertexAttribPointer (GLuint_of_int (texCoordAttrib shaderProgram)) 2
        GL_FLOAT false 16 8;
      glEnableVertexAttribArray (GLuint_of_int (texCoordAttrib shaderProgram));
      glBindBuffer GL_ELEMENT_ARRAY_BUFFER (EBO st);
      glDrawElements GL_TRIANGLES 6 GL_UNSIGNED_INT 0;
      glDisableVertexAttribArray (GLuint_of_int (positionAttrib shaderProgram));
      glDisableVertexAttribArray (GLuint_of_int (texCoordAttrib shaderProgram));
      glGetError]) /\
  (forall i, 0 <= i -> GLuint_of_int i = i) /\
  (forall i, INT_MIN <= i < 0 -> GLuint_of_int i = i + 2 ^ 32) /\
  GLuint_of_int (-1) = 4294967295.
Proof.
  unfold renderTexture. split; [|split; [|split; [|split]]].
  - intros H.
    assert (((programId shaderProgram =? 0) || (textureId textureInfo =? 0)) = true)
      as -> by (destruct H as [-> | ->]; [done | by rewrite orb_true_r]).
    done.
  - intros Hp Ht.
    assert ((programId shaderProgram =? 0) = false) as -> by lia.
    assert ((textureId textureInfo =? 0) = false) as -> by lia.
    cbn [orb]. rewrite (proj1 (calls_checkGLError _ _)). cbn [emit calls VBO EBO].
    by rewrite <- !app_assoc.
  - intros i Hi. unfold GLuint_of_int.
    assert ((i <? 0) = false) as -> by lia. by rewrite andb_false_r.
  - intros i Hi. unfold GLuint_of_int.
    assert ((INT_MIN <=? i) = true) as -> by lia.
    by assert ((i <? 0) = true) as -> by lia.
  - reflexivity.
Qed.

End Presenter.

Lemma renderTexture_guards_handles_witness :
  GLRenderer.calls
    (GLRenderer.renderTexture (D:=DemoGL.driver true)
       (GLRenderer.mkShaderProgram 7 0 1 0 (-1)) (GLRenderer.mkTextureInfo 0 0 0 0)
       DemoGL.ready) = [] /\
  GLRenderer.log
    (GLRenderer.renderTexture (D:=DemoGL.driver true)
       (GLRenderer.mkShaderProgram 7 0 1 0 (-1)) (GLRenderer.mkTextureInfo 0 0 0 0)
       DemoGL.ready) = [GLRenderer.LOGE "Invalid shader program or texture" []] /\
  GLRenderer.calls
    (GLRenderer.renderTexture (D:=DemoGL.driver true)
       (GLRenderer.mkShaderProgram 7 0 (-1) 0 (-1)) (GLRenderer.mkTextureInfo 9 0 0 0)
       DemoGL.ready)
  = [GLRenderer.glClear GLRenderer.GL_COLOR_BUFFER_BIT;
     GLRenderer.glUseProgram 7;
     GLRenderer.glActiveTexture GLRenderer.GL_TEXTURE0;
     GLRenderer.glBindTexture GLRenderer.GL_TEXTURE_2D 9;
     GLRenderer.glUniform1i 0 0;
     GLRenderer.glBindBuffer GLRenderer.GL_ARRAY_BUFFER 2;
     GLRenderer.glVertexAttribPointer 0 2 GLRenderer.GL_FLOAT false 16 0;
     GLRenderer.glEnableVertexAttribArray 0;
     GLRenderer.glVertexAttribPointer 4294967295 2 GLRenderer.GL_FLOAT false 16 8;
     GLRenderer.glEnableVertexAttribArray 4294967295;
     GLRenderer.glBindBuffer GLRenderer.GL_ELEMENT_ARRAY_BUFFER 3;
     GLRenderer.glDrawElements GLRenderer.GL_TRIANGLES 6 GLRenderer.GL_UNSIGNED_INT 0;
     GLRenderer.glDisableVertexAttribArray 0;
     GLRenderer.glDisableVertexAttribArray 4294967295;
     GLRenderer.glGetError].
Proof.
  destruct (renderTexture_guards_handles (D:=DemoGL.driver true)
              (GLRenderer.mkShaderProgram 7 0 1 0 (-1))
              (GLRenderer.mkTextureInfo 0 0 0 0) DemoGL.ready) as [Hzero _].
  destruct (renderTexture_guards_handles (D:=DemoGL.driver true)
              (GLRenderer.mkShaderProgram 7 0 (-1) 0 (-1))
              (GLRenderer.mkTextureInfo 9 0 0 0) DemoGL.ready) as (_ & Hdraw & _).
  destruct Hzero as (_ & Hc & Hl); [right; reflexivity|].
  split; [exact Hc|]. split; [exact Hl|].
  rewrite Hdraw; [reflexivity | discriminate | discriminate].
Defined.

(** ** Building the shader program *)

Section ShaderBuild.
Import GLRenderer.
Context `{D : Driver}.

Lemma fresh_name_spec st :
  fresh_name st <> 0 /\ (fresh_name st ∉ shaders st) /\ (fresh_name st ∉ programs st).
Proof.
  unfold fresh_name.
  pose proof (is_fresh ({[0]} ∪ shaders st ∪ programs st)) as H.
  set_solver.
Qed.

(** Membership of a call in an explicit list of calls. *)
Ltac no_such_call :=
  cbn [app];
  let H := fresh "H" in
  intros H;
  repeat (apply elem_of_cons in H as [H|H]; [discriminate H|]);
  by apply elem_of_nil in H.

Lemma fresh_name_emit c st : fresh_name (emit c st) = fresh_name st.
Proof. reflexivity. Qed.

(** One compile attempt: the program set is untouched; a failed attempt
    leaves the shader set as it was; a successful one adds the returned,
    previously unused, name.  The only object it asks the driver for is a
    shader of the requested type. *)
Lemma compileShader_spec type source st :
  programs (snd (compileShader type source st)) = programs st /\
  (fst (compileShader type source st) = 0 ->
   shaders (snd (compileShader type source st)) = shaders st) /\
  (fst (compileShader type source st) <> 0 ->
   (fst (compileShader type source st) ∉ shaders st) /\
   shaders (snd (compileShader type source st))
     = {[fst (compileShader type source st)]} ∪ shaders st) /\
  exists cs,
    calls (snd (compileShader type source st))
      = calls st ++ glCreateShader type :: cs /\
    (forall type', glCreateShader type' ∉ cs) /\ (glCreateProgram ∉ cs).
Proof.
  unfold compileShader, do_glCreateShader.
  destruct (shader_alloc_fails (emit (glCreateShader type) st) type).
  - cbn. repeat split; try done.
    exists []. repeat split; try done; set_solver.
  - destruct (fresh_name_spec (emit (glCreateShader type) st)) as (H0 & Hs & Hp).
    rewrite fresh_name_emit in *. cbn [emit shaders programs] in Hs, Hp.
    assert ((fresh_name st =? 0) = false) as Hz by lia. rewrite Hz.
    destruct (compile_status type source).
    + cbn. repeat split; try done.
      eexists. split; [by rewrite <- !app_assoc|].
      split; [intros type'|]; no_such_call.
    + unfold do_glDeleteShader. rewrite Hz.
      cbn. repeat split; try done.
      * intros _. set_solver.
      * eexists. split; [by rewrite <- !app_assoc|].
        split; [intros type'|]; no_such_call.
Qed.

(** The link stage keeps the shader set; when it ends with program name
    0 the program set is what it was, and after a failed link the program
    object has been handed to [glDeleteProgram]. *)
Lemma linkProgram_spec vertexShader fragmentShader st :
  shaders (snd (linkProgram vertexShader fragmentShader st)) = shaders st /\
  (fst (linkProgram vertexShader fragmentShader st) = 0 ->
   programs (snd (linkProgram vertexShader fragmentShader st)) = programs st) /\
  (link_status (snd (linkProgram_query vertexShader fragmentShader st))
     (fst (linkProgram_query vertexShader fragmentShader st)) = false ->
   fst (linkProgram vertexShader fragmentShader st) = 0 /\
   last (calls (snd (linkProgram vertexShader fragmentShader st)))
   = Some (glDeleteProgram (fst (linkProgram_query vertexShader fragmentShader st)))).
Proof.
  unfold linkProgram, linkProgram_query, do_glCreateProgram.
  destruct (program_alloc_fails (emit glCreateProgram st)).
  - cbn [fst snd].
    match goal with |- context [link_status ?s ?i] => destruct (link_status s i) end.
    + cbn. repeat split; try done.
    + cbn. repeat split; try done. by rewrite last_snoc.
  - destruct (fresh_name_spec (emit glCreateProgram st)) as (H0 & Hs & Hp).
    rewrite fresh_name_emit in *. cbn [emit shaders programs] in Hs, Hp.
    cbn [fst snd].
    match goal with |- context [link_status ?s ?i] => destruct (link_status s i) end.
    + cbn. repeat split; try done.
    + unfold do_glDeleteProgram.
      assert ((fresh_name st =? 0) = false) as -> by lia.
      cbn. repeat split; try done.
      * set_solver.
      * by rewrite last_snoc.
Qed.

Lemma delete_created (x : Z) (S : gset Z) : x ∉ S -> ({[x]} ∪ S) ∖ {[x]} = S.
Proof. set_solver. Qed.

(** C8. [createShaderProgram] on a failure.  If the vertex stage fails
    it returns the zero program having issued nothing after the vertex
    attempt (no fragment shader is requested), and no shader is left.  If
    the fragment stage fails it deletes the compiled vertex shader and
    returns the zero program, no shader left.  If linking fails the
    program object is deleted, both shaders are deleted and the returned
    handle is zero. *)
Theorem createShaderProgram_releases_on_failure
    (vertexShaderSource fragmentShaderSource : string) (st : Context) :
  let vertex := compileShader GL_VERTEX_SHADER vertexShaderSource st in
  let fragment := compileShader GL_FRAGMENT_SHADER fragmentShaderSource (snd vertex) in
  let query := linkProgram_query (fst vertex) (fst fragment) (snd fragment) in
  let result := createShaderProgram vertexShaderSource fragmentShaderSource st in
  (fst vertex = 0 ->
   programId (fst result) = 0 /\
   shaders (snd result) = shaders st /\ programs (snd result) = programs st /\
   calls (snd result) = calls (snd vertex) /\
   exists cs, calls (snd result) = calls st ++ cs /\
              (glCreateShader GL_FRAGMENT_SHADER ∉ cs)) /\
  (fst vertex <> 0 -> fst fragment = 0 ->
   programId (fst result) = 0 /\
   shaders (snd result) = shaders st /\ programs (snd result) = programs st /\
   calls (snd result) = calls (snd fragment) ++ [glDeleteShader (fst vertex)]) /\
  (fst vertex <> 0 -> fst fragment <> 0 ->
   link_status (snd query) (fst query) = false ->
   programId (fst result) = 0 /\
   shaders (snd result) = shaders st /\ programs (snd result) = programs st /\
   (glDeleteProgram (fst query) ∈ calls (snd result))).
Proof.
  cbv zeta. unfold createShaderProgram.
  pose proof (compileShader_spec GL_VERTEX_SHADER vertexShaderSource st)
    as (Hvp & Hv0 & Hv1 & (csv & Hvc & Hvn & _)).
  destruct (compileShader GL_VERTEX_SHADER vertexShaderSource st) as [v st1].
  cbn [fst snd] in *.
  pose proof (compileShader_spec GL_FRAGMENT_SHADER fragmentShaderSource st1)
    as (Hfp & Hf0 & Hf1 & _).
  destruct (compileShader GL_FRAGMENT_SHADER fragmentShaderSource st1) as [f st2].
  cbn [fst snd] in *.
  split; [|split].
  - intros ->. cbn. rewrite Hv0 by done. repeat split; try done.
    exists (glCreateShader GL_VERTEX_SHADER :: csv). split; [done|].
    intros [H|H]%elem_of_cons; [discriminate H|]. by apply (Hvn GL_FRAGMENT_SHADER).
  - intros Hv ->. assert ((v =? 0) = false) as -> by lia. cbn [Z.eqb].
    destruct (Hv1 Hv) as (Hvs & Hvs').
    unfold do_glDeleteShader. assert ((v =? 0) = false) as -> by lia.
    cbn. rewrite Hf0, Hvs', Hfp by done. repeat split; try done.
    by apply delete_created.
  - intros Hv Hf Hl.
    assert ((v =? 0) = false) as -> by lia.
    assert ((f =? 0) = false) as -> by lia.
    destruct (Hv1 Hv) as (Hvs & Hvs'). destruct (Hf1 Hf) as (Hfs & Hfs').
    pose proof (linkProgram_spec v f st2) as (Hls & Hlp & Hld).
    destruct (Hld Hl) as (Hid & Hlast). specialize (Hlp Hid).
    destruct (linkProgram v f st2) as [id st3]. cbn [fst snd] in *. subst id.
    cbn [Z.eqb]. unfold do_glDeleteShader.
    assert ((v =? 0) = false) as -> by lia.
    assert ((f =? 0) = false) as -> by lia.
    match goal with
    | |- context [checkGLError ?o ?s] =>
        destruct (calls_checkGLError o s) as (Hcc & Hcs & Hcp)
    end.
    cbn [fst snd programId]. split; [done|].
    cbn in Hcc, Hcs, Hcp |- *. rewrite Hcs, Hcp, Hcc.
    split; [|split].
    + rewrite Hls, Hfs', Hvs'.
      rewrite Hvs' in Hfs. set_solver.
    + by rewrite Hlp, Hfp, Hvp.
    + apply last_Some in Hlast as [l' ->]. set_solver.
Qed.

End ShaderBuild.

Lemma createShaderProgram_releases_on_failure_witness :
  (GLRenderer.programId
     (fst (GLRenderer.createShaderProgram (D:=DemoGL.driver true) "" "void main(){}"
             DemoGL.ready)) = 0 /\
   GLRenderer.shaders
     (snd (GLRenderer.createShaderProgram (D:=DemoGL.driver true) "" "void main(){}"
             DemoGL.ready)) = ∅) /\
  (GLRenderer.programId
     (fst (GLRenderer.createShaderProgram (D:=DemoGL.driver true) "void main(){}" ""
             DemoGL.ready)) = 0 /\
   GLRenderer.shaders
     (snd (GLRenderer.createShaderProgram (D:=DemoGL.driver true) "void main(){}" ""
             DemoGL.ready)) = ∅) /\
  (GLRenderer.programId
     (fst (GLRenderer.createShaderProgram (D:=DemoGL.driver false)
             "void main(){}" "void main(){}" DemoGL.ready)) = 0 /\
   GLRenderer.programs
     (snd (GLRenderer.createShaderProgram (D:=DemoGL.driver false)
             "void main(){}" "void main(){}" DemoGL.ready)) = ∅).
Proof.
  split; [|split].
  - destruct (createShaderProgram_releases_on_failure (D:=DemoGL.driver true)
                "" "void main(){}" DemoGL.ready) as (H & _ & _).
    destruct H as (Hid & Hs & _); [vm_compute; reflexivity|].
    split; [exact Hid | exact Hs].
  - destruct (createShaderProgram_releases_on_failure (D:=DemoGL.driver true)
                "void main(){}" "" DemoGL.ready) as (_ & H & _).
    destruct H as (Hid & Hs & _); [vm_compute; discriminate | vm_compute; reflexivity|].
    split; [exact Hid | exact Hs].
  - destruct (createShaderProgram_releases_on_failure (D:=DemoGL.driver false)
                "void main(){}" "void main(){}" DemoGL.ready) as (_ & _ & H).
    destruct H as (Hid & _ & Hp & _);
      [vm_compute; discriminate | vm_compute; discriminate | reflexivity|].
    split; [exact Hid | exact Hp].
Defined.

(** ** Binary64 rounding

Facts about [SpecFloat]'s rounding at precision 53 and [emax] 1024 that
    the statistics need: rounding never turns a positive mantissa into a
    zero, and the quotient 30000 / d of the frame-rate figure is never a
    zero for a 64-bit tick count [d]. *)

Lemma digits2_pos_bounds (p : positive) :
  2 ^ (Zpos (digits2_pos p) - 1) <= Zpos p < 2 ^ Zpos (digits2_pos p).
Proof.
  induction p as [p IH|p IH|]; cbn [digits2_pos].
  - rewrite Pos2Z.inj_succ. change (Zpos p~1) with (2 * Zpos p + 1).
    replace (Z.succ (Zpos (digits2_pos p)) - 1) with (Z.succ (Zpos (digits2_pos p) - 1)) by lia.
    rewrite !Z.pow_succ_r by lia.
    revert IH. generalize (2 ^ (Z.pos (digits2_pos p) - 1)) (2 ^ Z.pos (digits2_pos p)).
    intros. lia.
  - rewrite Pos2Z.inj_succ. change (Zpos p~0) with (2 * Zpos p).
    replace (Z.succ (Zpos (digits2_pos p)) - 1) with (Z.succ (Zpos (digits2_pos p) - 1)) by lia.
    rewrite !Z.pow_succ_r by lia.
    revert IH. generalize (2 ^ (Z.pos (digits2_pos p) - 1)) (2 ^ Z.pos (digits2_pos p)).
    intros. lia.
  - cbn. lia.
Qed.

Lemma Zdigits2_bounds (m : Z) :
  0 < m -> 0 < Zdigits2 m /\ 2 ^ (Zdigits2 m - 1) <= m < 2 ^ Zdigits2 m.
Proof.
  destruct m as [|p|p]; try lia. intros _. cbn [Zdigits2].
  split; [lia|]. apply digits2_pos_bounds.
Qed.

Lemma Zdigits2_unique (m k : Z) :
  2 ^ (k - 1) <= m < 2 ^ k -> 0 < k -> Zdigits2 m = k.
Proof.
  intros Hm Hk.
  assert (0 < m) as Hpos by (pose proof (Z.pow_pos_nonneg 2 (k - 1)); lia).
  destruct (Zdigits2_bounds m Hpos) as (Hd & Hlo & Hhi).
  destruct (Z.lt_trichotomy (Zdigits2 m) k) as [Hlt|[Heq|Hgt]]; [|done|].
  - assert (2 ^ Zdigits2 m <= 2 ^ (k - 1)) by (apply Z.pow_le_mono_r; lia). lia.
  - assert (2 ^ k <= 2 ^ (Zdigits2 m - 1)) by (apply Z.pow_le_mono_r; lia). lia.
Qed.

Lemma shr_1_m (mrs : shr_record) :
  0 <= shr_m mrs -> shr_m (shr_1 mrs) = shr_m mrs / 2.
Proof.
  destruct mrs as [m r s]. cbn [shr_m]. intros Hm.
  rewrite <- Z.div2_div.
  destruct m as [|[p|p|]|p]; try lia; reflexivity.
Qed.

Lemma shr_iter_m (p : positive) : forall mrs,
  0 <= shr_m mrs -> shr_m (SpecFloat.iter_pos shr_1 p mrs) = shr_m mrs / 2 ^ Zpos p.
Proof.
  induction p as [p IH|p IH|]; intros mrs Hm; cbn [SpecFloat.iter_pos].
  - assert (0 <= shr_m (shr_1 mrs)) by (rewrite shr_1_m by done; apply Z.div_pos; lia).
    assert (0 <= shr_m (SpecFloat.iter_pos shr_1 p (shr_1 mrs)))
      by (rewrite IH by done; apply Z.div_pos; [done|apply Z.pow_pos_nonneg; lia]).
    rewrite !IH, shr_1_m by done.
    rewrite !Z.div_div by (try apply Z.pow_pos_nonneg; lia).
    f_equal. change (Zpos p~1) with (2 * Zpos p + 1).
    replace (2 * Zpos p + 1) with (1 + Zpos p + Zpos p) by lia.
    rewrite !Z.pow_add_r, Z.pow_1_r by lia. ring.
  - assert (0 <= shr_m (SpecFloat.iter_pos shr_1 p mrs))
      by (rewrite IH by done; apply Z.div_pos; [done|apply Z.pow_pos_nonneg; lia]).
    rewrite !IH by done.
    rewrite !Z.div_div by (try apply Z.pow_pos_nonneg; lia).
    f_equal. change (Zpos p~0) with (2 * Zpos p).
    replace (2 * Zpos p) with (Zpos p + Zpos p) by lia.
    rewrite !Z.pow_add_r by lia. ring.
  - rewrite shr_1_m by done. reflexivity.
Qed.

Lemma fexp64 (x : Z) : fexp 53 1024 x = Z.max (x - 53) (-1074).
Proof. reflexivity. Qed.

Lemma Zdigits2_le (x k : Z) : 0 < x -> x < 2 ^ k -> Zdigits2 x <= k.
Proof.
  intros Hx Hk. destruct (Zdigits2_bounds x Hx) as (Hd & Hlo & _).
  destruct (Z_lt_le_dec k (Zdigits2 x)) as [Hlt|]; [|done].
  assert (0 <= k).
  { destruct (Z_lt_le_dec k 0); [|done]. rewrite Z.pow_neg_r in Hk by done. lia. }
  assert (2 ^ k <= 2 ^ (Zdigits2 x - 1)) by (apply Z.pow_le_mono_r; lia). lia.
Qed.

Lemma shr_record_of_loc_m m l : shr_m (shr_record_of_loc m l) = m.
Proof. by destruct l as [|[]]. Qed.

(** One normalising shift: the mantissa stays positive, the exponent does
    not decrease and the magnitude [digits + exponent] is kept. *)
Lemma shr_fexp_spec (m e : Z) (l : location) :
  0 < m -> -1074 <= e ->
  0 < shr_m (fst (shr_fexp 53 1024 m e l)) /\
  e <= snd (shr_fexp 53 1024 m e l) /\
  Zdigits2 (shr_m (fst (shr_fexp 53 1024 m e l))) + snd (shr_fexp 53 1024 m e l)
  = Zdigits2 m + e.
Proof.
  intros Hm He. unfold shr_fexp, shr. rewrite fexp64.
  destruct (Zdigits2_bounds m Hm) as (Hd & Hlo & Hhi).
  destruct (Z.max (Zdigits2 m + e - 53) (-1074) - e) as [|p|p] eqn:Hn;
    cbn [fst snd]; rewrite ?shr_record_of_loc_m; try done.
  assert (Zpos p = Zdigits2 m - 53) as Hp by lia.
  rewrite shr_iter_m, shr_record_of_loc_m by (rewrite shr_record_of_loc_m; lia).
  assert (0 < 2 ^ Zpos p) as Hpow by (apply Z.pow_pos_nonneg; lia).
  assert (2 ^ Zdigits2 m = 2 ^ Zpos p * 2 ^ 53) as Hsplit.
  { rewrite <- Z.pow_add_r by lia. f_equal. lia. }
  assert (2 ^ (Zdigits2 m - 1) = 2 ^ Zpos p * 2 ^ 52) as Hsplit'.
  { rewrite <- Z.pow_add_r by lia. f_equal. lia. }
  assert (2 ^ 52 <= m / 2 ^ Zpos p) as Hq1.
  { apply Z.div_le_lower_bound; lia. }
  assert (m / 2 ^ Zpos p < 2 ^ 53) as Hq2.
  { apply Z.div_lt_upper_bound; lia. }
  split; [lia|]. split; [lia|].
  rewrite (Zdigits2_unique (m / 2 ^ Zpos p) 53) by first [split; [exact Hq1|exact Hq2] | lia].
  lia.
Qed.

Lemma round_nearest_even_spec (m : Z) (l : location) :
  0 < m ->
  0 < round_nearest_even m l /\ Zdigits2 (round_nearest_even m l) <= Zdigits2 m + 1.
Proof.
  intros Hm. destruct (Zdigits2_bounds m Hm) as (Hd & Hlo & Hhi).
  assert (Zdigits2 (m + 1) <= Zdigits2 m + 1).
  { apply Zdigits2_le; [lia|]. rewrite Z.pow_add_r, Z.pow_1_r by lia. lia. }
  unfold round_nearest_even. destruct l as [|[]]; try (split; lia).
  destruct (Z.even m); split; lia.
Qed.

(** Rounding a positive mantissa whose exponent is at least [emin]: the
    result is never a zero or a NaN, and its magnitude grows by at most
    one binary digit. *)
Lemma binary_round_aux_spec (s : bool) (m e : Z) (l : location) :
  0 < m -> -1074 <= e ->
  (exists m' e', binary_round_aux 53 1024 s m e l = S754_finite s m' e' /\
                 Zdigits2 (Zpos m') + e' <= Zdigits2 m + e + 1) \/
  (binary_round_aux 53 1024 s m e l = S754_infinity s /\ 971 < Zdigits2 m + e).
Proof.
  intros Hm He. unfold binary_round_aux.
  destruct (shr_fexp_spec m e l Hm He) as (H1 & H2 & H3).
  destruct (shr_fexp 53 1024 m e l) as [mrs1 e1]. cbn [fst snd] in *.
  destruct (round_nearest_even_spec (shr_m mrs1) (loc_of_shr_record mrs1) H1)
    as (H4 & H5).
  assert (-1074 <= e1) as He1 by lia.
  destruct (shr_fexp_spec (round_nearest_even (shr_m mrs1) (loc_of_shr_record mrs1))
              e1 loc_Exact H4 He1) as (H6 & H7 & H8).
  destruct (shr_fexp 53 1024 _ e1 loc_Exact) as [mrs2 e2]. cbn [fst snd] in *.
  destruct (shr_m mrs2) as [|m3|m3] eqn:Hm3; try lia.
  change (1024 - 53) with 971.
  destruct (Z.leb_spec e2 971).
  - left. exists m3, e2. split; [done|]. lia.
  - right. split; [done|].
    assert (0 < Zdigits2 (Zpos m3)) by (cbn; lia). lia.
Qed.

Lemma iter_xO_pow (p k : positive) : Zpos (Pos.iter xO p k) = Zpos p * 2 ^ Zpos k.
Proof.
  induction k as [|k IH] using Pos.peano_ind.
  - cbn [Pos.iter]. change (Zpos p~0) with (2 * Zpos p). change (2 ^ 1) with 2. lia.
  - rewrite Pos.iter_succ, Pos2Z.inj_succ, Z.pow_succ_r by lia.
    change (Zpos (Pos.iter xO p k)~0) with (2 * Zpos (Pos.iter xO p k)).
    rewrite IH. ring.
Qed.

(** Conversion of a non-zero 64-bit integer: a finite double below [2^65]. *)
Lemma of_Z_finite (d : Z) :
  d <> 0 -> Z.abs d < 2 ^ 63 ->
  exists s m e, binary_normalize 53 1024 d 0 false = S754_finite s m e /\
                Zdigits2 (Zpos m) + e <= 64.
Proof.
  intros Hd Hb.
  assert (forall s p, Zpos p < 2 ^ 63 ->
            exists s' m e, binary_round 53 1024 s p 0 = S754_finite s' m e /\
                           Zdigits2 (Zpos m) + e <= 64) as Hround.
  { intros s p Hp. unfold binary_round, shl_align. rewrite fexp64.
    assert (Zdigits2 (Zpos p) <= 63) as Hdig by (apply Zdigits2_le; lia).
    cbn [Zdigits2] in Hdig.
    destruct (Z.max (Zpos (digits2_pos p) + 0 - 53) (-1074) - 0) as [|n|n] eqn:Hn.
    - destruct (binary_round_aux_spec s (Zpos p) 0 loc_Exact ltac:(lia) ltac:(lia)) as
        [(m' & e' & -> & Hm')|(_ & Hbig)]. 2:{ cbn [Zdigits2] in Hbig. clear - Hdig Hbig. lia. }
      exists s, m', e'. split; [done|]. cbn [Zdigits2] in Hm' |- *. lia.
    - destruct (binary_round_aux_spec s (Zpos p) 0 loc_Exact ltac:(lia) ltac:(lia)) as
        [(m' & e' & -> & Hm')|(_ & Hbig)]; [|cbn [Zdigits2] in Hbig; clear - Hdig Hbig; lia].
      exists s, m', e'. split; [done|]. cbn [Zdigits2] in Hm' |- *. lia.
    - change (Z.neg n) with (- Zpos n) in Hn.
      assert (Zdigits2 (Zpos (Pos.iter xO p n)) = Zpos (digits2_pos p) + Zpos n) as Hsh.
      { destruct (digits2_pos_bounds p) as (Hlo & Hhi).
        apply Zdigits2_unique; [|lia]. rewrite iter_xO_pow.
        replace (Zpos (digits2_pos p) + Zpos n - 1)
          with (Zpos (digits2_pos p) - 1 + Zpos n) by lia.
        rewrite !Z.pow_add_r by lia.
        assert (0 < 2 ^ Zpos n) by (apply Z.pow_pos_nonneg; lia). nia. }
      destruct (binary_round_aux_spec s (Zpos (Pos.iter xO p n))
                  (Z.max (Zpos (digits2_pos p) + 0 - 53) (-1074)) loc_Exact
                  ltac:(lia) ltac:(lia)) as
        [(m' & e' & -> & Hm')|(_ & Hbig)]; [|rewrite Hsh in Hbig; clear - Hdig Hbig Hn; lia].
      exists s, m', e'. split; [done|]. rewrite Hsh in Hm'. cbn [Zdigits2] in Hm' |- *. lia. }
  unfold binary_normalize. destruct d as [|p|p]; [done| |]; apply Hround; lia.
Qed.

Lemma thirty_thousand :
  Double.of_Z 30000 = S754_finite false 8246337208320000 (-38).
Proof. vm_compute. reflexivity. Qed.

(** 30000 divided by a finite double below [2^1036] is not a zero. *)
Lemma div_30000_finite (s : bool) (my : positive) (ey : Z) :
  Zdigits2 (Zpos my) + ey <= 1036 ->
  Double.is_zero (Double.div (Double.of_Z 30000) (S754_finite s my ey)) = false.
Proof.
  intros Hy. rewrite thirty_thousand. unfold Double.div, Double.prec, Double.emax.
  cbn [SFdiv]. unfold SFdiv_core_binary.
  change (Zdigits2 (Zpos 8246337208320000)) with 53.
  cbn [Zdigits2] in Hy |- *. rewrite fexp64.
  destruct (digits2_pos_bounds my) as (Hlo & Hhi).
  assert (Z.min (Z.max (53 + -38 - (Zpos (digits2_pos my) + ey) - 53) (-1074)) (-38 - ey)
          = -38 - ey - Zpos (digits2_pos my)) as -> by lia.
  replace (-38 - ey - (-38 - ey - Zpos (digits2_pos my)))
    with (Zpos (digits2_pos my)) by lia.
  cbv iota. rewrite Z.shiftl_mul_pow2 by lia.
  assert (0 < 2 ^ Zpos (digits2_pos my)) as Hpow by (apply Z.pow_pos_nonneg; lia).
  assert (0 < 8246337208320000 * 2 ^ Zpos (digits2_pos my) / Zpos my) as Hq.
  { apply Z.lt_le_trans with 1; [lia|]. apply Z.div_le_lower_bound; lia. }
  unfold Z.div in Hq.
  destruct (Z.div_eucl (8246337208320000 * 2 ^ Zpos (digits2_pos my)) (Zpos my))
    as [q r].
  destruct (binary_round_aux_spec (xorb false s) q
              (-38 - ey - Zpos (digits2_pos my)) (new_location (Zpos my) r) Hq
              ltac:(lia)) as [(m' & e' & -> & _)|(-> & _)]; done.
Qed.

(** The figure [30000.0 / d] is never zero for a 64-bit count [d]. *)
Lemma fps_of_nonzero (d : Z) :
  Z.abs d < 2 ^ 63 -> Double.is_zero (JNI.fps_of d) = false.
Proof.
  intros Hd. unfold JNI.fps_of. destruct (Z.eq_dec d 0) as [->|Hnz].
  - vm_compute. reflexivity.
  - destruct (of_Z_finite d Hnz Hd) as (s & m & e & Hof & Hm).
    unfold Double.of_Z at 2. unfold Double.prec, Double.emax. rewrite Hof.
    apply div_30000_finite. lia.
Qed.

Lemma duration_ms_bound (t1 t0 : Z) :
  Z.abs (JNI.duration_ms t1 t0) <= Z.abs (t1 - t0).
Proof.
  unfold JNI.duration_ms, JNI.ticks_per_ms.
  rewrite <- Z.quot_abs by lia. change (Z.abs 1000000) with 1000000.
  rewrite Z.quot_div_nonneg by lia.
  apply Z.div_le_upper_bound; lia.
Qed.

(** ** The performance counters *)

Lemma int_rem_30_zero (n : Z) : 0 <= n -> (int_rem n 30 =? 0) = bool_decide (n mod 30 = 0).
Proof.
  intros Hn. unfold int_rem. rewrite Z.rem_mod_nonneg by lia.
  destruct (decide (n mod 30 = 0)) as [H|H].
  - rewrite bool_decide_eq_true_2 by done. by apply Z.eqb_eq.
  - rewrite bool_decide_eq_false_2 by done. by apply Z.eqb_neq.
Qed.

Lemma updateMetrics_count (t : Z) (st : JNI.Stats) :
  JNI.frameCount (JNI.updateMetrics t st) = wrap32 (JNI.frameCount st + 1).
Proof. unfold JNI.updateMetrics. by destruct (_ =? _). Qed.

(** What one counted frame does to the sample, in terms of the number of
    the frame. *)
Lemma updateMetrics_sample (t : Z) (st : JNI.Stats) :
  0 <= JNI.frameCount st < INT_MAX ->
  JNI.frameCount (JNI.updateMetrics t st) = JNI.frameCount st + 1 /\
  ((JNI.frameCount st + 1) mod 30 = 0 ->
   JNI.averageFps (JNI.updateMetrics t st)
     = JNI.fps_of (JNI.duration_ms t (JNI.lastFrameTime st)) /\
   JNI.lastFrameTime (JNI.updateMetrics t st) = t) /\
  ((JNI.frameCount st + 1) mod 30 <> 0 ->
   JNI.averageFps (JNI.updateMetrics t st) = JNI.averageFps st /\
   JNI.lastFrameTime (JNI.updateMetrics t st) = JNI.lastFrameTime st).
Proof.
  intros Hc. unfold JNI.updateMetrics.
  rewrite wrap32_small by (unfold INT_MIN, INT_MAX in *; lia).
  rewrite int_rem_30_zero by lia.
  destruct (decide ((JNI.frameCount st + 1) mod 30 = 0)) as [Hz|Hnz].
  - rewrite bool_decide_eq_true_2 by done. cbn. repeat split; done.
  - rewrite bool_decide_eq_false_2 by done. cbn. repeat split; done.
Qed.

Section Counters.
Context `{K : Kernels}.

(** A call either returns null and leaves the counters alone, or returns
    an array and counts the frame. *)
Lemma processFrame_cases env inputArray width height frameEnd st :
  JNI.processFrame env inputArray width height frameEnd st = (None, st) \/
  exists outputArray,
    JNI.processFrame env inputArray width height frameEnd st
    = (Some outputArray, JNI.updateMetrics frameEnd st).
Proof.
  unfold JNI.processFrame. destruct inputArray as [inputBytes|]; [|by left].
  repeat (case_match; try (by left)).
  right. by eexists.
Qed.

Lemma call_cases f st :
  JNI.call f st = (None, st) \/
  exists outputArray, JNI.call f st = (Some outputArray, JNI.updateMetrics (JNI.frameEnd f) st).
Proof. apply processFrame_cases. Qed.

Lemma call_succeeded f st :
  is_Some (fst (JNI.call f st)) ->
  snd (JNI.call f st) = JNI.updateMetrics (JNI.frameEnd f) st.
Proof.
  destruct (call_cases f st) as [-> | (out & ->)]; [|done].
  cbn. by intros [? ?].
Qed.

Lemma run_app frames1 frames2 st :
  JNI.run (frames1 ++ frames2) st = JNI.run frames2 (JNI.run frames1 st).
Proof. revert st. induction frames1 as [|f frames1 IH]; intros st; cbn; [done|]. apply IH. Qed.

Lemma all_succeed_app frames1 frames2 st :
  JNI.all_succeed (frames1 ++ frames2) st <->
  JNI.all_succeed frames1 st /\ JNI.all_succeed frames2 (JNI.run frames1 st).
Proof.
  revert st. induction frames1 as [|f frames1 IH]; intros st; cbn; [tauto|].
  rewrite IH. tauto.
Qed.

(** Successful frames are counted one by one. *)
Lemma run_count frames : forall st,
  JNI.all_succeed frames st -> 0 <= JNI.frameCount st ->
  JNI.frameCount st + Z.of_nat (length frames) <= INT_MAX ->
  JNI.frameCount (JNI.run frames st) = JNI.frameCount st + Z.of_nat (length frames).
Proof.
  induction frames as [|f frames IH]; intros st Hall H0 Hmax; cbn [JNI.run length].
  - lia.
  - destruct Hall as [Hf Hall]. rewrite (call_succeeded _ _ Hf) in *.
    cbn [length] in Hmax.
    destruct (updateMetrics_sample (JNI.frameEnd f) st) as (Hc & _); [lia|].
    rewrite IH; [lia|done|lia|lia].
Qed.

(** Before the thirtieth frame no sample is taken. *)
Lemma run_before_sample frames : forall st,
  JNI.all_succeed frames st -> 0 <= JNI.frameCount st ->
  JNI.frameCount st + Z.of_nat (length frames) < 30 ->
  JNI.run frames st
  = JNI.mkStats (JNI.lastFrameTime st)
      (JNI.frameCount st + Z.of_nat (length frames)) (JNI.averageFps st).
Proof.
  induction frames as [|f frames IH]; intros st Hall H0 Hlt; cbn [JNI.run length].
  - destruct st. cbn. f_equal. lia.
  - destruct Hall as [Hf Hall]. rewrite (call_succeeded _ _ Hf) in *.
    cbn [length] in Hlt.
    destruct (updateMetrics_sample (JNI.frameEnd f) st) as (Hc & _ & Hno);
      [unfold INT_MAX; lia|].
    destruct Hno as [Ha Hl]; [rewrite Z.mod_small by lia; lia|].
    rewrite IH; [|done|lia|lia]. rewrite Hc, Ha, Hl. f_equal. lia.
Qed.

(** C9. [nativeInit] and [cleanup] reset [frameCount] and [averageFps]
    to zero.  After such a reset, thirty successful frames leave
    [frameCount] at 30 and [averageFps] at the double quotient
    [30000.0 / elapsed], where [elapsed] is the tick difference between
    the last sample (for [nativeInit]: the reset) and the end of the
    thirtieth frame, divided by the 1000000 ticks of a millisecond with
    truncation; that figure is not zero.  In general the frame number
    [n + 1] after a reset takes a sample (recomputes the figure from the
    time since the last sample and restarts the interval) exactly when
    [n + 1] is a multiple of 30, and leaves figure and interval alone
    otherwise. *)
Theorem fps_recomputed_every_30_frames (reset : JNI.Stats) :
  (forall t0 st0,
     snd (JNI.nativeInit t0 st0) = JNI.mkStats t0 0 (Double.of_Z 0) /\
     Double.is_zero (Double.of_Z 0) = true) /\
  (forall st, JNI.frameCount (JNI.cleanup st) = 0 /\
              JNI.averageFps (JNI.cleanup st) = Double.of_Z 0) /\
  (JNI.frameCount reset = 0 ->
   (forall frames f,
      length frames = 30%nat -> last frames = Some f ->
      JNI.all_succeed frames reset ->
      JNI.frameCount (JNI.run frames reset) = 30 /\
      JNI.averageFps (JNI.run frames reset)
        = SFdiv 53 1024 (Double.of_Z 30000)
            (Double.of_Z (Z.quot (JNI.frameEnd f - JNI.lastFrameTime reset) 1000000)) /\
      JNI.lastFrameTime (JNI.run frames reset) = JNI.frameEnd f /\
      (Z.abs (JNI.frameEnd f - JNI.lastFrameTime reset) < 2 ^ 63 ->
       Double.is_zero (JNI.averageFps (JNI.run frames reset)) = false)) /\
   (forall frames f,
      JNI.all_succeed (frames ++ [f]) reset ->
      Z.of_nat (length frames) < INT_MAX ->
      JNI.frameCount (JNI.run (frames ++ [f]) reset) = Z.of_nat (length frames) + 1 /\
      ((Z.of_nat (length frames) + 1) mod 30 = 0 ->
       JNI.averageFps (JNI.run (frames ++ [f]) reset)
         = SFdiv 53 1024 (Double.of_Z 30000)
             (Double.of_Z (Z.quot (JNI.frameEnd f
                                   - JNI.lastFrameTime (JNI.run frames reset))
                             1000000)) /\
       JNI.lastFrameTime (JNI.run (frames ++ [f]) reset) = JNI.frameEnd f) /\
      ((Z.of_nat (length frames) + 1) mod 30 <> 0 ->
       JNI.averageFps (JNI.run (frames ++ [f]) reset)
         = JNI.averageFps (JNI.run frames reset) /\
       JNI.lastFrameTime (JNI.run (frames ++ [f]) reset)
         = JNI.lastFrameTime (JNI.run frames reset)))).
Proof.
  split; [done|]. split; [done|]. intros Hreset. split.
  - intros frames f Hlen Hlast Hall.
    apply last_Some in Hlast as [init ->].
    rewrite length_app in Hlen. cbn [length] in Hlen.
    apply all_succeed_app in Hall as [Hinit [Hf _]].
    rewrite run_app. cbn [JNI.run].
    rewrite (run_before_sample init) in * by (done || lia).
    rewrite (call_succeeded _ _ Hf). rewrite Hreset.
    replace (0 + Z.of_nat (length init)) with 29 by lia.
    destruct (updateMetrics_sample (JNI.frameEnd f)
                (JNI.mkStats (JNI.lastFrameTime reset) 29 (JNI.averageFps reset)))
      as (Hc & Hs & _).
    { cbn [JNI.frameCount]. unfold INT_MAX. lia. }
    destruct Hs as [Ha Hl]; [reflexivity|].
    cbn [JNI.frameCount JNI.lastFrameTime] in Hc, Ha, Hl.
    rewrite Hc, Ha, Hl. repeat split; try done.
    intros Hrange. apply fps_of_nonzero.
    pose proof (duration_ms_bound (JNI.frameEnd f) (JNI.lastFrameTime reset)). lia.
  - intros frames f Hall Hmax.
    apply all_succeed_app in Hall as [Hinit [Hf _]].
    rewrite run_app. cbn [JNI.run]. rewrite (call_succeeded _ _ Hf).
    pose proof (run_count frames _ Hinit) as Hcount.
    rewrite Hreset, Z.add_0_l in Hcount. specialize (Hcount ltac:(lia) ltac:(lia)).
    destruct (updateMetrics_sample (JNI.frameEnd f) (JNI.run frames reset))
      as (Hc & Hs & Hn); [lia|].
    rewrite Hcount in Hc, Hs, Hn. done.
Qed.

(** The null returns of the entry point.  A call of [processFrame] that
    returns null leaves the counters as they were, and it returns null on
    a null input array, on an input length other than the [jint] product
    [width*height*4], and when the frame pipeline fails.  A call that
    returns an array counts exactly one frame.  So [frameCount] is the
    number of successful frames and, below [INT_MAX], never decreases
    along any sequence of calls. *)
Theorem processFrame_failure_keeps_counters
    (env : JNI.JNIEnv) (inputArray : option (list Z)) (width height frameEnd : Z)
    (st : JNI.Stats) :
  let r := JNI.processFrame env inputArray width height frameEnd st in
  (fst r = None -> snd r = st) /\
  (inputArray = None -> r = (None, st)) /\
  (forall inputBytes, inputArray = Some inputBytes ->
     Z.of_nat (length inputBytes) <> wrap32 (wrap32 (width * height) * 4) ->
     r = (None, st)) /\
  (forall inputBytes, inputArray = Some inputBytes ->
     fst (EdgeDetection.processFrame (Some inputBytes) width height
            (Some (replicate (length inputBytes) 0))) = false ->
     r = (None, st)) /\
  (is_Some (fst r) -> JNI.frameCount (snd r) = wrap32 (JNI.frameCount st + 1)) /\
  (INT_MIN <= JNI.frameCount st < INT_MAX ->
   JNI.frameCount st <= JNI.frameCount (snd r) /\
   (is_Some (fst r) -> JNI.frameCount (snd r) = JNI.frameCount st + 1)) /\
  (forall frames,
     0 <= JNI.frameCount st ->
     JNI.frameCount st + Z.of_nat (length frames) <= INT_MAX ->
     JNI.frameCount st <= JNI.frameCount (JNI.run frames st)).
Proof.
  cbv zeta.
  split; [|split; [|split; [|split; [|split; [|split]]]]].
  - destruct (processFrame_cases env inputArray width height frameEnd st)
      as [-> | (out & ->)]; done.
  - intros ->. done.
  - intros inputBytes -> Hlen. unfold JNI.processFrame.
    destruct (JNI.input_elements_ok env); [|done]. cbn [negb].
    by destruct (Z.eqb_spec (Z.of_nat (length inputBytes))
                   (wrap32 (wrap32 (width * height) * 4))).
  - intros inputBytes -> Hfail. unfold JNI.processFrame.
    repeat (case_match; try done); cbn [fst] in Hfail; congruence.
  - destruct (processFrame_cases env inputArray width height frameEnd st)
      as [-> | (out & ->)]; cbn [fst snd].
    + by intros [? ?].
    + intros _. apply updateMetrics_count.
  - intros Hrange.
    destruct (processFrame_cases env inputArray width height frameEnd st)
      as [-> | (out & ->)]; cbn [fst snd].
    + split; [lia|]. by intros [? ?].
    + rewrite updateMetrics_count, wrap32_small by lia. split; [lia|done].
  - intros frames. revert st.
    induction frames as [|f frames IH]; intros st H0 Hmax; cbn [JNI.run length] in *.
    + lia.
    + destruct (call_cases f st) as [-> | (out & ->)]; cbn [snd].
      * apply IH; lia.
      * assert (JNI.frameCount (JNI.updateMetrics (JNI.frameEnd f) st)
                = JNI.frameCount st + 1) as Hc.
        { rewrite updateMetrics_count, wrap32_small; unfold INT_MIN; lia. }
        etrans; [|apply IH; rewrite Hc; lia]. lia.
Qed.



End Counters.

Lemma all_succeed_intro `{K : Kernels} (frames : list JNI.FrameCall) :
  (forall f st, f ∈ frames -> is_Some (fst (JNI.call f st))) ->
  forall st, JNI.all_succeed frames st.
Proof.
  induction frames as [|f frames IH]; intros H st; cbn [JNI.all_succeed]; [done|].
  split.
  - apply H. by left.
  - apply IH. intros f' st' Hin. apply H. by right.
Qed.

(** The pipeline on the demonstration frame. *)
Lemma demo_frame_pipeline :
  EdgeDetection.processFrame (K:=Demo.kernels) (Some Demo.rgba_bytes) 3 2
    (Some (replicate (length Demo.rgba_bytes) 0))
  = (true, Some [0; 0; 0; 0; 255; 255; 255; 255; 0; 0; 0; 0;
                 0; 0; 0; 0; 255; 255; 255; 255; 0; 0; 0; 0]).
Proof. vm_compute. reflexivity. Qed.

Lemma demo_call_succeeds (t : Z) (st : JNI.Stats) :
  is_Some (fst (JNI.call (K:=Demo.kernels) (Demo.frame_at t) st)).
Proof.
  unfold JNI.call, JNI.processFrame, Demo.frame_at.
  cbn [JNI.env JNI.inputArray JNI.width JNI.height JNI.frameEnd
       JNI.input_elements_ok JNI.NewByteArray_ok JNI.output_elements_ok negb].
  change (Z.of_nat (length Demo.rgba_bytes) =? wrap32 (wrap32 (3 * 2) * 4)) with true.
  cbn [negb]. rewrite demo_frame_pipeline. by eexists.
Qed.

Lemma demo_frames_succeed (st : JNI.Stats) :
  JNI.all_succeed (K:=Demo.kernels) Demo.thirty_frames st.
Proof.
  apply all_succeed_intro. intros f st' Hin.
  apply list_elem_of_fmap in Hin as (i & -> & _). apply demo_call_succeeds.
Qed.

Lemma fps_recomputed_every_30_frames_witness :
  (JNI.frameCount
     (JNI.run (K:=Demo.kernels) Demo.thirty_frames (JNI.mkStats 0 0 (Double.of_Z 0)))
   = 30 /\
   JNI.averageFps
     (JNI.run (K:=Demo.kernels) Demo.thirty_frames (JNI.mkStats 0 0 (Double.of_Z 0)))
   = Double.of_Z 25 /\
   Double.is_zero
     (JNI.averageFps
        (JNI.run (K:=Demo.kernels) Demo.thirty_frames (JNI.mkStats 0 0 (Double.of_Z 0))))
   = false) /\
  JNI.averageFps
    (JNI.run (K:=Demo.kernels) ([] ++ [Demo.frame_at 40000000])
       (JNI.mkStats 0 0 (Double.of_Z 0)))
  = Double.of_Z 0.
Proof.
  destruct (fps_recomputed_every_30_frames (K:=Demo.kernels)
              (JNI.mkStats 0 0 (Double.of_Z 0))) as (_ & _ & Hrun).
  destruct Hrun as [H30 Hevery]; [reflexivity|].
  split.
  - destruct (H30 Demo.thirty_frames (Demo.frame_at 1200000000))
      as (Hc & Ha & _ & Hz).
    + reflexivity.
    + reflexivity.
    + apply demo_frames_succeed.
    + split; [exact Hc|]. split; [rewrite Ha; vm_compute; reflexivity|].
      apply Hz. reflexivity.
  - destruct (Hevery [] (Demo.frame_at 40000000)) as (_ & _ & Hn).
    + split; [apply demo_call_succeeds | exact I].
    + reflexivity.
    + apply Hn. discriminate.
Defined.

Lemma processFrame_failure_keeps_counters_witness :
  JNI.processFrame (K:=Demo.kernels) (JNI.mkJNIEnv true true true) None 3 2 77
    (JNI.mkStats 0 5 (Double.of_Z 0)) = (None, JNI.mkStats 0 5 (Double.of_Z 0)) /\
  JNI.processFrame (K:=Demo.kernels) (JNI.mkJNIEnv true true true) (Some [1; 2; 3]) 3 2 77
    (JNI.mkStats 0 5 (Double.of_Z 0)) = (None, JNI.mkStats 0 5 (Double.of_Z 0)) /\
  JNI.processFrame (K:=Demo.kernels) (JNI.mkJNIEnv true true true) (Some []) 0 0 77
    (JNI.mkStats 0 5 (Double.of_Z 0)) = (None, JNI.mkStats 0 5 (Double.of_Z 0)) /\
  JNI.frameCount
    (snd (JNI.processFrame (K:=Demo.kernels) (JNI.mkJNIEnv true true true)
            (Some Demo.rgba_bytes) 3 2 77 (JNI.mkStats 0 5 (Double.of_Z 0)))) = 6 /\
  5 <= JNI.frameCount
         (JNI.run (K:=Demo.kernels) Demo.thirty_frames (JNI.mkStats 0 5 (Double.of_Z 0))).
Proof.
  split; [|split; [|split; [|split]]].
  - destruct (processFrame_failure_keeps_counters (K:=Demo.kernels)
                (JNI.mkJNIEnv true true true) None 3 2 77
                (JNI.mkStats 0 5 (Double.of_Z 0))) as (_ & Hnull & _).
    apply Hnull. reflexivity.
  - destruct (processFrame_failure_keeps_counters (K:=Demo.kernels)
                (JNI.mkJNIEnv true true true) (Some [1; 2; 3]) 3 2 77
                (JNI.mkStats 0 5 (Double.of_Z 0))) as (_ & _ & Hlen & _).
    apply (Hlen [1; 2; 3]).
    + reflexivity.
    + vm_compute. discriminate.
  - destruct (processFrame_failure_keeps_counters (K:=Demo.kernels)
                (JNI.mkJNIEnv true true true) (Some []) 0 0 77
                (JNI.mkStats 0 5 (Double.of_Z 0))) as (_ & _ & _ & Hfail & _).
    apply (Hfail []).
    + reflexivity.
    + vm_compute. reflexivity.
  - destruct (processFrame_failure_keeps_counters (K:=Demo.kernels)
                (JNI.mkJNIEnv true true true) (Some Demo.rgba_bytes) 3 2 77
                (JNI.mkStats 0 5 (Double.of_Z 0))) as (_ & _ & _ & _ & _ & Hmono & _).
    destruct Hmono as [_ Hone].
    + unfold INT_MIN, INT_MAX. cbn. lia.
    + apply Hone. apply (demo_call_succeeds 77).
  - destruct (processFrame_failure_keeps_counters (K:=Demo.kernels)
                (JNI.mkJNIEnv true true true) None 3 2 77
                (JNI.mkStats 0 5 (Double.of_Z 0))) as (_ & _ & _ & _ & _ & _ & Hrun).
    apply Hrun.
    + cbn. lia.
    + vm_compute. discriminate.
Defined.

(** ** The two copy branches of [processFrame] *)

(** Copying row by row fills the buffer with the same bytes as the flat
    copy. *)
Lemma copy_rows_flat (m : Mat Z) (width : Z) (out0 : list Z) (h rw : nat) :
  Z.to_nat (wrap32 (width * 4)) = rw ->
  Z.to_nat (cols m * channels m) = rw ->
  length (data m) = (h * rw)%nat -> length out0 = (h * rw)%nat ->
  forall n i out,
    (i + n = h)%nat ->
    out = take (i * rw) (data m) ++ drop (i * rw) out0 ->
    EdgeDetection.copy_rows out m width i n = data m.
Proof.
  intros Hw Hc Hlen Hlen0. induction n as [|n IH]; intros i out Hi ->.
  - cbn [EdgeDetection.copy_rows]. replace i with h by lia.
    rewrite take_ge, drop_ge, app_nil_r by lia. done.
  - cbn [EdgeDetection.copy_rows]. apply IH; [lia|].
    unfold EdgeDetection.memcpy, EdgeDetection.row_ptr. rewrite Hw, Hc.
    assert ((i * rw)%nat = length (take (i * rw) (data m))) as Htl.
    { rewrite length_take. nia. }
    rewrite (take_app_length' _ _ _ Htl).
    rewrite (drop_app_add' _ _ _ _ Htl), drop_drop.
    rewrite app_assoc, take_take_drop.
    replace (i * rw + rw)%nat with (S i * rw)%nat by lia. done.
Qed.

Section CopyBranches.
Context `{K : Kernels}.

(** With an output buffer of [width*height*4] bytes the result of
    [processFrame] does not depend on whether the expanded matrix is
    continuous. *)
Lemma processFrame_with_any_layout (inp out : list Z) (width height : Z) :
  width * height * 4 <= INT_MAX ->
  length out = Z.to_nat (width * height * 4) ->
  EdgeDetection.processFrame_with false (Some inp) width height (Some out)
  = EdgeDetection.processFrame_with true (Some inp) width height (Some out).
Proof.
  intros Hmax Hlen. unfold EdgeDetection.processFrame_with.
  destruct (EdgeDetection.applyCanny _ _ _ _) as [f|edgeMat] eqn:Hc; [done|].
  destruct (applyCanny_shape _ _ _ _ _ Hc) as (Hr & Hcl & Hch & Hwf & Hne).
  destruct (edgeToRGBA_single_channel edgeMat Hne Hwf Hch)
    as (rgbaMat & -> & Hr' & Hc' & Hch' & Hl' & _).
  unfold Mat_over in Hr, Hcl. cbn [rows cols] in Hr, Hcl.
  assert (0 < height /\ 0 < width) as [Hh Hw].
  { destruct Hwf as (Hr0 & Hc0 & _). unfold empty, total in Hne. nia. }
  assert (length (data rgbaMat) = Z.to_nat (width * height * 4)) as Hlr.
  { rewrite Hl', (wf_single_length _ Hwf Hch). unfold total. rewrite Hr, Hcl.
    apply Nat2Z.inj. rewrite Nat2Z.inj_mul, !Z2Nat.id by nia. lia. }
  f_equal. f_equal.
  rewrite wrap32_small by (unfold INT_MIN; lia).
  rewrite memcpy_whole by done.
  apply (copy_rows_flat rgbaMat width out (Z.to_nat height) (Z.to_nat (width * 4))).
  - rewrite wrap32_small; [done|]. unfold INT_MIN. nia.
  - by rewrite Hc', Hcl, Hch'.
  - rewrite Hlr. apply Nat2Z.inj. rewrite Nat2Z.inj_mul, !Z2Nat.id by nia. lia.
  - rewrite Hlen. apply Nat2Z.inj. rewrite Nat2Z.inj_mul, !Z2Nat.id by nia. lia.
  - lia.
  - by rewrite Nat.mul_0_l, take_0, drop_0.
Qed.

End CopyBranches.

(** * Further properties of the code *)

(** ** Results of the two detectors *)

Lemma saturate_cast_uchar_range `{K : Kernels} (x : double) :
  0 <= saturate_cast_uchar x <= 255.
Proof. apply saturate_cast_uchar_int_range. Qed.

Section DetectorResults.
Context `{K : Kernels}.

(** X1. Whenever [applyCanny] succeeds its result is a non-empty
    single-channel matrix of the extents of the input, whatever the
    channel count of the input, holding one element per pixel. *)
Theorem applyCanny_result_shape (m : Mat Z) (lo hi : double) (k : Z) (e : Mat Z) :
  EdgeDetection.applyCanny m lo hi k = inr e ->
  rows e = rows m /\ cols e = cols m /\ channels e = 1 /\
  0 < rows m /\ 0 < cols m /\
  length (data e) = Z.to_nat (rows m * cols m).
Proof.
  intros H. destruct (applyCanny_shape _ _ _ _ _ H) as (Hr & Hc & Hch & Hwf & Hne).
  pose proof (wf_single_length _ Hwf Hch) as Hl.
  destruct Hwf as (Hr0 & Hc0 & _). unfold empty, total in *.
  rewrite Hr, Hc in *. repeat split; try done; nia.
Qed.

Lemma toGray_channels m g :
  EdgeDetection.toGray m = Some g ->
  channels g = if (channels m =? 4) || (channels m =? 3) then 1 else channels m.
Proof.
  unfold EdgeDetection.toGray.
  destruct (channels m =? 4); [|destruct (channels m =? 3)]; cbn [orb].
  - intros H. by apply cvtColor_shape in H as (_ & _ & ->).
  - intros H. by apply cvtColor_shape in H as (_ & _ & ->).
  - by intros [= <-].
Qed.

(** X2. Whenever [applySobel] succeeds its result has the extents of the
    input and the channel count of the grey image (1 for a 3- or 4-channel
    input, the input's own count otherwise), one element per pixel and
    channel, and every element lies in 0..255. *)
Theorem applySobel_result_range (m : Mat Z) (k : Z) (out : Mat Z) :
  EdgeDetection.applySobel m k = inr out ->
  rows out = rows m /\ cols out = cols m /\
  channels out = (if (channels m =? 4) || (channels m =? 3) then 1 else channels m) /\
  length (data out) = Z.to_nat (rows m * cols m * channels out) /\
  forall i v, data out !! i = Some v -> 0 <= v <= 255.
Proof.
  unfold EdgeDetection.applySobel. destruct (empty m); [done|].
  destruct (EdgeDetection.toGray m) as [g|] eqn:Hg; [|done]. cbn [mbind option_bind].
  destruct (GaussianBlur g 3 3 _ _) as [b|] eqn:Hb; [|done]. cbn [mbind option_bind].
  destruct (Sobel b 1 0 k) as [sx|] eqn:Hx; [|done]. cbn [mbind option_bind].
  destruct (Sobel b 0 1 k) as [sy|] eqn:Hy; [|done]. cbn [mbind option_bind].
  destruct (magnitude sx sy) as [mag|] eqn:Hm; [|done]. cbn [mbind option_bind].
  intros [= <-].
  pose proof (toGray_channels _ _ Hg) as Hgc.
  apply toGray_shape in Hg as (Hg1 & Hg2).
  apply GaussianBlur_shape in Hb as (Hb1 & Hb2 & Hb3 & _).
  apply Sobel_shape in Hx as (Hx1 & Hx2 & Hx3 & Hx4).
  apply Sobel_shape in Hy as (Hy1 & Hy2 & Hy3 & Hy4).
  unfold magnitude in Hm. destruct (_ && _); [|done]. injection Hm as <-.
  unfold convertTo_8U. cbn [rows cols channels data].
  rewrite Hx1, Hx2, Hx3, Hb1, Hb2, Hb3, Hg1, Hg2, Hgc.
  repeat split; try done.
  - rewrite length_fmap, length_zip_with, Hx4, Hy4. unfold total.
    rewrite Hb1, Hb2, Hb3, Hg1, Hg2, Hgc. lia.
  - apply list_lookup_fmap_Some_1 in H as (x & -> & _). apply saturate_cast_uchar_range.
  - apply list_lookup_fmap_Some_1 in H as (x & -> & _). apply saturate_cast_uchar_range.
Qed.

End DetectorResults.

(** ** Expansion of a matrix with any number of channels *)

Lemma take_drop_concat_uniform {A} (k : nat) (ls : list (list A)) :
  Forall (fun l => length l = k) ls ->
  forall p l, ls !! p = Some l -> take k (drop (p * k) (concat ls)) = l.
Proof.
  induction 1 as [|l0 ls Hl Hls IH]; intros p l Hp; [done|].
  destruct p as [|p]; cbn [concat].
  - injection Hp as <-. cbn [Nat.mul drop]. by apply take_app_length'.
  - cbn [Nat.mul]. rewrite (drop_app_add' l0 _ k) by done. by apply IH.
Qed.

Lemma length_pixel {A} (m : Mat A) (p : nat) :
  wf m -> (p < Z.to_nat (total m))%nat ->
  length (pixel m p) = Z.to_nat (channels m).
Proof.
  intros (Hr & Hc & Hch & Hlen) Hp. unfold pixel, total in *.
  rewrite length_take, length_drop.
  assert (length (data m) = (Z.to_nat (rows m * cols m) * Z.to_nat (channels m))%nat)
    as -> by (rewrite <- Z2Nat.inj_mul by nia; lia).
  nia.
Qed.

(** X3. [edgeToRGBA] checks nothing but emptiness: it does not require
    a single channel.  On every non-empty matrix with [c] channels per
    pixel ([c] at most 128, so that [4*c] stays within the 512 channels a
    matrix can have) it succeeds; the result has the same extents, [4*c]
    channels and four times the elements, and pixel [p] of the result is
    pixel [p] of the input, all its channels, written four times in a
    row. *)
Theorem edgeToRGBA_any_channel_count (edgeMat : Mat Z) :
  empty edgeMat = false -> channels edgeMat <= 128 ->
  exists rgbaMat,
    EdgeDetection.edgeToRGBA edgeMat = inr rgbaMat /\
    rows rgbaMat = rows edgeMat /\ cols rgbaMat = cols edgeMat /\
    channels rgbaMat = 4 * channels edgeMat /\
    (wf edgeMat ->
     length (data rgbaMat) = (4 * length (data edgeMat))%nat /\
     forall p, (p < Z.to_nat (total edgeMat))%nat ->
       pixel rgbaMat p
       = pixel edgeMat p ++ pixel edgeMat p ++ pixel edgeMat p ++ pixel edgeMat p).
Proof.
  intros He Hcn. unfold EdgeDetection.edgeToRGBA, merge. rewrite He.
  cbv zeta. cbn [forallb foldr]. rewrite !Z.eqb_refl. cbn [andb].
  assert ((channels edgeMat
           + (channels edgeMat + (channels edgeMat + (channels edgeMat + 0)))
           <=? CV_CN_MAX) = true) as -> by (unfold CV_CN_MAX; lia).
  eexists. split; [done|]. cbn [rows cols channels data foldr].
  split; [done|]. split; [done|]. split; [lia|]. intros Hwf.
  set (block := fun p : nat =>
         concat ((fun m => pixel m p) <$> [edgeMat; edgeMat; edgeMat; edgeMat])).
  assert (Forall (fun l : list Z => length l = (4 * Z.to_nat (channels edgeMat))%nat)
            (block <$> seq 0 (Z.to_nat (total edgeMat)))) as Hblocks.
  { apply Forall_fmap, Forall_seq. intros p Hp. unfold block. cbn [fmap list_fmap concat].
    unfold compose. cbn beta.
    rewrite !length_app, length_pixel by (done || lia). cbn [length]. lia. }
  split.
  - rewrite (length_concat_uniform _ _ Hblocks), length_fmap, length_seq.
    destruct Hwf as (Hr & Hc & Hch & Hlen). unfold total.
    apply Nat2Z.inj. rewrite !Nat2Z.inj_mul, Hlen, !Z2Nat.id by nia. cbn. lia.
  - intros p Hp. unfold pixel at 1. cbn [channels data].
    destruct Hwf as (Hr & Hc & Hch & Hlen).
    replace (Z.to_nat (channels edgeMat + (channels edgeMat
               + (channels edgeMat + (channels edgeMat + 0)))))
      with (4 * Z.to_nat (channels edgeMat))%nat by lia.
    rewrite (take_drop_concat_uniform _ _ Hblocks p (block p)).
    + unfold block. cbn [fmap list_fmap concat]. by rewrite app_nil_r.
    + rewrite list_lookup_fmap, lookup_seq_lt by done. done.
Qed.

(** ** Buffers of the real-time path *)

Section FrameBuffers.
Context `{K : Kernels}.

Lemma applyCanny_empty_frame inp (width height : Z) :
  width = 0 \/ height = 0 ->
  EdgeDetection.applyCanny (Mat_over height width 4 inp) (Double.of_Z 50)
    (Double.of_Z 150) 3 = inl EdgeDetection.InputMatrixEmpty.
Proof.
  intros H. apply applyCanny_empty_iff. unfold empty, total, Mat_over. cbn [rows cols].
  destruct H as [-> | ->]; lia.
Qed.

(** X4. A frame of zero width or zero height is rejected: [processFrame]
    returns [false] and leaves the output buffer alone, and the JNI entry
    point returns null for it, counting nothing; no empty array is ever
    returned for an empty frame. *)
Theorem empty_frame_is_rejected (width height : Z) :
  width = 0 \/ height = 0 ->
  (forall inputData outputData,
     EdgeDetection.processFrame inputData width height outputData
     = (false, outputData)) /\
  (forall env inputArray frameEnd st,
     JNI.processFrame env inputArray width height frameEnd st = (None, st)).
Proof.
  intros H. split.
  - intros inputData outputData.
    unfold EdgeDetection.processFrame, EdgeDetection.processFrame_with.
    destruct inputData as [inp|], outputData as [out|]; try done.
    by rewrite applyCanny_empty_frame.
  - intros env inputArray frameEnd st. unfold JNI.processFrame.
    destruct inputArray as [inputBytes|]; [|done].
    repeat (case_match; try done).
    match goal with
    | E : EdgeDetection.processFrame _ _ _ _ = _ |- _ =>
        unfold EdgeDetection.processFrame, EdgeDetection.processFrame_with in E;
        rewrite applyCanny_empty_frame in E by done; done
    end.
Qed.

(** X5. [processFrame] stays inside [width*height*4] bytes of both
    buffers: bytes of the input beyond that length do not influence the
    result, and when the call succeeds on an output buffer at least that
    long, exactly the first [width*height*4] bytes are overwritten (with
    the expanded edge map) and the rest of the buffer, like its length,
    is unchanged. *)
Theorem processFrame_stays_in_bounds (inp extra out : list Z) (width height : Z) :
  length inp = Z.to_nat (height * width * 4) ->
  EdgeDetection.processFrame (Some (inp ++ extra)) width height (Some out)
  = EdgeDetection.processFrame (Some inp) width height (Some out) /\
  (forall out',
     width * height * 4 <= INT_MAX ->
     (Z.to_nat (width * height * 4) <= length out)%nat ->
     EdgeDetection.processFrame (Some inp) width height (Some out) = (true, Some out') ->
     length out' = length out /\
     drop (Z.to_nat (width * height * 4)) out'
     = drop (Z.to_nat (width * height * 4)) out /\
     exists edgeMat rgbaMat,
       EdgeDetection.applyCanny (Mat_over height width 4 inp)
         (Double.of_Z 50) (Double.of_Z 150) 3 = inr edgeMat /\
       EdgeDetection.edgeToRGBA edgeMat = inr rgbaMat /\
       take (Z.to_nat (width * height * 4)) out' = data rgbaMat).
Proof.
  intros Hin. split.
  - unfold EdgeDetection.processFrame, EdgeDetection.processFrame_with, Mat_over.
    rewrite (take_app_length' inp extra) by done. by rewrite take_ge by lia.
  - intros out' Hmax Hlen.
    unfold EdgeDetection.processFrame, EdgeDetection.processFrame_with.
    destruct (EdgeDetection.applyCanny _ _ _ _) as [f|edgeMat] eqn:Hc; [done|].
    destruct (applyCanny_shape _ _ _ _ _ Hc) as (Hr & Hcl & Hch & Hwf & Hne).
    destruct (edgeToRGBA_single_channel edgeMat Hne Hwf Hch)
      as (rgbaMat & Hrg & Hr' & Hc' & Hch' & Hl' & _).
    rewrite Hrg. intros [= <-].
    unfold Mat_over in Hr, Hcl. cbn [rows cols] in Hr, Hcl.
    assert (length (data rgbaMat) = Z.to_nat (width * height * 4)) as Hlr.
    { rewrite Hl', (wf_single_length _ Hwf Hch). unfold total.
      rewrite Hr, Hcl. destruct Hwf as (Hr0 & Hc0 & _). rewrite Hr in Hr0.
      rewrite Hcl in Hc0. apply Nat2Z.inj.
      rewrite Nat2Z.inj_mul, !Z2Nat.id by nia. lia. }
    assert (0 <= width * height * 4).
    { destruct Hwf as (Hr0 & Hc0 & _). rewrite Hr in Hr0. rewrite Hcl in Hc0. nia. }
    rewrite wrap32_small by (unfold INT_MIN; lia).
    unfold EdgeDetection.memcpy.
    rewrite take_0, Nat.add_0_l, app_nil_l, (take_ge (data rgbaMat)) by lia.
    split; [|split].
    + rewrite length_app, length_drop. lia.
    + by rewrite drop_app_length' by done.
    + exists edgeMat, rgbaMat. split; [done|]. split; [done|].
      by rewrite take_app_length' by done.
Qed.

(** X6. With an output buffer of [width*height*4] bytes the row-by-row
    copy taken for a non-continuous matrix and the single flat copy leave
    the same bytes in the buffer: the result of [processFrame] does not
    depend on the memory layout of the expanded matrix. *)
Theorem processFrame_copy_branches_agree (inp out : list Z) (width height : Z) :
  width * height * 4 <= INT_MAX ->
  length out = Z.to_nat (width * height * 4) ->
  EdgeDetection.processFrame_with false (Some inp) width height (Some out)
  = EdgeDetection.processFrame_with true (Some inp) width height (Some out).
Proof. apply processFrame_with_any_layout. Qed.

End FrameBuffers.

(** ** Sessions of frames *)

Section Sessions.
Context `{K : Kernels}.

(** The real-time path on a frame of positive extents whose buffer has
    [width*height*4] bytes. *)
Lemma processFrame_wellformed (inputBytes : list Z) (width height : Z) :
  0 < width -> 0 < height -> width * height * 4 <= INT_MAX ->
  Z.of_nat (length inputBytes) = width * height * 4 ->
  exists outputArray edgeMat,
    EdgeDetection.processFrame (Some inputBytes) width height
      (Some (replicate (length inputBytes) 0)) = (true, Some outputArray) /\
    length outputArray = length inputBytes /\
    EdgeDetection.applyCanny (Mat_over height width 4 inputBytes)
      (Double.of_Z 50) (Double.of_Z 150) 3 = inr edgeMat /\
    forall p v, data edgeMat !! p = Some v ->
      forall c, (c < 4)%nat -> outputArray !! (4 * p + c)%nat = Some v.
Proof.
  intros Hw Hh Hmax Hlen.
  unfold EdgeDetection.processFrame, EdgeDetection.processFrame_with.
  destruct (applyCanny_realtime_Some inputBytes width height Hw Hh) as [edgeMat Hc].
  rewrite Hc.
  destruct (applyCanny_shape _ _ _ _ _ Hc) as (Hr & Hcl & Hch & Hwf & Hne).
  destruct (edgeToRGBA_single_channel edgeMat Hne Hwf Hch)
    as (rgbaMat & -> & Hr' & Hc' & Hch' & Hl' & Hpx).
  unfold Mat_over in Hr, Hcl. cbn [rows cols] in Hr, Hcl.
  assert (length (data rgbaMat) = Z.to_nat (width * height * 4)) as Hlr.
  { rewrite Hl', (wf_single_length _ Hwf Hch). unfold total.
    rewrite Hr, Hcl. apply Nat2Z.inj.
    rewrite Nat2Z.inj_mul, !Z2Nat.id by nia. lia. }
  rewrite wrap32_small by (unfold INT_MIN; nia).
  rewrite memcpy_whole by (rewrite ?length_replicate; lia).
  exists (data rgbaMat), edgeMat. repeat split; try done. lia.
Qed.

(** The JNI entry point once its own checks have passed. *)
Lemma processFrame_checks_passed (env : JNI.JNIEnv) (inputBytes : list Z)
    (width height frameEnd : Z) (st : JNI.Stats) :
  0 < width -> 0 < height -> width * height * 4 <= INT_MAX ->
  Z.of_nat (length inputBytes) = width * height * 4 ->
  JNI.input_elements_ok env = true -> JNI.NewByteArray_ok env = true ->
  JNI.output_elements_ok env = true ->
  JNI.processFrame env (Some inputBytes) width height frameEnd st
  = match EdgeDetection.processFrame (Some inputBytes) width height
            (Some (replicate (length inputBytes) 0)) with
    | (true, Some outputArray) => (Some outputArray, JNI.updateMetrics frameEnd st)
    | _ => (None, st)
    end.
Proof.
  intros Hw Hh Hmax Hlen He1 He2 He3.
  unfold JNI.processFrame. rewrite He1, He2, He3. cbn [negb].
  rewrite (wrap32_small (width * height)) by (unfold INT_MIN; nia).
  rewrite wrap32_small by (unfold INT_MIN; nia).
  by assert ((Z.of_nat (length inputBytes) =? width * height * 4) = true) as -> by lia.
Qed.

(** X7. A well-formed call of the JNI [processFrame] always succeeds:
    for positive extents, an input array of exactly [width*height*4]
    bytes (at most [INT_MAX]) and a VM that hands out the arrays, the
    call returns an array of the length of the input, in which the four
    bytes of every pixel equal the Canny result at that pixel, and the
    frame is counted. *)
Theorem processFrame_succeeds_on_wellformed_call
    (env : JNI.JNIEnv) (inputBytes : list Z) (width height frameEnd : Z)
    (st : JNI.Stats) :
  0 < width -> 0 < height -> width * height * 4 <= INT_MAX ->
  Z.of_nat (length inputBytes) = width * height * 4 ->
  JNI.input_elements_ok env = true -> JNI.NewByteArray_ok env = true ->
  JNI.output_elements_ok env = true ->
  exists outputArray edgeMat,
    JNI.processFrame env (Some inputBytes) width height frameEnd st
    = (Some outputArray, JNI.updateMetrics frameEnd st) /\
    length outputArray = length inputBytes /\
    EdgeDetection.applyCanny (Mat_over height width 4 inputBytes)
      (Double.of_Z 50) (Double.of_Z 150) 3 = inr edgeMat /\
    forall p v, data edgeMat !! p = Some v ->
      forall c, (c < 4)%nat -> outputArray !! (4 * p + c)%nat = Some v.
Proof.
  intros Hw Hh Hmax Hlen He1 He2 He3.
  rewrite processFrame_checks_passed by done.
  destruct (processFrame_wellformed inputBytes width height Hw Hh Hmax Hlen)
    as (outputArray & edgeMat & -> & Hout).
  by exists outputArray, edgeMat.
Qed.

(** The result of a call does not depend on the counters. *)
Lemma call_result_independent f st st' : fst (JNI.call f st) = fst (JNI.call f st').
Proof.
  unfold JNI.call, JNI.processFrame.
  destruct (JNI.inputArray f) as [inputBytes|]; [|done].
  repeat (case_match; try done).
Qed.

(** X8. Over any sequence of calls [frameCount] advances by exactly the
    number of calls that returned an array (as long as it stays below
    [INT_MAX]): calls that returned null are not counted, and each
    success is counted once. *)
Theorem frameCount_counts_returned_arrays (frames : list JNI.FrameCall) :
  forall st,
    0 <= JNI.frameCount st ->
    JNI.frameCount st + Z.of_nat (length frames) <= INT_MAX ->
    JNI.frameCount (JNI.run frames st)
    = JNI.frameCount st
      + Z.of_nat (length (filter is_Some (Session.returned frames st))).
Proof.
  induction frames as [|f frames IH]; intros st H0 Hmax;
    cbn [JNI.run Session.returned length] in *.
  - rewrite filter_nil. cbn. lia.
  - destruct (call_cases f st) as [E | (out & E)]; rewrite E; cbn [fst snd].
    + rewrite filter_cons_False by (by intros [? ?]). apply IH; lia.
    + rewrite filter_cons_True by (by eexists). cbn [length].
      destruct (updateMetrics_sample (JNI.frameEnd f) st) as (Hc & _); [lia|].
      rewrite IH by lia. lia.
Qed.

End Sessions.

(** ** Objects of the renderer *)

Section Resources.
Import GLRenderer GLResources.
Context `{D : Driver}.

Lemma new_calls_app before after l :
  calls after = calls before ++ l -> new_calls before after = l.
Proof. intros H. unfold new_calls. rewrite H. by rewrite drop_app_length. Qed.

Lemma new_calls_same before after :
  calls after = calls before -> new_calls before after = [].
Proof. intros H. unfold new_calls. rewrite H. by rewrite drop_all. Qed.

Lemma checkGLError_names operation st :
  buffer_names (checkGLError operation st) = buffer_names st.
Proof. unfold checkGLError. by destruct (_ =? _). Qed.

Lemma compileShader_names type source st :
  buffer_names (snd (compileShader type source st)) = buffer_names st.
Proof.
  unfold compileShader, do_glCreateShader, do_glDeleteShader.
  repeat case_match; simplify_eq/=; done.
Qed.

Lemma linkProgram_names vertexShader fragmentShader st :
  buffer_names (snd (linkProgram vertexShader fragmentShader st)) = buffer_names st.
Proof.
  unfold linkProgram, linkProgram_query, do_glCreateProgram, do_glDeleteProgram.
  repeat case_match; simplify_eq/=; done.
Qed.

(** A program name other than 0 comes from a successful link of a newly
    created program object. *)
Lemma linkProgram_resources vertexShader fragmentShader st :
  let query := linkProgram_query vertexShader fragmentShader st in
  let linked := linkProgram vertexShader fragmentShader st in
  (fst linked <> 0 <-> fst query <> 0 /\ link_status (snd query) (fst query) = true) /\
  (fst linked <> 0 ->
   fst linked = fst query /\ (fst linked ∉ programs st) /\
   programs (snd linked) = {[fst linked]} ∪ programs st).
Proof.
  cbv zeta. unfold linkProgram.
  assert (fst (linkProgram_query vertexShader fragmentShader st) <> 0 ->
          (fst (linkProgram_query vertexShader fragmentShader st) ∉ programs st) /\
          programs (snd (linkProgram_query vertexShader fragmentShader st))
          = {[fst (linkProgram_query vertexShader fragmentShader st)]} ∪ programs st)
    as Hq.
  { unfold linkProgram_query, do_glCreateProgram.
    destruct (program_alloc_fails (emit glCreateProgram st)); cbn [fst snd]; [done|].
    destruct (fresh_name_spec (emit glCreateProgram st)) as (_ & _ & Hp).
    intros _. split; [exact Hp | reflexivity]. }
  destruct (linkProgram_query vertexShader fragmentShader st) as [id st1].
  cbn [fst snd] in *.
  destruct (link_status st1 id); cbn [fst snd].
  - split; [tauto|]. intros Hid. destruct (Hq Hid). done.
  - split; [|done]. split; [done|]. by intros [_ ?].
Qed.

(** The objects [createShaderProgram] leaves behind. *)
Lemma createShaderProgram_resources vertexShaderSource fragmentShaderSource st :
  let result := GLRenderer.createShaderProgram vertexShaderSource fragmentShaderSource st in
  shaders (snd result) = shaders st /\
  buffer_names (snd result) = buffer_names st /\
  (programId (fst result) = 0 -> programs (snd result) = programs st) /\
  (programId (fst result) <> 0 ->
   (programId (fst result) ∉ programs st) /\
   programs (snd result) = {[programId (fst result)]} ∪ programs st).
Proof.
  cbv zeta. unfold GLRenderer.createShaderProgram.
  pose proof (compileShader_spec GL_VERTEX_SHADER vertexShaderSource st)
    as (Hvp & Hv0 & Hv1 & _).
  pose proof (compileShader_names GL_VERTEX_SHADER vertexShaderSource st) as Hvn.
  destruct (compileShader GL_VERTEX_SHADER vertexShaderSource st) as [v st1].
  cbn [fst snd] in *.
  destruct (Z.eqb_spec v 0) as [->|Hv].
  { cbn. rewrite Hv0 by done. done. }
  pose proof (compileShader_spec GL_FRAGMENT_SHADER fragmentShaderSource st1)
    as (Hfp & Hf0 & Hf1 & _).
  pose proof (compileShader_names GL_FRAGMENT_SHADER fragmentShaderSource st1) as Hfn.
  destruct (compileShader GL_FRAGMENT_SHADER fragmentShaderSource st1) as [f st2].
  cbn [fst snd] in *.
  destruct (Hv1 Hv) as (Hvs & Hvs').
  destruct (Z.eqb_spec f 0) as [->|Hf].
  { unfold do_glDeleteShader. assert ((v =? 0) = false) as -> by lia.
    cbn. rewrite Hf0, Hvs', Hfp, Hvp by done.
    split; [by apply delete_created|]. split; [|done].
    by rewrite <- Hvn, <- Hfn. }
  destruct (Hf1 Hf) as (Hfs & Hfs').
  pose proof (linkProgram_spec v f st2) as (Hls & Hlp & _).
  pose proof (linkProgram_names v f st2) as Hln.
  pose proof (linkProgram_resources v f st2) as (_ & Hlr).
  cbv zeta in Hlr.
  destruct (linkProgram v f st2) as [id st3]. cbn [fst snd] in *.
  assert (forall st', shaders st' = shaders st3 ->
            shaders (do_glDeleteShader f (do_glDeleteShader v st')) = shaders st) as Hdel.
  { intros st' Hst'. unfold do_glDeleteShader.
    assert ((v =? 0) = false) as -> by lia.
    assert ((f =? 0) = false) as -> by lia.
    cbn. rewrite Hst', Hls, Hfs', Hvs'. rewrite Hvs' in Hfs. set_solver. }
  match goal with
  | |- context [checkGLError ?o _] =>
      assert (forall s, shaders (checkGLError o s) = shaders s /\
                        programs (checkGLError o s) = programs s /\
                        buffer_names (checkGLError o s) = buffer_names s) as Hck
        by (intros s; destruct (calls_checkGLError o s) as (_ & ? & ?);
            by rewrite checkGLError_names)
  end.
  assert (forall st', buffer_names (do_glDeleteShader f (do_glDeleteShader v st'))
                      = buffer_names st') as Hdn.
  { intros st'. unfold do_glDeleteShader.
    assert ((v =? 0) = false) as -> by lia.
    assert ((f =? 0) = false) as -> by lia. done. }
  assert (forall st', programs (do_glDeleteShader f (do_glDeleteShader v st'))
                      = programs st') as Hdp.
  { intros st'. unfold do_glDeleteShader.
    assert ((v =? 0) = false) as -> by lia.
    assert ((f =? 0) = false) as -> by lia. done. }
  destruct (Z.eqb_spec id 0) as [->|Hid].
  - cbn [fst snd programId].
    destruct (Hck (do_glDeleteShader f (do_glDeleteShader v st3))) as (-> & -> & ->).
    rewrite Hdel, Hdn, Hdp by done. rewrite Hlp by done.
    split; [done|]. split; [by rewrite Hln, Hfn, Hvn|]. split; [by rewrite Hfp, Hvp|done].
  - cbn [fst snd programId].
    match goal with
    | |- context [checkGLError _ ?s] => destruct (Hck s) as (-> & -> & ->)
    end.
    cbn [write_log emit shaders programs].
    destruct (Hlr Hid) as (_ & Hnew & Hprog).
    rewrite Hfp, Hvp in Hnew, Hprog.
    rewrite Hdel, Hdp by done.
    split; [done|]. split; [|done].
    transitivity (buffer_names (do_glDeleteShader f (do_glDeleteShader v st3)));
      [done|]. by rewrite Hdn, Hln, Hfn, Hvn.
Qed.

Lemma checkGLError_fields operation st :
  shaders (checkGLError operation st) = shaders st /\
  programs (checkGLError operation st) = programs st /\
  VAO (checkGLError operation st) = VAO st /\
  VBO (checkGLError operation st) = VBO st /\
  EBO (checkGLError operation st) = EBO st.
Proof. unfold checkGLError. by destruct (_ =? _). Qed.

(** Rewriting of the fields through [checkGLError]. *)
Ltac through_checkGLError :=
  repeat match goal with
    | |- context [shaders (checkGLError ?o ?s)] =>
        rewrite (proj1 (checkGLError_fields o s))
    | |- context [programs (checkGLError ?o ?s)] =>
        rewrite (proj1 (proj2 (checkGLError_fields o s)))
    | |- context [VAO (checkGLError ?o ?s)] =>
        rewrite (proj1 (proj2 (proj2 (checkGLError_fields o s))))
    | |- context [VBO (checkGLError ?o ?s)] =>
        rewrite (proj1 (proj2 (proj2 (proj2 (checkGLError_fields o s)))))
    | |- context [EBO (checkGLError ?o ?s)] =>
        rewrite (proj2 (proj2 (proj2 (proj2 (checkGLError_fields o s)))))
    | _ => progress cbn [write_log emit shaders programs VAO VBO EBO
                           lift issue context textures buffers]
    end.

Lemma do_glGenBuffers_spec dev :
  fst (do_glGenBuffers dev) <> 0 /\
  (fst (do_glGenBuffers dev) ∉ buffers dev) /\
  buffers (snd (do_glGenBuffers dev)) = {[fst (do_glGenBuffers dev)]} ∪ buffers dev /\
  context (snd (do_glGenBuffers dev)) = context dev /\
  textures (snd (do_glGenBuffers dev)) = textures dev.
Proof.
  unfold do_glGenBuffers, issue. cbn [fst snd buffers context textures events].
  pose proof (is_fresh ({[0]} ∪ buffers dev)) as H.
  repeat split; set_solver.
Qed.

Lemma initializeGL_resources width height dev :
  let dev1 := snd (initializeGL width height dev) in
  let c1 := context dev1 in
  fst (initializeGL width height dev) = true /\
  shaders c1 = shaders (context dev) /\ programs c1 = programs (context dev) /\
  textures dev1 = textures dev /\
  VAO c1 <> 0 /\ VBO c1 <> 0 /\ EBO c1 <> 0 /\
  (VAO c1 ∉ buffers dev) /\ (VBO c1 ∉ buffers dev) /\ (EBO c1 ∉ buffers dev) /\
  VAO c1 <> VBO c1 /\ VAO c1 <> EBO c1 /\ VBO c1 <> EBO c1 /\
  buffers dev1 = {[VAO c1; VBO c1; EBO c1]} ∪ buffers dev.
Proof.
  cbv zeta. unfold initializeGL. cbv zeta.
  set (d1 := lift (checkGLError "glBlendFunc") _).
  assert (shaders (context d1) = shaders (context dev) /\
          programs (context d1) = programs (context dev) /\
          textures d1 = textures dev /\ buffers d1 = buffers dev) as (Hs1 & Hp1 & Ht1 & Hb1).
  { subst d1. by through_checkGLError. }
  clearbody d1.
  destruct (do_glGenBuffers_spec d1) as (Ha0 & Ha & Hba & Hca & Hta).
  destruct (do_glGenBuffers d1) as [vao d2]. cbn [fst snd] in *.
  destruct (do_glGenBuffers_spec (set_VAO vao d2)) as (Hb0 & Hb & Hbb & Hcb & Htb).
  destruct (do_glGenBuffers (set_VAO vao d2)) as [vbo d3]. cbn [fst snd] in *.
  destruct (do_glGenBuffers_spec (set_VBO vbo d3)) as (Hc0 & Hc & Hbc & Hcc & Htc).
  destruct (do_glGenBuffers (set_VBO vbo d3)) as [ebo d4]. cbn [fst snd] in *.
  cbn [context textures buffers set_EBO set_VBO set_VAO] in *.
  through_checkGLError.
  cbn [set_EBO context textures buffers shaders programs VAO VBO EBO].
  rewrite Hcc, Hcb. cbn [shaders programs VAO VBO EBO].
  rewrite Hca, Hs1, Hp1, Htc, Htb, Hta, Ht1, Hbc, Hbb, Hba, Hb1.
  rewrite Hba, Hb1 in Hb. rewrite Hbb, Hba, Hb1 in Hc. rewrite Hb1 in Ha.
  repeat split; try done; set_solver.
Qed.

Lemma do_glGenTextures_spec dev :
  fst (do_glGenTextures dev) <> 0 /\
  (fst (do_glGenTextures dev) ∉ textures dev) /\
  textures (snd (do_glGenTextures dev)) = {[fst (do_glGenTextures dev)]} ∪ textures dev /\
  context (snd (do_glGenTextures dev)) = context dev /\
  buffers (snd (do_glGenTextures dev)) = buffers dev.
Proof.
  unfold do_glGenTextures, issue. cbn [fst snd buffers context textures events].
  pose proof (is_fresh ({[0]} ∪ textures dev)) as H.
  repeat split; set_solver.
Qed.

Lemma createTexture_resources width height dev :
  let result := createTexture width height dev in
  fst result = mkTextureInfo (textureId (fst result)) width height GL_RGBA /\
  textureId (fst result) <> 0 /\ (textureId (fst result) ∉ textures dev) /\
  textures (snd result) = {[textureId (fst result)]} ∪ textures dev /\
  shaders (context (snd result)) = shaders (context dev) /\
  programs (context (snd result)) = programs (context dev) /\
  buffers (snd result) = buffers dev /\
  buffer_names (context (snd result)) = buffer_names (context dev).
Proof.
  cbv zeta. unfold createTexture.
  destruct (do_glGenTextures_spec dev) as (H0 & Hnew & Ht & Hc & Hb).
  destruct (do_glGenTextures dev) as [id dev1]. cbn [fst snd] in *.
  unfold buffer_names. through_checkGLError. cbn [textureId].
  rewrite Hc, Ht, Hb. done.
Qed.

(** One guarded [glDeleteBuffers] of [cleanupGL]. *)
Lemma delete_buffer_step (name : Z) (dev : Device) :
  let dev' := if name =? 0 then dev else do_glDeleteBuffers name dev in
  context dev' = context dev /\ textures dev' = textures dev /\
  buffers dev' = (if name =? 0 then id else fun s => s ∖ {[name]}) (buffers dev).
Proof. cbv zeta. by destruct (name =? 0). Qed.

Lemma cleanupGL_resources shaderProgram textureInfo dev :
  let dev' := cleanupGL shaderProgram textureInfo dev in
  let c := context dev in
  shaders (context dev') = shaders c /\
  programs (context dev')
  = (if programId shaderProgram =? 0 then programs c
     else programs c ∖ {[programId shaderProgram]}) /\
  textures dev'
  = (if textureId textureInfo =? 0 then textures dev
     else textures dev ∖ {[textureId textureInfo]}) /\
  buffers dev'
  = ((if EBO c =? 0 then id else fun s => s ∖ {[EBO c]})
       ((if VBO c =? 0 then id else fun s => s ∖ {[VBO c]})
          ((if VAO c =? 0 then id else fun s => s ∖ {[VAO c]}) (buffers dev)))) /\
  buffer_names (context dev') = buffer_names c.
Proof.
  cbv zeta. unfold cleanupGL. cbv zeta.
  set (d1 := if programId shaderProgram =? 0 then dev else _).
  assert (shaders (context d1) = shaders (context dev) /\
          programs (context d1)
          = (if programId shaderProgram =? 0 then programs (context dev)
             else programs (context dev) ∖ {[programId shaderProgram]}) /\
          buffer_names (context d1) = buffer_names (context dev) /\
          textures d1 = textures dev /\ buffers d1 = buffers dev)
    as (Hs1 & Hp1 & Hn1 & Ht1 & Hb1).
  { subst d1. destruct (programId shaderProgram =? 0) eqn:E; [done|].
    cbn [lift context textures buffers write_log shaders programs].
    unfold do_glDeleteProgram. rewrite E. done. }
  clearbody d1.
  set (d2 := if textureId textureInfo =? 0 then d1 else _).
  assert (context d2 = context d1 \/
          context d2 = write_log (LOGI "Deleted texture: %d"
                                    [ArgZ (textureId textureInfo)]) (context d1))
    as Hc2.
  { subst d2. destruct (textureId textureInfo =? 0); [by left|by right]. }
  assert (shaders (context d2) = shaders (context d1) /\
          programs (context d2) = programs (context d1) /\
          buffer_names (context d2) = buffer_names (context d1)) as (Hs2 & Hp2 & Hn2).
  { by destruct Hc2 as [-> | ->]. }
  assert (textures d2
          = (if textureId textureInfo =? 0 then textures d1
             else textures d1 ∖ {[textureId textureInfo]}) /\
          buffers d2 = buffers d1) as (Ht2 & Hb2).
  { subst d2. by destruct (textureId textureInfo =? 0). }
  clearbody d2. clear Hc2.
  destruct (delete_buffer_step (VAO (context d2)) d2) as (Hc3 & Ht3 & Hb3).
  set (d3 := if VAO (context d2) =? 0 then d2 else _) in *. clearbody d3.
  destruct (delete_buffer_step (VBO (context d3)) d3) as (Hc4 & Ht4 & Hb4).
  set (d4 := if VBO (context d3) =? 0 then d3 else _) in *. clearbody d4.
  destruct (delete_buffer_step (EBO (context d4)) d4) as (Hc5 & Ht5 & Hb5).
  set (d5 := if EBO (context d4) =? 0 then d4 else _) in *. clearbody d5.
  cbn [lift context textures buffers write_log shaders programs].
  unfold buffer_names in *.
  cbn [VAO VBO EBO].
  rewrite Hc5, Ht5, Hb5, Hc4, Ht4, Hb4, Hc3, Ht3, Hb3.
  rewrite Hs2, Hs1, Hp2, Hp1, Ht2, Ht1, Hb2, Hb1.
  cbn [write_log VAO VBO EBO].
  assert (VAO (context d2) = VAO (context dev) /\ VBO (context d2) = VBO (context dev)
          /\ EBO (context d2) = EBO (context dev)) as (-> & -> & ->)
    by (rewrite Hn1 in Hn2; by simplify_eq).
  done.
Qed.

Lemma renderTexture_resources shaderProgram textureInfo st :
  shaders (GLRenderer.renderTexture shaderProgram textureInfo st) = shaders st /\
  programs (GLRenderer.renderTexture shaderProgram textureInfo st) = programs st /\
  buffer_names (GLRenderer.renderTexture shaderProgram textureInfo st) = buffer_names st.
Proof.
  unfold GLRenderer.renderTexture, checkGLError. repeat case_match; done.
Qed.

Lemma updateTexture_resources textureInfo pixelData dev :
  live (updateTexture textureInfo pixelData dev) = live dev /\
  buffer_names (context (updateTexture textureInfo pixelData dev))
  = buffer_names (context dev).
Proof.
  unfold updateTexture, lift, issue, checkGLError. repeat case_match; done.
Qed.

Lemma onSurfaceChanged_resources newWidth newHeight dev :
  live (onSurfaceChanged newWidth newHeight dev) = live dev /\
  buffer_names (context (onSurfaceChanged newWidth newHeight dev))
  = buffer_names (context dev).
Proof. done. Qed.

(** The calls of a draw with two handles other than 0. *)
Lemma renderTexture_calls shaderProgram textureInfo st :
  programId shaderProgram <> 0 -> textureId textureInfo <> 0 ->
  calls (GLRenderer.renderTexture shaderProgram textureInfo st) =
    calls st ++
    [glClear GL_COLOR_BUFFER_BIT;
     glUseProgram (programId shaderProgram);
     glActiveTexture GL_TEXTURE0;
     glBindTexture GL_TEXTURE_2D (textureId textureInfo);
     glUniform1i (textureUniform shaderProgram) 0;
     glBindBuffer GL_ARRAY_BUFFER (VBO st);
     glVertexAttribPointer (GLuint_of_int (positionAttrib shaderProgram)) 2
       GL_FLOAT false 16 0;
     glEnableVertexAttribArray (GLuint_of_int (positionAttrib shaderProgram));
     glVertexAttribPointer (GLuint_of_int (texCoordAttrib shaderProgram)) 2
       GL_FLOAT false 16 8;
     glEnableVertexAttribArray (GLuint_of_int (texCoordAttrib shaderProgram));
     glBindBuffer GL_ELEMENT_ARRAY_BUFFER (EBO st);
     glDrawElements GL_TRIANGLES 6 GL_UNSIGNED_INT 0;
     glDisableVertexAttribArray (GLuint_of_int (positionAttrib shaderProgram));
     glDisableVertexAttribArray (GLuint_of_int (texCoordAttrib shaderProgram));
     glGetError].
Proof.
  intros Hp Ht. unfold GLRenderer.renderTexture.
  assert ((programId shaderProgram =? 0) = false) as -> by lia.
  assert ((textureId textureInfo =? 0) = false) as -> by lia.
  cbn [orb]. rewrite (proj1 (calls_checkGLError _ _)). cbn [emit calls VBO EBO].
  by rewrite <- !app_assoc.
Qed.

Lemma events_lift_emit c dev : events (lift (emit c) dev) = events dev ++ [Core c].
Proof.
  unfold lift. cbn [events]. by rewrite (new_calls_app _ _ [c]).
Qed.

Lemma events_lift_checkGLError operation dev :
  events (lift (checkGLError operation) dev) = events dev ++ [Core glGetError].
Proof.
  unfold lift. cbn [events].
  by rewrite (new_calls_app _ _ [glGetError]) by apply calls_checkGLError.
Qed.

Lemma events_lift_write_log l dev : events (lift (write_log l) dev) = events dev.
Proof.
  unfold lift. cbn [events]. rewrite new_calls_same by done. apply app_nil_r.
Qed.

(** X9. [createShaderProgram] returns a program handle other than 0
    exactly when both shaders compile, the program object is created and
    its link status is true.  In every case the shader objects that exist
    afterwards are those that existed before; a zero handle comes with all
    four locations zero and with the programs that existed before; a
    non-zero handle names a program that did not exist before and exists
    now, and the success line is logged. *)
Theorem createShaderProgram_succeeds_iff
    (vertexShaderSource fragmentShaderSource : string) (st : Context) :
  let vertex := compileShader GL_VERTEX_SHADER vertexShaderSource st in
  let fragment := compileShader GL_FRAGMENT_SHADER fragmentShaderSource (snd vertex) in
  let query := linkProgram_query (fst vertex) (fst fragment) (snd fragment) in
  let result := GLRenderer.createShaderProgram vertexShaderSource fragmentShaderSource st in
  (programId (fst result) <> 0 <->
   fst vertex <> 0 /\ fst fragment <> 0 /\ fst query <> 0 /\
   link_status (snd query) (fst query) = true) /\
  shaders (snd result) = shaders st /\
  (programId (fst result) = 0 ->
   fst result = mkShaderProgram 0 0 0 0 0 /\ programs (snd result) = programs st) /\
  (programId (fst result) <> 0 ->
   programId (fst result) = fst query /\
   (programId (fst result) ∉ programs st) /\
   programs (snd result) = {[programId (fst result)]} ∪ programs st /\
   (LOGI "Shader program created successfully (ID: %d)" [ArgZ (programId (fst result))]
      ∈ log (snd result))).
Proof.
  cbv zeta.
  pose proof (createShaderProgram_resources vertexShaderSource fragmentShaderSource st)
    as (Hs & _ & Hp0 & Hp1).
  cbv zeta in Hs, Hp0, Hp1.
  split; [|split; [exact Hs|]].
  - unfold GLRenderer.createShaderProgram.
    destruct (compileShader GL_VERTEX_SHADER vertexShaderSource st) as [v st1].
    cbn [fst snd].
    destruct (Z.eqb_spec v 0) as [->|Hv]; [cbn; tauto|].
    destruct (compileShader GL_FRAGMENT_SHADER fragmentShaderSource st1) as [f st2].
    cbn [fst snd].
    destruct (Z.eqb_spec f 0) as [->|Hf]; [cbn; tauto|].
    pose proof (linkProgram_resources v f st2) as (Hiff & _). cbv zeta in Hiff.
    destruct (linkProgram v f st2) as [id st3]. cbn [fst snd] in *.
    destruct (Z.eqb_spec id 0) as [->|Hid]; cbn [fst snd programId]; tauto.
  - split.
    + intros H0. split; [|by apply Hp0].
      revert H0. unfold GLRenderer.createShaderProgram.
      destruct (compileShader GL_VERTEX_SHADER vertexShaderSource st) as [v st1].
      destruct (Z.eqb_spec v 0) as [->|Hv]; [done|].
      destruct (compileShader GL_FRAGMENT_SHADER fragmentShaderSource st1) as [f st2].
      destruct (Z.eqb_spec f 0) as [->|Hf]; [done|].
      destruct (linkProgram v f st2) as [id st3].
      destruct (Z.eqb_spec id 0) as [->|Hid]; cbn [fst snd programId]; [done|].
      intros ->. done.
    + intros H1. destruct (Hp1 H1) as (Hnew & Hprog).
      split; [|split; [exact Hnew|split; [exact Hprog|]]];
        revert H1; unfold GLRenderer.createShaderProgram;
        destruct (compileShader GL_VERTEX_SHADER vertexShaderSource st) as [v st1];
        cbn [fst snd];
        (destruct (Z.eqb_spec v 0) as [->|Hv]; [done|]);
        destruct (compileShader GL_FRAGMENT_SHADER fragmentShaderSource st1) as [f st2];
        cbn [fst snd];
        (destruct (Z.eqb_spec f 0) as [->|Hf]; [done|]);
        pose proof (linkProgram_resources v f st2) as (_ & Hlr); cbv zeta in Hlr;
        destruct (linkProgram v f st2) as [id st3]; cbn [fst snd] in *;
        (destruct (Z.eqb_spec id 0) as [->|Hid]; cbn [fst snd programId]; [done|]);
        intros _.
      * by destruct (Hlr Hid).
      * unfold checkGLError. case_match; cbn [write_log emit log]; set_solver.
Qed.

(** X10. [updateTexture] with a zero texture handle or a null pixel
    pointer issues no GL call and only logs "Invalid texture or pixel
    data"; otherwise it binds the texture, uploads the pixels over the
    extents and in the format recorded in the [TextureInfo], from offset
    (0, 0), and reads the error flag.  In neither case is an object created
    or deleted. *)
Theorem updateTexture_guards_arguments
    (textureInfo : TextureInfo) (pixelData : option (list Z)) (dev : Device) :
  (textureId textureInfo = 0 \/ pixelData = None ->
   events (updateTexture textureInfo pixelData dev) = events dev /\
   calls (context (updateTexture textureInfo pixelData dev)) = calls (context dev) /\
   log (context (updateTexture textureInfo pixelData dev))
   = log (context dev) ++ [LOGE "Invalid texture or pixel data" []]) /\
  (forall pixels,
     textureId textureInfo <> 0 -> pixelData = Some pixels ->
     events (updateTexture textureInfo pixelData dev)
     = events dev ++
       [Core (glBindTexture GL_TEXTURE_2D (textureId textureInfo));
        Setup (glTexSubImage2D GL_TEXTURE_2D 0 0 0
                 (width textureInfo) (height textureInfo) (format textureInfo)
                 GL_UNSIGNED_BYTE pixels);
        Core glGetError]) /\
  live (updateTexture textureInfo pixelData dev) = live dev.
Proof.
  split; [|split].
  - intros H. unfold updateTexture.
    assert (match pixelData with
            | Some _ => textureId textureInfo =? 0
            | None => true
            end = true) as Hguard.
    { destruct H as [-> | ->]; [by destruct pixelData | done]. }
    destruct pixelData as [pixels|].
    + rewrite Hguard. by rewrite events_lift_write_log.
    + by rewrite events_lift_write_log.
  - intros pixels Ht ->. unfold updateTexture.
    assert ((textureId textureInfo =? 0) = false) as -> by lia.
    rewrite events_lift_checkGLError. unfold issue. cbn [events].
    rewrite events_lift_emit. by rewrite <- !app_assoc.
  - apply updateTexture_resources.
Qed.

(** X11. Whatever existed before, [initializeGL] followed by
    [createShaderProgram] and [createTexture] and then [cleanupGL] on the
    program and the texture they returned leaves exactly the shaders,
    programs, textures and buffers that existed at the start. *)
Theorem cleanupGL_releases_what_was_created
    (width height texWidth texHeight : Z)
    (vertexShaderSource fragmentShaderSource : string) (dev : Device) :
  let dev1 := snd (initializeGL width height dev) in
  let program :=
    GLResources.createShaderProgram vertexShaderSource fragmentShaderSource dev1 in
  let texture := createTexture texWidth texHeight (snd program) in
  live (cleanupGL (fst program) (fst texture) (snd texture)) = live dev.
Proof.
  cbv zeta.
  pose proof (initializeGL_resources width height dev) as Hinit. cbv zeta in Hinit.
  destruct Hinit as (_ & Hs1 & Hp1 & Ht1 & Ha0 & Hb0 & Hc0 & Ha & Hb & Hc & Hab & Hac
                       & Hbc & Hbuf).
  set (dev1 := snd (initializeGL width height dev)) in *. clearbody dev1.
  unfold GLResources.createShaderProgram, lift_with.
  pose proof (createShaderProgram_resources vertexShaderSource fragmentShaderSource
                (context dev1)) as Hprog. cbv zeta in Hprog.
  destruct Hprog as (Hs2 & Hn2 & Hp20 & Hp21).
  destruct (GLRenderer.createShaderProgram vertexShaderSource fragmentShaderSource
              (context dev1)) as [program ctx2].
  cbn [fst snd] in *.
  set (dev2 := mkDevice ctx2 _ _ _).
  pose proof (createTexture_resources texWidth texHeight dev2) as Htex.
  cbv zeta in Htex.
  destruct Htex as (_ & Ht0 & Htnew & Htex & Hs3 & Hp3 & Hb3 & Hn3).
  destruct (createTexture texWidth texHeight dev2) as [texture dev3].
  cbn [fst snd] in *.
  pose proof (cleanupGL_resources program texture dev3) as Hclean.
  cbv zeta in Hclean. destruct Hclean as (Hs4 & Hp4 & Ht4 & Hb4 & _).
  unfold live. rewrite Hs4, Hp4, Ht4, Hb4.
  assert (VAO (context dev3) = VAO (context dev1) /\
          VBO (context dev3) = VBO (context dev1) /\
          EBO (context dev3) = EBO (context dev1)) as (-> & -> & ->).
  { subst dev2. cbn [context] in Hn3. rewrite Hn2 in Hn3.
    unfold buffer_names in Hn3. clear - Hn3. by simplify_eq. }
  assert ((VAO (context dev1) =? 0) = false) as -> by lia.
  assert ((VBO (context dev1) =? 0) = false) as -> by lia.
  assert ((EBO (context dev1) =? 0) = false) as -> by lia.
  assert ((textureId texture =? 0) = false) as -> by lia.
  rewrite Hs3, Hp3, Htex, Hb3. subst dev2. cbn [context textures buffers].
  rewrite Hs2, Hs1, Hbuf, Ht1.
  f_equal; [f_equal; [f_equal|]|].
  - destruct (Z.eqb_spec (programId program) 0) as [H0|H0].
    + by rewrite Hp20, Hp1.
    + destruct (Hp21 H0) as (Hnew & ->). rewrite Hp1 in *. by apply delete_created.
  - apply delete_created. cbn [textures] in Htnew. by rewrite Ht1 in Htnew.
  - clear - Ha Hb Hc. set_solver.
Qed.

(** X12. [initializeGL] overwrites the three buffer names without
    releasing the buffers they named: after a second [initializeGL] the
    three buffers of the first are still live, and [cleanupGL] deletes only
    those of the second.  After a single [initializeGL], [cleanupGL] leaves
    the buffers that existed before. *)
Theorem initializeGL_twice_leaks_buffers
    (width height width' height' : Z) (shaderProgram : ShaderProgram)
    (textureInfo : TextureInfo) (dev : Device) :
  let dev1 := snd (initializeGL width height dev) in
  let dev2 := snd (initializeGL width' height' dev1) in
  buffers (cleanupGL shaderProgram textureInfo dev1) = buffers dev /\
  buffers (cleanupGL shaderProgram textureInfo dev2)
  = {[VAO (context dev1); VBO (context dev1); EBO (context dev1)]} ∪ buffers dev /\
  size (buffers (cleanupGL shaderProgram textureInfo dev2)) = (size (buffers dev) + 3)%nat.
Proof.
  cbv zeta.
  pose proof (initializeGL_resources width height dev) as Hinit. cbv zeta in Hinit.
  destruct Hinit as (_ & _ & _ & _ & Ha0 & Hb0 & Hc0 & Ha & Hb & Hc & Hab & Hac
                       & Hbc & Hbuf).
  set (dev1 := snd (initializeGL width height dev)) in *. clearbody dev1.
  pose proof (initializeGL_resources width' height' dev1) as Hinit. cbv zeta in Hinit.
  destruct Hinit as (_ & _ & _ & _ & Ha0' & Hb0' & Hc0' & Ha' & Hb' & Hc' & Hab' & Hac'
                       & Hbc' & Hbuf').
  set (dev2 := snd (initializeGL width' height' dev1)) in *. clearbody dev2.
  pose proof (cleanupGL_resources shaderProgram textureInfo dev1) as (_ & _ & _ & -> & _).
  pose proof (cleanupGL_resources shaderProgram textureInfo dev2) as (_ & _ & _ & -> & _).
  assert ((VAO (context dev1) =? 0) = false) as -> by lia.
  assert ((VBO (context dev1) =? 0) = false) as -> by lia.
  assert ((EBO (context dev1) =? 0) = false) as -> by lia.
  assert ((VAO (context dev2) =? 0) = false) as -> by lia.
  assert ((VBO (context dev2) =? 0) = false) as -> by lia.
  assert ((EBO (context dev2) =? 0) = false) as -> by lia.
  rewrite Hbuf', Hbuf.
  rewrite Hbuf in Ha', Hb', Hc'.
  assert ((({[VAO (context dev2); VBO (context dev2); EBO (context dev2)]}
             ∪ ({[VAO (context dev1); VBO (context dev1); EBO (context dev1)]}
                  ∪ buffers dev)) ∖ {[VAO (context dev2)]} ∖ {[VBO (context dev2)]}
             ∖ {[EBO (context dev2)]})
          = {[VAO (context dev1); VBO (context dev1); EBO (context dev1)]} ∪ buffers dev)
    as -> by (clear - Ha' Hb' Hc'; set_solver).
  split; [clear - Ha Hb Hc; set_solver|]. split; [done|].
  rewrite size_union by (clear - Ha Hb Hc; set_solver).
  rewrite !size_union by (clear - Hab Hac Hbc; set_solver).
  rewrite !size_singleton. lia.
Qed.

(** X13. [cleanupGL] deletes the three buffers but keeps their names in
    the file-scope variables: after [initializeGL] and [cleanupGL] the
    names are still non-zero and name no live buffer, a draw still binds
    them, and a second [cleanupGL] with the same arguments changes no set
    of live objects. *)
Theorem cleanupGL_keeps_buffer_names
    (width height : Z) (shaderProgram : ShaderProgram) (textureInfo : TextureInfo)
    (dev : Device) :
  let dev1 := snd (initializeGL width height dev) in
  let dev2 := cleanupGL shaderProgram textureInfo dev1 in
  buffer_names (context dev2) = buffer_names (context dev1) /\
  VAO (context dev2) <> 0 /\ VBO (context dev2) <> 0 /\ EBO (context dev2) <> 0 /\
  (VAO (context dev2) ∉ buffers dev2) /\ (VBO (context dev2) ∉ buffers dev2) /\
  (EBO (context dev2) ∉ buffers dev2) /\
  (forall shaderProgram' textureInfo',
     programId shaderProgram' <> 0 -> textureId textureInfo' <> 0 ->
     (Core (glBindBuffer GL_ARRAY_BUFFER (VBO (context dev1)))
        ∈ events (renderTexture shaderProgram' textureInfo' dev2)) /\
     (Core (glBindBuffer GL_ELEMENT_ARRAY_BUFFER (EBO (context dev1)))
        ∈ events (renderTexture shaderProgram' textureInfo' dev2))) /\
  live (cleanupGL shaderProgram textureInfo dev2) = live dev2.
Proof.
  cbv zeta.
  pose proof (initializeGL_resources width height dev) as Hinit. cbv zeta in Hinit.
  destruct Hinit as (_ & _ & _ & _ & Ha0 & Hb0 & Hc0 & _).
  set (dev1 := snd (initializeGL width height dev)) in *. clearbody dev1.
  pose proof (cleanupGL_resources shaderProgram textureInfo dev1)
    as (Hs & Hp & Ht & Hb & Hn).
  set (dev2 := cleanupGL shaderProgram textureInfo dev1) in *. clearbody dev2.
  assert (VAO (context dev2) = VAO (context dev1) /\
          VBO (context dev2) = VBO (context dev1) /\
          EBO (context dev2) = EBO (context dev1)) as (Ea & Eb & Ec).
  { unfold buffer_names in Hn. by simplify_eq. }
  assert ((VAO (context dev1) =? 0) = false) as Za by lia.
  assert ((VBO (context dev1) =? 0) = false) as Zb by lia.
  assert ((EBO (context dev1) =? 0) = false) as Zc by lia.
  rewrite Za, Zb, Zc in Hb.
  split; [exact Hn|]. rewrite Ea, Eb, Ec.
  repeat (split; [first [done | rewrite Hb; clear; set_solver]|]).
  split.
  - intros shaderProgram' textureInfo' Hp' Ht'.
    unfold renderTexture, lift. cbn [events].
    rewrite (new_calls_app _ _ _ (renderTexture_calls _ _ _ Hp' Ht')).
    rewrite Eb, Ec. clear.
    split; apply elem_of_app; right; cbn [fmap list_fmap]; set_solver.
  - pose proof (cleanupGL_resources shaderProgram textureInfo dev2)
      as (Hs' & Hp'' & Ht'' & Hb' & _).
    unfold live. rewrite Hs', Hp'', Ht'', Hb'. rewrite Ea, Eb, Ec, Za, Zb, Zc.
    f_equal; [f_equal; [f_equal|]|].
    + rewrite Hp. clear. destruct (_ =? _); [done|set_solver].
    + rewrite Ht. clear. destruct (_ =? _); [done|set_solver].
    + rewrite Hb. clear. set_solver.
Qed.

(** *** The quad *)

Lemma do_glGenBuffers_events dev :
  events (snd (do_glGenBuffers dev)) = events dev ++ [Setup (glGenBuffers 1)].
Proof. done. Qed.

(** Rewriting of the trace through the steps of a function. *)
Ltac trace_steps :=
  repeat first
    [ rewrite events_lift_write_log
    | rewrite events_lift_checkGLError
    | rewrite events_lift_emit
    | progress cbn [issue events set_VAO set_VBO set_EBO] ].

(** The GL calls of [initializeGL], in order. *)
Lemma initializeGL_events width height dev :
  let dev1 := snd (initializeGL width height dev) in
  events dev1 =
    events dev ++
    [Setup (glViewport 0 0 width height); Core glGetError;
     Setup (glEnable GL_BLEND);
     Setup (glBlendFunc GL_SRC_ALPHA GL_ONE_MINUS_SRC_ALPHA); Core glGetError;
     Setup (glGenBuffers 1); Setup (glGenBuffers 1); Setup (glGenBuffers 1);
     Core (glBindBuffer GL_ARRAY_BUFFER (VBO (context dev1)));
     Setup (glBufferData GL_ARRAY_BUFFER 64 quadVertices GL_STATIC_DRAW);
     Core (glBindBuffer GL_ELEMENT_ARRAY_BUFFER (EBO (context dev1)));
     Setup (glBufferData GL_ELEMENT_ARRAY_BUFFER 24 quadIndices GL_STATIC_DRAW);
     Core glGetError;
     Setup (glClearColor 0 0 0 1)].
Proof.
  cbv zeta. unfold initializeGL. cbv zeta.
  set (d1 := lift (checkGLError "glBlendFunc") _).
  assert (events d1 = events dev ++
            [Setup (glViewport 0 0 width height); Core glGetError;
             Setup (glEnable GL_BLEND);
             Setup (glBlendFunc GL_SRC_ALPHA GL_ONE_MINUS_SRC_ALPHA); Core glGetError])
    as He1.
  { subst d1. trace_steps. by rewrite <- !app_assoc. }
  clearbody d1.
  pose proof (do_glGenBuffers_events d1) as Hea.
  destruct (do_glGenBuffers d1) as [vao d2]. cbn [fst snd] in *.
  pose proof (do_glGenBuffers_events (set_VAO vao d2)) as Heb.
  destruct (do_glGenBuffers (set_VAO vao d2)) as [vbo d3]. cbn [fst snd] in *.
  pose proof (do_glGenBuffers_events (set_VBO vbo d3)) as Hec.
  pose proof (do_glGenBuffers_spec (set_VBO vbo d3)) as (_ & _ & _ & Hcc & _).
  destruct (do_glGenBuffers (set_VBO vbo d3)) as [ebo d4]. cbn [fst snd] in *.
  cbn [set_VAO set_VBO events context] in Hea, Heb, Hec, Hcc.
  trace_steps. through_checkGLError. cbn [set_EBO context VBO EBO].
  rewrite Hec, Heb, Hea, He1, Hcc. cbn [VBO].
  by rewrite <- !app_assoc.
Qed.

(** X19. The draw of [renderTexture] reads what [initializeGL]
    uploaded: [initializeGL] fills the buffer named [VBO] with the 64
    bytes of the quad's vertices and the buffer named [EBO] with the 24
    bytes of its indices, both live afterwards; a draw binds these two
    buffers and draws as many indices as were uploaded, each addressing
    a vertex inside the uploaded data for the stride of 16 bytes.  The
    buffer named [VAO] is generated but neither function ever binds
    it. *)
Theorem draw_reads_the_uploaded_quad
    (width height : Z) (shaderProgram : ShaderProgram) (textureInfo : TextureInfo)
    (dev : Device) :
  programId shaderProgram <> 0 -> textureId textureInfo <> 0 ->
  let dev1 := snd (initializeGL width height dev) in
  let c1 := context dev1 in
  (exists pre post,
     events dev1
     = events dev ++ pre ++
       [Core (glBindBuffer GL_ARRAY_BUFFER (VBO c1));
        Setup (glBufferData GL_ARRAY_BUFFER (sizeof_array sizeof_float quadVertices)
                 quadVertices GL_STATIC_DRAW);
        Core (glBindBuffer GL_ELEMENT_ARRAY_BUFFER (EBO c1));
        Setup (glBufferData GL_ELEMENT_ARRAY_BUFFER
                 (sizeof_array sizeof_unsigned_int quadIndices)
                 quadIndices GL_STATIC_DRAW)] ++ post /\
     forall target, Core (glBindBuffer target (VAO c1)) ∉ pre ++ post) /\
  (VBO c1 ∈ buffers dev1) /\ (EBO c1 ∈ buffers dev1) /\
  (exists drawn,
     events (renderTexture shaderProgram textureInfo dev1)
     = events dev1 ++ (Core <$> drawn) /\
     (glBindBuffer GL_ARRAY_BUFFER (VBO c1) ∈ drawn) /\
     (glBindBuffer GL_ELEMENT_ARRAY_BUFFER (EBO c1) ∈ drawn) /\
     (glDrawElements GL_TRIANGLES (Z.of_nat (length quadIndices)) GL_UNSIGNED_INT 0
        ∈ drawn) /\
     forall target, glBindBuffer target (VAO c1) ∉ drawn) /\
  Forall (fun i => 0 <= i /\
                   (i + 1) * (4 * sizeof_float) <= sizeof_array sizeof_float quadVertices)
    quadIndices.
Proof.
  intros Hp Ht. cbv zeta.
  pose proof (initializeGL_events width height dev) as Hev. cbv zeta in Hev.
  pose proof (initializeGL_resources width height dev) as Hres. cbv zeta in Hres.
  destruct Hres as (_ & _ & _ & _ & _ & _ & _ & _ & _ & _ & Hab & Hac & _ & Hbuf).
  set (dev1 := snd (initializeGL width height dev)) in *. clearbody dev1.
  split; [|split; [|split; [|split]]].
  - eexists [_; _; _; _; _; _; _; _], [_; _]. split; [exact Hev|].
    intros target Hin. clear - Hab Hac Hin. cbn [app] in Hin.
    repeat (apply elem_of_cons in Hin as [Hin|Hin];
            [first [discriminate Hin | injection Hin; congruence]|]).
    by apply elem_of_nil in Hin.
  - rewrite Hbuf. clear. set_solver.
  - rewrite Hbuf. clear. set_solver.
  - eexists. split.
    + unfold renderTexture, lift. cbn [events].
      by rewrite (new_calls_app _ _ _ (renderTexture_calls _ _ _ Hp Ht)).
    + clear - Hab Hac. split; [set_solver|]. split; [set_solver|].
      split; [set_solver|]. intros target Hin.
      repeat (apply elem_of_cons in Hin as [Hin|Hin];
              [first [discriminate Hin | injection Hin; congruence]|]).
      by apply elem_of_nil in Hin.
  - unfold quadIndices, quadVertices, sizeof_array, sizeof_float. cbn [length].
    repeat constructor; lia.
Qed.

End Resources.

(** ** The renderer behind the JNI entry points *)

(** An index below 2^31 comes from the location with the same value. *)
Lemma GLuint_of_int_small (i j : Z) :
  0 <= j < 2 ^ 31 -> j = GLRenderer.GLuint_of_int i -> j = i.
Proof.
  unfold GLRenderer.GLuint_of_int, INT_MIN. change (2 ^ 31) with 2147483648.
  change (2 ^ 32) with 4294967296.
  destruct (Z.leb_spec (-2147483648) i), (Z.ltb_spec i 0); cbn [andb]; lia.
Qed.

Lemma to_unsigned_to_jint (u : Z) :
  0 <= u < 2 ^ 32 -> JNIRenderer.to_unsigned (JNIRenderer.to_jint u) = u.
Proof.
  intros Hu. unfold JNIRenderer.to_unsigned, JNIRenderer.to_jint, wrap32.
  change (2 ^ 32) with 4294967296 in *. change (2 ^ 31) with 2147483648.
  Z.div_mod_to_equations. lia.
Qed.

Section Bridge.
Import GLRenderer GLResources JNIRenderer.
Context `{K : Kernels} `{D : Driver}.

(** Log lines change nothing but the log. *)
Lemma write_lines_resources (lines : list LogLine) : forall dev,
  live (write_lines lines dev) = live dev /\
  buffer_names (context (write_lines lines dev)) = buffer_names (context dev) /\
  events (write_lines lines dev) = events dev /\
  calls (context (write_lines lines dev)) = calls (context dev) /\
  log (context (write_lines lines dev)) = log (context dev) ++ lines.
Proof.
  unfold write_lines.
  induction lines as [|l lines IH]; intros dev; cbn [foldl].
  - by rewrite app_nil_r.
  - destruct (IH (lift (write_log l) dev)) as (-> & -> & -> & -> & ->).
    rewrite events_lift_write_log. cbn [lift context write_log log calls].
    by rewrite <- app_assoc.
Qed.

(** What one entry does to the objects of the device. *)
Lemma enter_resources (e : Entry) (n : Native) :
  shaders (context (device (enter e n))) = shaders (context (device n)) /\
  programs (context (device n)) ⊆ programs (context (device (enter e n))) /\
  textures (device n) ⊆ textures (device (enter e n)) /\
  buffers (device n) ⊆ buffers (device (enter e n)).
Proof.
  assert (forall lines dev,
            shaders (context (write_lines lines dev)) = shaders (context dev) /\
            programs (context dev) ⊆ programs (context (write_lines lines dev)) /\
            textures dev ⊆ textures (write_lines lines dev) /\
            buffers dev ⊆ buffers (write_lines lines dev)) as Hlines.
  { intros lines dev. destruct (write_lines_resources lines dev) as (Hl & _).
    pose proof (f_equal (fun l => fst (fst (fst l))) Hl) as Hs.
    pose proof (f_equal (fun l => snd (fst (fst l))) Hl) as Hp.
    pose proof (f_equal (fun l => snd (fst l)) Hl) as Ht.
    pose proof (f_equal snd Hl) as Hb.
    cbn [live fst snd] in Hs, Hp, Ht, Hb. rewrite Hs, Hp, Ht, Hb. done. }
  destruct e as [now|what frameStart f|w h| |w h|ok tid px w h|pid tid uninit| ];
    cbn [enter device]; try apply Hlines.
  - unfold initGL.
    pose proof (initializeGL_resources w h
                  (lift (write_log (LOGI "Initializing OpenGL ES renderer (%dx%d)"
                                      [ArgZ w; ArgZ h])) (device n))) as H.
    cbv zeta in H. destruct H as (_ & Hs & Hp & Ht & _ & _ & _ & _ & _ & _ & _ & _ & _ & Hb).
    destruct (initializeGL w h _) as [success dev1]. cbn [fst snd] in *.
    rewrite Hs, Hp, Ht, Hb. cbn [lift context textures buffers write_log shaders programs].
    clear. repeat split; set_solver.
  - unfold JNIRenderer.createShaderProgram, GLResources.createShaderProgram, lift_with.
    pose proof (createShaderProgram_resources vertexShaderSource fragmentShaderSource
                  (context (device n))) as H.
    cbv zeta in H. destruct H as (Hs & _ & Hp0 & Hp1).
    destruct (GLRenderer.createShaderProgram vertexShaderSource fragmentShaderSource
                (context (device n))) as [program ctx].
    cbn [fst snd context textures buffers] in *.
    split; [exact Hs|]. split; [|done].
    destruct (Z.eq_dec (programId program) 0) as [H0|H0].
    + by rewrite Hp0.
    + destruct (Hp1 H0) as (_ & ->). clear. set_solver.
  - unfold JNIRenderer.createTexture.
    pose proof (createTexture_resources w h (device n)) as H.
    cbv zeta in H. destruct H as (_ & _ & _ & Ht & Hs & Hp & Hb & _).
    destruct (GLResources.createTexture w h (device n)) as [textureInfo dev1].
    cbn [fst snd] in *. rewrite Hs, Hp, Ht, Hb. clear. repeat split; set_solver.
  - unfold JNIRenderer.updateTexture.
    destruct px as [pixels|]; [destruct ok; cbn [negb]|]; try done.
    match goal with
    | |- context [GLResources.updateTexture ?t ?px ?d] =>
        destruct (updateTexture_resources t px d) as (Hl & _)
    end.
    pose proof (f_equal (fun l => fst (fst (fst l))) Hl) as Hs.
    pose proof (f_equal (fun l => snd (fst (fst l))) Hl) as Hp.
    pose proof (f_equal (fun l => snd (fst l)) Hl) as Ht.
    pose proof (f_equal snd Hl) as Hb.
    cbn [live fst snd] in Hs, Hp, Ht, Hb. rewrite Hs, Hp, Ht, Hb. done.
  - unfold renderFrame, GLResources.renderTexture, lift. cbn [context textures buffers].
    match goal with
    | |- context [GLRenderer.renderTexture ?p ?t ?c] =>
        destruct (renderTexture_resources p t c) as (-> & -> & _)
    end.
    done.
Qed.

(** X14. No entry point of the bridge releases an object of the
    renderer: over any sequence of calls from Java (including [cleanup],
    which only resets the counters) every program, texture and buffer that
    was live stays live, and the shader objects are the same at the end.
    [cleanup] itself issues no GL call at all: it writes its two log
    lines and leaves every object and the three buffer names. *)
Theorem session_never_releases (entries : list Entry) :
  forall n,
    shaders (context (device (session entries n))) = shaders (context (device n)) /\
    programs (context (device n)) ⊆ programs (context (device (session entries n))) /\
    textures (device n) ⊆ textures (device (session entries n)) /\
    buffers (device n) ⊆ buffers (device (session entries n)) /\
    live (device (enter Cleanup n)) = live (device n) /\
    buffer_names (context (device (enter Cleanup n)))
    = buffer_names (context (device n)) /\
    events (device (enter Cleanup n)) = events (device n) /\
    log (context (device (enter Cleanup n)))
    = log (context (device n)) ++
      [LOGI "Cleaning up native resources" []; LOGI "Native cleanup completed" []].
Proof.
  assert (forall n : Native,
            live (device (enter Cleanup n)) = live (device n) /\
            buffer_names (context (device (enter Cleanup n)))
            = buffer_names (context (device n)) /\
            events (device (enter Cleanup n)) = events (device n) /\
            log (context (device (enter Cleanup n)))
            = log (context (device n)) ++
              [LOGI "Cleaning up native resources" [];
               LOGI "Native cleanup completed" []]) as Hcleanup.
  { intros n. cbn [enter device].
    by destruct (write_lines_resources
                   [LOGI "Cleaning up native resources" [];
                    LOGI "Native cleanup completed" []] (device n))
      as (? & ? & ? & _ & ?). }
  induction entries as [|e entries IH]; intros n; cbn [session].
  - split; [done|]. split; [done|]. split; [done|]. split; [done|]. apply Hcleanup.
  - destruct (IH (enter e n)) as (Hs & Hp & Ht & Hb & _).
    destruct (enter_resources e n) as (Hs' & Hp' & Ht' & Hb').
    rewrite Hs, Hs'.
    split; [done|]. split; [by etrans|]. split; [by etrans|]. split; [by etrans|].
    apply Hcleanup.
Qed.

(** X15. [renderFrame] draws with attribute locations 0 and 1 and
    sampler location 0, not with the locations of the program: for
    handles that fit 32 bits and are not 0, passing the handles through
    [jint] and back gives the same handles, the fields of the local
    [TextureInfo] that are left unassigned have no effect, and the call
    does what [renderTexture] does with the program exactly when the
    program's locations are 0, 1 and 0. *)
Theorem renderFrame_uses_fixed_locations
    (shaderProgram : ShaderProgram) (textureInfo uninit : TextureInfo) (dev : Device) :
  0 <= programId shaderProgram < 2 ^ 32 -> programId shaderProgram <> 0 ->
  0 <= textureId textureInfo < 2 ^ 32 -> textureId textureInfo <> 0 ->
  (forall uninit',
     renderFrame (to_jint (programId shaderProgram)) (to_jint (textureId textureInfo))
       uninit' dev
     = renderFrame (to_jint (programId shaderProgram)) (to_jint (textureId textureInfo))
         uninit dev) /\
  (renderFrame (to_jint (programId shaderProgram)) (to_jint (textureId textureInfo))
     uninit dev
   = GLResources.renderTexture shaderProgram textureInfo dev
   <-> positionAttrib shaderProgram = 0 /\ texCoordAttrib shaderProgram = 1 /\
       textureUniform shaderProgram = 0).
Proof.
  intros Hp Hp0 Ht Ht0. unfold renderFrame.
  rewrite !to_unsigned_to_jint by done.
  assert (forall p t t', programId p <> 0 -> textureId t = textureId t' ->
            GLRenderer.renderTexture p t (context dev)
            = GLRenderer.renderTexture p t' (context dev)) as Hfields.
  { intros p t t' _ Hid. unfold GLRenderer.renderTexture. by rewrite Hid. }
  split.
  - intros uninit'. unfold GLResources.renderTexture, lift.
    by rewrite (Hfields _ _ (mkTextureInfo (textureId textureInfo) (width uninit)
                               (height uninit) (format uninit))).
  - split.
    + intros Heq. apply (f_equal events) in Heq.
      unfold GLResources.renderTexture, lift in Heq. cbn [events] in Heq.
      rewrite (new_calls_app _ _ _ (renderTexture_calls _ _ _ Hp0 Ht0)) in Heq.
      rewrite (new_calls_app _ _ _
                 (renderTexture_calls (mkShaderProgram (programId shaderProgram) 0 1 0 (-1))
                    (mkTextureInfo (textureId textureInfo) (width uninit) (height uninit)
                       (format uninit)) _ Hp0 Ht0)) in Heq.
      apply app_inv_head in Heq.
      cbn [fmap list_fmap positionAttrib texCoordAttrib textureUniform] in Heq.
      change (GLuint_of_int 0) with 0 in Heq. change (GLuint_of_int 1) with 1 in Heq.
      injection Heq. intros.
      repeat match goal with
             | H : _ = GLuint_of_int _ |- _ =>
                 apply GLuint_of_int_small in H; [|done]
             end.
      done.
    + intros (Hpos & Htex & Huni). unfold GLResources.renderTexture, lift.
      assert (GLRenderer.renderTexture
                (mkShaderProgram (programId shaderProgram) 0 1 0 (-1))
                (mkTextureInfo (textureId textureInfo) (width uninit) (height uninit)
                   (format uninit)) (context dev)
              = GLRenderer.renderTexture shaderProgram textureInfo (context dev)) as ->;
        [|done].
      unfold GLRenderer.renderTexture. cbn [programId textureId positionAttrib
                                           texCoordAttrib textureUniform].
      by rewrite Hpos, Htex, Huni.
Qed.

End Bridge.

(** ** From the frame to the texture *)

Section Pipeline.
Import GLRenderer GLResources.
Context `{K : Kernels} `{D : Driver}.

(** X16. The array returned by [processFrame] for a frame of
    [width] x [height] pixels is what [updateTexture] uploads into a
    texture created by [createTexture] for the same extents: the upload
    goes to the texture that was created (its handle passed through
    [jint]), starts at (0, 0), has the extents and the format of the
    allocation, and the array holds exactly [width*height*4] bytes, four
    for each texel. *)
Theorem frame_fills_texture
    (env : JNI.JNIEnv) (inputBytes : list Z) (width height frameEnd : Z)
    (st : JNI.Stats) (dev : Device) :
  0 < width -> 0 < height -> width * height * 4 <= INT_MAX ->
  Z.of_nat (length inputBytes) = width * height * 4 ->
  JNI.input_elements_ok env = true -> JNI.NewByteArray_ok env = true ->
  JNI.output_elements_ok env = true ->
  0 <= textureId (fst (createTexture width height dev)) < 2 ^ 32 ->
  let created := createTexture width height dev in
  let handle := fst (JNIRenderer.createTexture width height dev) in
  exists outputArray,
    fst (JNI.processFrame env (Some inputBytes) width height frameEnd st)
    = Some outputArray /\
    Z.of_nat (length outputArray) = width * height * 4 /\
    snd (JNIRenderer.createTexture width height dev) = snd created /\
    (Setup (glTexImage2D GL_TEXTURE_2D 0 GL_RGBA width height 0 GL_RGBA GL_UNSIGNED_BYTE)
       ∈ events (snd created)) /\
    events (JNIRenderer.updateTexture true handle (Some outputArray) width height
              (snd created))
    = events (snd created) ++
      [Core (glBindTexture GL_TEXTURE_2D (textureId (fst created)));
       Setup (glTexSubImage2D GL_TEXTURE_2D 0 0 0 width height GL_RGBA
                GL_UNSIGNED_BYTE outputArray);
       Core glGetError].
Proof.
  intros Hw Hh Hmax Hlen He1 He2 He3 Hid. cbv zeta.
  rewrite processFrame_checks_passed by done.
  destruct (processFrame_wellformed inputBytes width height Hw Hh Hmax Hlen)
    as (outputArray & edgeMat & -> & Hout & _).
  exists outputArray. split; [done|]. split; [lia|].
  unfold JNIRenderer.createTexture.
  pose proof (createTexture_resources width height dev) as Hres. cbv zeta in Hres.
  destruct Hres as (_ & Hnz & _).
  assert (Setup (glTexImage2D GL_TEXTURE_2D 0 GL_RGBA width height 0 GL_RGBA
                   GL_UNSIGNED_BYTE) ∈ events (snd (createTexture width height dev)))
    as Halloc.
  { unfold createTexture, do_glGenTextures. cbn [snd].
    rewrite events_lift_write_log, events_lift_checkGLError.
    unfold issue at 1. cbn [events]. set_solver. }
  destruct (createTexture width height dev) as [textureInfo dev1]. cbn [fst snd] in *.
  split; [done|]. split; [exact Halloc|].
  unfold JNIRenderer.updateTexture. cbn [negb].
  rewrite to_unsigned_to_jint by done.
  unfold updateTexture. cbn [textureId GLRenderer.width GLRenderer.height format].
  assert ((textureId textureInfo =? 0) = false) as -> by lia.
  rewrite events_lift_checkGLError. unfold issue. cbn [events].
  rewrite events_lift_emit. by rewrite <- !app_assoc.
Qed.

End Pipeline.

(** ** The frame-rate figure *)

Lemma Zdigits2_mono (a b : Z) : 0 < a <= b -> Zdigits2 a <= Zdigits2 b.
Proof.
  intros Hab.
  destruct (Zdigits2_bounds a ltac:(lia)) as (Ha & Hla & _).
  destruct (Zdigits2_bounds b ltac:(lia)) as (Hb & _ & Hub).
  assert (2 ^ (Zdigits2 a - 1) < 2 ^ Zdigits2 b) as Hlt by lia.
  apply Z.pow_lt_mono_r_iff in Hlt; lia.
Qed.

Lemma round_nearest_even_lower (m : Z) (l : location) : m <= round_nearest_even m l.
Proof.
  unfold round_nearest_even. destruct l as [|[]]; try lia.
  destruct (Z.even m); lia.
Qed.

(** Rounding does not lower the magnitude below the binade of the
    argument. *)
Lemma binary_round_aux_lower (s s' : bool) (m e : Z) (l : location) (m' : positive)
    (e' : Z) :
  0 < m -> -1074 <= e ->
  binary_round_aux 53 1024 s m e l = S754_finite s' m' e' ->
  Zdigits2 m + e <= Zdigits2 (Zpos m') + e'.
Proof.
  intros Hm He. unfold binary_round_aux.
  destruct (shr_fexp_spec m e l Hm He) as (H1 & H2 & H3).
  destruct (shr_fexp 53 1024 m e l) as [mrs1 e1]. cbn [fst snd] in *.
  destruct (round_nearest_even_spec (shr_m mrs1) (loc_of_shr_record mrs1) H1)
    as (H4 & _).
  pose proof (round_nearest_even_lower (shr_m mrs1) (loc_of_shr_record mrs1)) as H5.
  assert (-1074 <= e1) as He1 by lia.
  destruct (shr_fexp_spec (round_nearest_even (shr_m mrs1) (loc_of_shr_record mrs1))
              e1 loc_Exact H4 He1) as (H6 & H7 & H8).
  destruct (shr_fexp 53 1024 _ e1 loc_Exact) as [mrs2 e2]. cbn [fst snd] in *.
  pose proof (Zdigits2_mono (shr_m mrs1)
                (round_nearest_even (shr_m mrs1) (loc_of_shr_record mrs1))
                ltac:(lia)) as Hmono.
  destruct (shr_m mrs2) as [|m3|m3] eqn:Hm3; try lia.
  destruct (e2 <=? 1024 - 53); [|done].
  intros [= _ <- <-]. lia.
Qed.

(** Conversion of a non-zero 64-bit integer: a finite double with the
    sign of the integer and a magnitude of at least 1. *)
Lemma of_Z_sign_magnitude (d : Z) :
  d <> 0 -> Z.abs d < 2 ^ 63 ->
  exists m e, Double.of_Z d = S754_finite (d <? 0) m e /\
              1 <= Zdigits2 (Zpos m) + e <= 64.
Proof.
  intros Hd Hb.
  assert (forall s p, Zpos p < 2 ^ 63 ->
            exists m e, binary_round 53 1024 s p 0 = S754_finite s m e /\
                        1 <= Zdigits2 (Zpos m) + e <= 64) as Hround.
  { intros s p Hp. unfold binary_round, shl_align. rewrite fexp64.
    assert (Zdigits2 (Zpos p) <= 63) as Hdig by (apply Zdigits2_le; lia).
    assert (0 < Zdigits2 (Zpos p)) as Hdig0 by (cbn; lia).
    cbn [Zdigits2] in Hdig, Hdig0.
    destruct (Z.max (Zpos (digits2_pos p) + 0 - 53) (-1074) - 0) as [|n|n] eqn:Hn.
    - destruct (binary_round_aux_spec s (Zpos p) 0 loc_Exact ltac:(lia) ltac:(lia)) as
        [(m' & e' & Hr & Hm')|(_ & Hbig)]. 2:{ cbn [Zdigits2] in Hbig. clear - Hdig Hbig. lia. }
      pose proof Hr as Hlow. apply binary_round_aux_lower in Hlow; [|lia|lia].
      rewrite Hr. exists m', e'. split; [done|]. cbn [Zdigits2] in Hm', Hlow |- *. lia.
    - destruct (binary_round_aux_spec s (Zpos p) 0 loc_Exact ltac:(lia) ltac:(lia)) as
        [(m' & e' & Hr & Hm')|(_ & Hbig)]; [|cbn [Zdigits2] in Hbig; clear - Hdig Hbig; lia].
      pose proof Hr as Hlow. apply binary_round_aux_lower in Hlow; [|lia|lia].
      rewrite Hr. exists m', e'. split; [done|]. cbn [Zdigits2] in Hm', Hlow |- *. lia.
    - change (Z.neg n) with (- Zpos n) in Hn.
      assert (Zdigits2 (Zpos (Pos.iter xO p n)) = Zpos (digits2_pos p) + Zpos n) as Hsh.
      { destruct (digits2_pos_bounds p) as (Hlo & Hhi).
        apply Zdigits2_unique; [|lia]. rewrite iter_xO_pow.
        replace (Zpos (digits2_pos p) + Zpos n - 1)
          with (Zpos (digits2_pos p) - 1 + Zpos n) by lia.
        rewrite !Z.pow_add_r by lia.
        assert (0 < 2 ^ Zpos n) by (apply Z.pow_pos_nonneg; lia). nia. }
      destruct (binary_round_aux_spec s (Zpos (Pos.iter xO p n))
                  (Z.max (Zpos (digits2_pos p) + 0 - 53) (-1074)) loc_Exact
                  ltac:(lia) ltac:(lia)) as
        [(m' & e' & Hr & Hm')|(_ & Hbig)]; [|rewrite Hsh in Hbig; clear - Hdig Hbig Hn; lia].
      pose proof Hr as Hlow. apply binary_round_aux_lower in Hlow; [|lia|lia].
      rewrite Hr. exists m', e'. split; [done|].
      rewrite Hsh in Hm', Hlow. cbn [Zdigits2] in Hm', Hlow |- *. lia. }
  unfold Double.of_Z, Double.prec, Double.emax, binary_normalize.
  destruct d as [|p|p]; [done| |]; apply Hround; lia.
Qed.

(** 30000 divided by a finite double of magnitude between [2^-955] and
    [2^1036] is finite and has the sign of the divisor. *)
Lemma div_30000_is_finite (s : bool) (my : positive) (ey : Z) :
  -955 <= Zdigits2 (Zpos my) + ey <= 1036 ->
  exists m e, Double.div (Double.of_Z 30000) (S754_finite s my ey) = S754_finite s m e.
Proof.
  intros Hy. rewrite thirty_thousand. unfold Double.div, Double.prec, Double.emax.
  cbn [SFdiv]. unfold SFdiv_core_binary.
  change (Zdigits2 (Zpos 8246337208320000)) with 53.
  cbn [Zdigits2] in Hy |- *. rewrite fexp64.
  destruct (digits2_pos_bounds my) as (Hlo & Hhi).
  assert (Z.min (Z.max (53 + -38 - (Zpos (digits2_pos my) + ey) - 53) (-1074)) (-38 - ey)
          = -38 - ey - Zpos (digits2_pos my)) as -> by lia.
  replace (-38 - ey - (-38 - ey - Zpos (digits2_pos my)))
    with (Zpos (digits2_pos my)) by lia.
  cbv iota. rewrite Z.shiftl_mul_pow2 by lia.
  assert (0 < 2 ^ Zpos (digits2_pos my)) as Hpow by (apply Z.pow_pos_nonneg; lia).
  assert (0 < 8246337208320000 * 2 ^ Zpos (digits2_pos my) / Zpos my) as Hq.
  { apply Z.lt_le_trans with 1; [lia|]. apply Z.div_le_lower_bound; lia. }
  assert (8246337208320000 * 2 ^ Zpos (digits2_pos my) / Zpos my < 2 ^ 54) as Hq'.
  { apply Z.div_lt_upper_bound; [lia|].
    replace (Zpos (digits2_pos my)) with (1 + (Zpos (digits2_pos my) - 1)) by lia.
    rewrite Z.pow_add_r by lia. change (2 ^ 1) with 2. change (2 ^ 54) with 18014398509481984.
    assert (0 < 2 ^ (Zpos (digits2_pos my) - 1)) by (apply Z.pow_pos_nonneg; lia).
    nia. }
  unfold Z.div in Hq, Hq'.
  destruct (Z.div_eucl (8246337208320000 * 2 ^ Zpos (digits2_pos my)) (Zpos my))
    as [q r].
  pose proof (Zdigits2_le q 54 Hq Hq') as Hdq.
  destruct (binary_round_aux_spec (xorb false s) q
              (-38 - ey - Zpos (digits2_pos my)) (new_location (Zpos my) r) Hq
              ltac:(lia)) as [(m' & e' & -> & _)|(_ & Hbig)]; [|lia].
  by exists m', e'.
Qed.

Section Samples.
Context `{K : Kernels}.

(** X17. The figure stored at a sample, [30000.0 / totalDuration]:
    when less than one millisecond lies between the two clock readings the
    truncated duration is 0 and the figure is +infinity; otherwise (for
    readings less than 2^63 ticks apart) it is a finite non-zero number,
    negative exactly when the clock went backwards. *)
Theorem fps_sample_infinite_or_finite (frameEnd lastFrameTime : Z) :
  Z.abs (frameEnd - lastFrameTime) < 2 ^ 63 ->
  (Z.abs (frameEnd - lastFrameTime) < JNI.ticks_per_ms ->
   JNI.duration_ms frameEnd lastFrameTime = 0 /\
   JNI.fps_of (JNI.duration_ms frameEnd lastFrameTime) = S754_infinity false) /\
  (JNI.ticks_per_ms <= Z.abs (frameEnd - lastFrameTime) ->
   exists m e,
     JNI.fps_of (JNI.duration_ms frameEnd lastFrameTime)
     = S754_finite (frameEnd <? lastFrameTime) m e).
Proof.
  intros Hb. unfold JNI.ticks_per_ms. split.
  - intros Hsmall.
    assert (JNI.duration_ms frameEnd lastFrameTime = 0) as ->.
    { unfold JNI.duration_ms, JNI.ticks_per_ms. apply Z.quot_small_iff; lia. }
    split; [done|]. vm_compute. reflexivity.
  - intros Hlarge.
    pose proof (duration_ms_bound frameEnd lastFrameTime) as Hd.
    assert (JNI.duration_ms frameEnd lastFrameTime <> 0) as Hnz.
    { unfold JNI.duration_ms, JNI.ticks_per_ms. rewrite Z.quot_small_iff by lia. lia. }
    assert ((JNI.duration_ms frameEnd lastFrameTime <? 0) = (frameEnd <? lastFrameTime))
      as Hsign.
    { unfold JNI.duration_ms, JNI.ticks_per_ms in *.
      pose proof (Z.quot_rem' (frameEnd - lastFrameTime) 1000000) as Hqr.
      pose proof (Z.rem_bound_abs (frameEnd - lastFrameTime) 1000000 ltac:(lia)) as Hr.
      pose proof (Z.rem_sign_nz (frameEnd - lastFrameTime) 1000000 ltac:(lia)) as Hs.
      destruct (Z.eq_dec (Z.rem (frameEnd - lastFrameTime) 1000000) 0) as [H0|H0].
      - lia.
      - specialize (Hs H0). lia. }
    destruct (of_Z_sign_magnitude (JNI.duration_ms frameEnd lastFrameTime) Hnz
                ltac:(lia)) as (m & e & Hof & Hm).
    unfold JNI.fps_of. rewrite Hof, Hsign.
    apply div_30000_is_finite. lia.
Qed.

(** Frames that do not complete a block of 30 leave the sample alone. *)
Lemma run_within_block frames : forall st,
  JNI.all_succeed frames st -> 0 <= JNI.frameCount st ->
  JNI.frameCount st + Z.of_nat (length frames) <= INT_MAX ->
  JNI.frameCount st mod 30 + Z.of_nat (length frames) < 30 ->
  JNI.run frames st
  = JNI.mkStats (JNI.lastFrameTime st)
      (JNI.frameCount st + Z.of_nat (length frames)) (JNI.averageFps st).
Proof.
  induction frames as [|f frames IH]; intros st Hall H0 Hmax Hlt; cbn [JNI.run length].
  - destruct st. cbn. f_equal. lia.
  - destruct Hall as [Hf Hall]. rewrite (call_succeeded _ _ Hf) in *.
    cbn [length] in Hlt, Hmax.
    destruct (updateMetrics_sample (JNI.frameEnd f) st) as (Hc & _ & Hno); [lia|].
    assert ((JNI.frameCount st + 1) mod 30 = JNI.frameCount st mod 30 + 1) as Hmod.
    { clear - H0 Hlt. Z.div_mod_to_equations. lia. }
    pose proof (Z.mod_pos_bound (JNI.frameCount st) 30 ltac:(lia)) as Hbound.
    destruct Hno as [Ha Hl]; [lia|].
    rewrite IH; [|done|lia|lia|rewrite Hc; lia]. rewrite Hc, Ha, Hl. f_equal. lia.
Qed.

(** X18. The stored figure is the rate of the last complete block of
    30 frames, not an average over the session: after any number of
    complete blocks, one more block and fewer than 30 further frames (all
    successful, counted from a reset), [averageFps] is the double
    quotient of 30000 by the milliseconds (ticks over 1000000,
    truncated) between the sample that ended the previous block and the
    end of the last frame of this block. *)
Theorem averageFps_covers_last_block
    (reset : JNI.Stats) (before block rest : list JNI.FrameCall) (f : JNI.FrameCall) :
  JNI.frameCount reset = 0 ->
  Z.of_nat (length before) mod 30 = 0 ->
  length block = 30%nat -> last block = Some f -> (length rest < 30)%nat ->
  Z.of_nat (length (before ++ block ++ rest)) <= INT_MAX ->
  JNI.all_succeed (before ++ block ++ rest) reset ->
  JNI.averageFps (JNI.run (before ++ block ++ rest) reset)
  = SFdiv 53 1024 (Double.of_Z 30000)
      (Double.of_Z (Z.quot (JNI.frameEnd f - JNI.lastFrameTime (JNI.run before reset))
                      1000000)) /\
  JNI.lastFrameTime (JNI.run (before ++ block ++ rest) reset) = JNI.frameEnd f /\
  (forall g, last before = Some g ->
     JNI.lastFrameTime (JNI.run before reset) = JNI.frameEnd g).
Proof.
  intros Hreset Hmod Hblock Hlast Hrest Hmax Hall.
  rewrite !length_app in Hmax.
  apply all_succeed_app in Hall as [Hbefore Hall].
  apply all_succeed_app in Hall as [Hblk Hrst].
  pose proof (run_count before reset Hbefore ltac:(lia) ltac:(lia)) as Hcount.
  rewrite Hreset, Z.add_0_l in Hcount.
  apply last_Some in Hlast as [block' ->].
  rewrite length_app in Hblock. cbn [length] in Hblock.
  apply all_succeed_app in Hblk as [Hblk' Hf]. cbn [JNI.all_succeed] in Hf.
  destruct Hf as [Hf _].
  rewrite length_app in Hmax. cbn [length] in Hmax.
  assert (JNI.frameCount (JNI.run before reset) mod 30 + Z.of_nat (length block') < 30)
    as Hroom by (rewrite Hcount, Hmod; lia).
  pose proof (run_within_block block' (JNI.run before reset) Hblk' ltac:(lia)
                ltac:(lia) Hroom) as Hrun.
  assert (JNI.run (block' ++ [f]) (JNI.run before reset)
          = JNI.updateMetrics (JNI.frameEnd f) (JNI.run block' (JNI.run before reset)))
    as Hblockrun.
  { rewrite run_app. cbn [JNI.run]. by rewrite (call_succeeded _ _ Hf). }
  destruct (updateMetrics_sample (JNI.frameEnd f)
              (JNI.run block' (JNI.run before reset))) as (Hc & Hsample & _).
  { rewrite Hrun. cbn [JNI.frameCount]. lia. }
  destruct Hsample as [Ha Hl].
  { rewrite Hrun. cbn [JNI.frameCount]. rewrite Hcount.
    replace (Z.of_nat (length before) + Z.of_nat (length block') + 1)
      with (Z.of_nat (length before) + 1 * 30) by lia.
    by rewrite Z.mod_add by lia. }
  rewrite Hrun in Ha at 2. cbn [JNI.lastFrameTime] in Ha.
  rewrite Hrun in Hc at 2. cbn [JNI.frameCount] in Hc.
  rewrite <- Hblockrun in Ha, Hl, Hc.
  rewrite !run_app in *.
  pose proof (run_within_block rest _ Hrst) as Hrestrun.
  rewrite Hrestrun.
  - cbn [JNI.averageFps JNI.lastFrameTime]. split; [exact Ha|]. split; [exact Hl|].
    intros g Hg. apply last_Some in Hg as [before' ->].
    rewrite length_app in Hmod, Hmax. cbn [length] in Hmod, Hmax.
    apply all_succeed_app in Hbefore as [Hb' Hg]. cbn [JNI.all_succeed] in Hg.
    destruct Hg as [Hg _].
    rewrite run_app. cbn [JNI.run]. rewrite (call_succeeded _ _ Hg).
    pose proof (run_count before' reset Hb' ltac:(lia) ltac:(lia)) as Hcount'.
    destruct (updateMetrics_sample (JNI.frameEnd g) (JNI.run before' reset))
      as (_ & Hs & _); [lia|].
    destruct Hs as [_ Hs]; [|exact Hs].
    rewrite Hcount', Hreset, Z.add_0_l.
    by replace (Z.of_nat (length before') + 1) with (Z.of_nat (length before' + 1)) by lia.
  - rewrite Hc, Hcount. lia.
  - rewrite Hc, Hcount. lia.
  - rewrite Hc, Hcount.
    replace (Z.of_nat (length before) + Z.of_nat (length block') + 1)
      with (Z.of_nat (length before) + 1 * 30) by lia.
    rewrite Z.mod_add by lia. lia.
Qed.

End Samples.

(** ** The aperture of the Sobel path *)

Section SobelAperture.
Context `{K : Kernels}.

(** X20. In [applySobel] the argument [kernelSize] is the aperture of
    the two [cv::Sobel] calls (the smoothing before them is always 3x3):
    on a non-empty matrix the function succeeds when the aperture is odd
    and at most 31, or not positive (the Scharr kernel), and reports an
    OpenCV exception when it is positive and even or above 31. *)
Theorem applySobel_kernel_size (m : Mat Z) (k : Z) :
  empty m = false -> size_ok m = true ->
  (k <= 0 \/ (Z.odd k = true /\ k <= 31) ->
   EdgeDetection.succeeded (EdgeDetection.applySobel m k) = true) /\
  (0 < k -> Z.even k = true \/ 31 < k ->
   EdgeDetection.applySobel m k = inl EdgeDetection.OpenCVException).
Proof.
  intros He Hs. unfold EdgeDetection.applySobel. rewrite He.
  destruct (toGray_Some m Hs) as [g Hg]. rewrite Hg. cbn [mbind option_bind].
  destruct (toGray_shape _ _ Hg) as (Hr & Hc).
  assert (empty g = false) as Heg by (unfold empty, total in *; by rewrite Hr, Hc).
  assert (size_ok g = true) as Hsg by (unfold size_ok in *; by rewrite Hr, Hc).
  destruct (GaussianBlur_sobel_Some g Heg Hsg) as [b Hb]. rewrite Hb.
  cbn [mbind option_bind].
  apply GaussianBlur_shape in Hb as (Hb1 & Hb2 & _).
  assert (size_ok b = true) as Hsb by (unfold size_ok in *; by rewrite Hb1, Hb2).
  unfold Sobel. rewrite Hsb. cbn [negb]. split.
  - intros Hk.
    assert ((0 <? k) && (Z.even k || (31 <? k)) = false) as ->.
    { destruct Hk as [Hk|[Hodd Hk]].
      - assert ((0 <? k) = false) as -> by lia. done.
      - rewrite <- Z.negb_odd, Hodd. assert ((31 <? k) = false) as -> by lia.
        apply andb_false_r. }
    cbn [mbind option_bind]. unfold magnitude. cbn [rows cols channels].
    by rewrite !Z.eqb_refl.
  - intros Hpos Hbad.
    assert ((0 <? k) && (Z.even k || (31 <? k)) = true) as ->; [|done].
    assert ((0 <? k) = true) as -> by lia.
    destruct Hbad as [-> | Hbig]; [done|].
    assert ((31 <? k) = true) as -> by lia. apply orb_true_r.
Qed.

End SobelAperture.

(** ** Handles and the per-frame entries *)

Section Handles.
Import GLRenderer GLResources JNIRenderer.
Context `{K : Kernels} `{D : Driver}.

(** X21. The handles that reach Java: for names that fit 32 bits,
    [createShaderProgram] returns the [jint] 0 exactly when the renderer
    produced no program, [createTexture] never returns 0, a name above
    [INT_MAX] is seen by Java as a negative handle, and the cast back in
    [updateTexture] and [renderFrame] recovers the name. *)
Theorem bridge_handles_are_faithful (width height : Z) (dev : Device) :
  let program :=
    GLResources.createShaderProgram vertexShaderSource fragmentShaderSource dev in
  let texture := GLResources.createTexture width height dev in
  0 <= programId (fst program) < 2 ^ 32 ->
  0 <= textureId (fst texture) < 2 ^ 32 ->
  (fst (JNIRenderer.createShaderProgram dev) = 0 <-> programId (fst program) = 0) /\
  to_unsigned (fst (JNIRenderer.createShaderProgram dev)) = programId (fst program) /\
  fst (JNIRenderer.createTexture width height dev) <> 0 /\
  to_unsigned (fst (JNIRenderer.createTexture width height dev))
  = textureId (fst texture) /\
  (fst (JNIRenderer.createTexture width height dev) < 0
   <-> INT_MAX < textureId (fst texture)).
Proof.
  cbv zeta. intros Hp Ht.
  unfold JNIRenderer.createShaderProgram, JNIRenderer.createTexture.
  pose proof (createTexture_resources width height dev) as Hres. cbv zeta in Hres.
  destruct Hres as (_ & Hnz & _).
  destruct (GLResources.createShaderProgram vertexShaderSource fragmentShaderSource dev)
    as [program dev1].
  destruct (GLResources.createTexture width height dev) as [texture dev2].
  cbn [fst snd] in *.
  rewrite !to_unsigned_to_jint by done.
  unfold to_jint, wrap32, INT_MAX in *.
  change (2 ^ 32) with 4294967296 in *. change (2 ^ 31) with 2147483648 in *.
  repeat split; try done; try (Z.div_mod_to_equations; lia).
Qed.

(** The per-frame entries leave the objects and the buffer names. *)
Lemma enter_per_frame (e : Entry) (n : Native) :
  per_frame e = true ->
  live (device (enter e n)) = live (device n) /\
  buffer_names (context (device (enter e n))) = buffer_names (context (device n)).
Proof.
  destruct e as [now|what frameStart f|w h| |w h|ok tid px w h|pid tid uninit| ];
    try done; intros _; cbn [enter device].
  - split; apply write_lines_resources.
  - unfold JNIRenderer.updateTexture.
    destruct px as [pixels|]; [destruct ok; cbn [negb]|]; try done.
    apply updateTexture_resources.
  - unfold renderFrame, GLResources.renderTexture, lift, live.
    cbn [context textures buffers].
    match goal with
    | |- context [GLRenderer.renderTexture ?p ?t ?c] =>
        destruct (renderTexture_resources p t c) as (-> & -> & ->)
    end.
    done.
Qed.

(** X22. The entries made for every frame, [processFrame],
    [updateTexture] and [renderFrame], in any number and order, create
    and delete no shader, program, texture or buffer and leave the three
    buffer names as they are. *)
Theorem per_frame_entries_keep_objects (entries : list Entry) :
  Forall (fun e => per_frame e = true) entries ->
  forall n,
    live (device (session entries n)) = live (device n) /\
    buffer_names (context (device (session entries n)))
    = buffer_names (context (device n)).
Proof.
  induction 1 as [|e entries He _ IH]; intros n; cbn [session]; [done|].
  destruct (IH (enter e n)) as (-> & ->). by apply enter_per_frame.
Qed.

End Handles.

(** ** The properties on the demo frames and driver *)

Lemma applyCanny_result_shape_witness :
  EdgeDetection.applyCanny (K:=Demo.kernels) Demo.rgba_frame
    (Double.of_Z 50) (Double.of_Z 150) 3
  = inr (mkMat 2 3 1 [0; 255; 0; 0; 255; 0]) /\
  length (data (mkMat 2 3 1 [0; 255; 0; 0; 255; 0]))
  = Z.to_nat (rows Demo.rgba_frame * cols Demo.rgba_frame).
Proof.
  assert (EdgeDetection.applyCanny (K:=Demo.kernels) Demo.rgba_frame
            (Double.of_Z 50) (Double.of_Z 150) 3
          = inr (mkMat 2 3 1 [0; 255; 0; 0; 255; 0])) as H by (vm_compute; reflexivity).
  split; [exact H|].
  exact (proj2 (proj2 (proj2 (proj2 (proj2
           (applyCanny_result_shape (K:=Demo.kernels) _ _ _ _ _ H)))))).
Defined.

Lemma applySobel_result_range_witness :
  EdgeDetection.applySobel (K:=Demo.kernels) Demo.step_frame 3
  = inr (mkMat 3 4 1 [0; 255; 255; 0; 0; 255; 255; 0; 0; 255; 255; 0]) /\
  forall i v,
    data (mkMat 3 4 1 [0; 255; 255; 0; 0; 255; 255; 0; 0; 255; 255; 0]) !! i = Some v ->
    0 <= v <= 255.
Proof.
  assert (EdgeDetection.applySobel (K:=Demo.kernels) Demo.step_frame 3
          = inr (mkMat 3 4 1 [0; 255; 255; 0; 0; 255; 255; 0; 0; 255; 255; 0])) as H
    by (vm_compute; reflexivity).
  split; [exact H|].
  exact (proj2 (proj2 (proj2 (proj2
           (applySobel_result_range (K:=Demo.kernels) _ _ _ H))))).
Defined.

Lemma edgeToRGBA_any_channel_count_witness :
  exists rgbaMat,
    EdgeDetection.edgeToRGBA Demo.two_channel_frame = inr rgbaMat /\
    channels rgbaMat = 4 * channels Demo.two_channel_frame.
Proof.
  destruct (edgeToRGBA_any_channel_count Demo.two_channel_frame)
    as (rgbaMat & E & _ & _ & Hc & _); [reflexivity | cbn; lia |].
  exists rgbaMat. split; [exact E | exact Hc].
Defined.

Lemma empty_frame_is_rejected_witness :
  EdgeDetection.processFrame (K:=Demo.kernels) (Some []) 0 5 (Some [1; 2])
  = (false, Some [1; 2]) /\
  JNI.processFrame (K:=Demo.kernels) (JNI.mkJNIEnv true true true) (Some []) 7 0 77
    (JNI.mkStats 0 5 (Double.of_Z 0)) = (None, JNI.mkStats 0 5 (Double.of_Z 0)).
Proof.
  split.
  - apply (proj1 (empty_frame_is_rejected (K:=Demo.kernels) 0 5
                    (or_introl eq_refl))).
  - apply (proj2 (empty_frame_is_rejected (K:=Demo.kernels) 7 0
                    (or_intror eq_refl))).
Defined.

Lemma processFrame_stays_in_bounds_witness :
  EdgeDetection.processFrame (K:=Demo.kernels) (Some (Demo.rgba_bytes ++ [9; 9])) 3 2
    (Some (replicate 30 7))
  = EdgeDetection.processFrame (K:=Demo.kernels) (Some Demo.rgba_bytes) 3 2
      (Some (replicate 30 7)) /\
  drop (Z.to_nat (3 * 2 * 4))
    ([0; 0; 0; 0; 255; 255; 255; 255; 0; 0; 0; 0;
      0; 0; 0; 0; 255; 255; 255; 255; 0; 0; 0; 0] ++ replicate 6 7)
  = drop (Z.to_nat (3 * 2 * 4)) (replicate 30 7).
Proof.
  destruct (processFrame_stays_in_bounds (K:=Demo.kernels) Demo.rgba_bytes [9; 9]
              (replicate 30 7) 3 2) as [Hsame Hout]; [reflexivity|].
  split; [exact Hsame|].
  destruct (Hout ([0; 0; 0; 0; 255; 255; 255; 255; 0; 0; 0; 0;
                   0; 0; 0; 0; 255; 255; 255; 255; 0; 0; 0; 0] ++ replicate 6 7))
    as (_ & Hdrop & _).
  - unfold INT_MAX. lia.
  - cbn. lia.
  - vm_compute. reflexivity.
  - exact Hdrop.
Defined.

Lemma processFrame_copy_branches_agree_witness :
  EdgeDetection.processFrame_with (K:=Demo.kernels) false (Some Demo.rgba_bytes) 3 2
    (Some (replicate 24 0))
  = EdgeDetection.processFrame_with (K:=Demo.kernels) true (Some Demo.rgba_bytes) 3 2
      (Some (replicate 24 0)).
Proof.
  apply (processFrame_copy_branches_agree (K:=Demo.kernels)).
  - unfold INT_MAX. lia.
  - reflexivity.
Defined.

Lemma processFrame_succeeds_on_wellformed_call_witness :
  exists outputArray,
    JNI.processFrame (K:=Demo.kernels) (JNI.mkJNIEnv true true true)
      (Some Demo.rgba_bytes) 3 2 77 (JNI.mkStats 0 5 (Double.of_Z 0))
    = (Some outputArray,
       JNI.updateMetrics 77 (JNI.mkStats 0 5 (Double.of_Z 0))) /\
    length outputArray = length Demo.rgba_bytes.
Proof.
  destruct (processFrame_succeeds_on_wellformed_call (K:=Demo.kernels)
              (JNI.mkJNIEnv true true true) Demo.rgba_bytes 3 2 77
              (JNI.mkStats 0 5 (Double.of_Z 0)))
    as (outputArray & edgeMat & E & L & _).
  - lia.
  - lia.
  - unfold INT_MAX. lia.
  - reflexivity.
  - reflexivity.
  - reflexivity.
  - reflexivity.
  - exists outputArray. split; [exact E | exact L].
Defined.

Lemma frameCount_counts_returned_arrays_witness :
  JNI.frameCount
    (JNI.run (K:=Demo.kernels)
       [Demo.frame_at 1; JNI.mkFrameCall (JNI.mkJNIEnv true true true) None 3 2 5;
        Demo.frame_at 9] (JNI.mkStats 0 0 (Double.of_Z 0)))
  = JNI.frameCount (JNI.mkStats 0 0 (Double.of_Z 0))
    + Z.of_nat (length (filter is_Some
                          (Session.returned (K:=Demo.kernels)
                             [Demo.frame_at 1;
                              JNI.mkFrameCall (JNI.mkJNIEnv true true true) None 3 2 5;
                              Demo.frame_at 9] (JNI.mkStats 0 0 (Double.of_Z 0))))).
Proof.
  apply (frameCount_counts_returned_arrays (K:=Demo.kernels)).
  - cbn. lia.
  - cbn. unfold INT_MAX. lia.
Defined.

Lemma createShaderProgram_succeeds_iff_witness :
  GLRenderer.programId
    (fst (GLRenderer.createShaderProgram (D:=DemoGL.driver true)
            "void main(){}" "void main(){}" DemoGL.ready)) <> 0 /\
  GLRenderer.shaders
    (snd (GLRenderer.createShaderProgram (D:=DemoGL.driver true)
            "void main(){}" "void main(){}" DemoGL.ready))
  = GLRenderer.shaders DemoGL.ready /\
  GLRenderer.programId
    (fst (GLRenderer.createShaderProgram (D:=DemoGL.driver false)
            "void main(){}" "void main(){}" DemoGL.ready)) = 0.
Proof.
  destruct (createShaderProgram_succeeds_iff (D:=DemoGL.driver true)
              "void main(){}" "void main(){}" DemoGL.ready) as (Hiff & Hs & _).
  destruct (createShaderProgram_succeeds_iff (D:=DemoGL.driver false)
              "void main(){}" "void main(){}" DemoGL.ready) as (Hiff' & _).
  split; [|split; [exact Hs|]].
  - apply Hiff. vm_compute. repeat split; discriminate.
  - destruct (Z.eq_dec
                (GLRenderer.programId
                   (fst (GLRenderer.createShaderProgram (D:=DemoGL.driver false)
                           "void main(){}" "void main(){}" DemoGL.ready))) 0)
      as [E|E]; [exact E|].
    apply Hiff' in E. destruct E as (_ & _ & _ & E). vm_compute in E. discriminate E.
Defined.

Lemma updateTexture_guards_arguments_witness :
  GLResources.events
    (GLResources.updateTexture (D:=DemoGL.driver true)
       (GLRenderer.mkTextureInfo 0 3 2 6408) (Some [1; 2; 3; 4]) DemoGL.blank)
  = GLResources.events DemoGL.blank /\
  GLResources.events
    (GLResources.updateTexture (D:=DemoGL.driver true)
       (GLRenderer.mkTextureInfo 7 3 2 6408) (Some [1; 2; 3; 4]) DemoGL.blank)
  = GLResources.events DemoGL.blank ++
    [GLResources.Core (GLRenderer.glBindTexture GLRenderer.GL_TEXTURE_2D 7);
     GLResources.Setup
       (GLResources.glTexSubImage2D GLRenderer.GL_TEXTURE_2D 0 0 0 3 2 6408
          GLResources.GL_UNSIGNED_BYTE [1; 2; 3; 4]);
     GLResources.Core GLRenderer.glGetError].
Proof.
  split.
  - destruct (updateTexture_guards_arguments (D:=DemoGL.driver true)
                (GLRenderer.mkTextureInfo 0 3 2 6408) (Some [1; 2; 3; 4]) DemoGL.blank)
      as (H & _).
    destruct H as (He & _); [left; reflexivity | exact He].
  - destruct (updateTexture_guards_arguments (D:=DemoGL.driver true)
                (GLRenderer.mkTextureInfo 7 3 2 6408) (Some [1; 2; 3; 4]) DemoGL.blank)
      as (_ & H & _).
    apply (H [1; 2; 3; 4]); [discriminate | reflexivity].
Defined.

Lemma cleanupGL_keeps_buffer_names_witness :
  GLResources.Core
    (GLRenderer.glBindBuffer GLRenderer.GL_ARRAY_BUFFER
       (GLRenderer.VBO
          (GLResources.context
             (snd (GLResources.initializeGL (D:=DemoGL.driver true) 3 2 DemoGL.blank)))))
  ∈ GLResources.events
      (GLResources.renderTexture (D:=DemoGL.driver true)
         (GLRenderer.mkShaderProgram 7 0 1 0 (-1)) (GLRenderer.mkTextureInfo 9 3 2 6408)
         (GLResources.cleanupGL
            (GLRenderer.mkShaderProgram 7 0 1 0 (-1)) (GLRenderer.mkTextureInfo 9 3 2 6408)
            (snd (GLResources.initializeGL (D:=DemoGL.driver true) 3 2 DemoGL.blank)))).
Proof.
  destruct (cleanupGL_keeps_buffer_names (D:=DemoGL.driver true) 3 2
              (GLRenderer.mkShaderProgram 7 0 1 0 (-1))
              (GLRenderer.mkTextureInfo 9 3 2 6408) DemoGL.blank)
    as (_ & _ & _ & _ & _ & _ & _ & H & _).
  apply (H (GLRenderer.mkShaderProgram 7 0 1 0 (-1))
           (GLRenderer.mkTextureInfo 9 3 2 6408)); discriminate.
Defined.

Lemma renderFrame_uses_fixed_locations_witness :
  JNIRenderer.renderFrame (D:=DemoGL.driver true)
    (JNIRenderer.to_jint 3) (JNIRenderer.to_jint 1) (GLRenderer.mkTextureInfo 0 0 0 0)
    DemoGL.blank
  = GLResources.renderTexture (D:=DemoGL.driver true)
      (GLRenderer.mkShaderProgram 3 0 1 0 (-1)) (GLRenderer.mkTextureInfo 1 3 2 6408)
      DemoGL.blank.
Proof.
  apply (renderFrame_uses_fixed_locations (D:=DemoGL.driver true)
           (GLRenderer.mkShaderProgram 3 0 1 0 (-1))
           (GLRenderer.mkTextureInfo 1 3 2 6408) (GLRenderer.mkTextureInfo 0 0 0 0)
           DemoGL.blank).
  - cbn. lia.
  - discriminate.
  - cbn. lia.
  - discriminate.
  - repeat split.
Defined.

Lemma frame_fills_texture_witness :
  exists outputArray,
    fst (JNI.processFrame (K:=Demo.kernels) (JNI.mkJNIEnv true true true)
           (Some Demo.rgba_bytes) 3 2 77 (JNI.mkStats 0 5 (Double.of_Z 0)))
    = Some outputArray /\
    Z.of_nat (length outputArray) = 3 * 2 * 4.
Proof.
  destruct (frame_fills_texture (K:=Demo.kernels) (D:=DemoGL.driver true)
              (JNI.mkJNIEnv true true true) Demo.rgba_bytes 3 2 77
              (JNI.mkStats 0 5 (Double.of_Z 0)) DemoGL.blank)
    as (outputArray & E & L & _).
  - lia.
  - lia.
  - unfold INT_MAX. lia.
  - reflexivity.
  - reflexivity.
  - reflexivity.
  - reflexivity.
  - vm_compute. split; [discriminate | reflexivity].
  - exists outputArray. split; [exact E | exact L].
Defined.

Lemma fps_sample_infinite_or_finite_witness :
  JNI.fps_of (JNI.duration_ms 500000 0) = S754_infinity false /\
  exists m e, JNI.fps_of (JNI.duration_ms 0 1200000000) = S754_finite (0 <? 1200000000) m e.
Proof.
  split.
  - destruct (fps_sample_infinite_or_finite 500000 0) as [H _]; [cbn; lia|].
    apply H. unfold JNI.ticks_per_ms. cbn. lia.
  - destruct (fps_sample_infinite_or_finite 0 1200000000) as [_ H]; [cbn; lia|].
    apply H. unfold JNI.ticks_per_ms. cbn. lia.
Defined.

Lemma demo_more_frames_succeed (st : JNI.Stats) :
  JNI.all_succeed (K:=Demo.kernels)
    (Demo.thirty_frames ++ Demo.thirty_more_frames ++ [Demo.frame_at 2800000000]) st.
Proof.
  apply all_succeed_intro. intros f st' Hin.
  assert (exists t, f = Demo.frame_at t) as [t ->].
  { apply elem_of_app in Hin as [Hin|Hin];
      [|apply elem_of_app in Hin as [Hin|Hin]].
    - apply list_elem_of_fmap in Hin as (i & -> & _). by eexists.
    - apply list_elem_of_fmap in Hin as (i & -> & _). by eexists.
    - apply list_elem_of_singleton in Hin as ->. by eexists. }
  apply demo_call_succeeds.
Qed.

Lemma averageFps_covers_last_block_witness :
  JNI.averageFps
    (JNI.run (K:=Demo.kernels)
       (Demo.thirty_frames ++ Demo.thirty_more_frames ++ [Demo.frame_at 2800000000])
       (JNI.mkStats 0 0 (Double.of_Z 0)))
  = Double.of_Z 20 /\
  JNI.lastFrameTime
    (JNI.run (K:=Demo.kernels) Demo.thirty_frames (JNI.mkStats 0 0 (Double.of_Z 0)))
  = 1200000000.
Proof.
  destruct (averageFps_covers_last_block (K:=Demo.kernels)
              (JNI.mkStats 0 0 (Double.of_Z 0)) Demo.thirty_frames
              Demo.thirty_more_frames
              [Demo.frame_at 2800000000] (Demo.frame_at 2700000000))
    as (Ha & _ & Hl).
  - reflexivity.
  - reflexivity.
  - reflexivity.
  - reflexivity.
  - cbn. lia.
  - vm_compute. discriminate.
  - apply demo_more_frames_succeed.
  - pose proof (Hl (Demo.frame_at 1200000000) eq_refl) as Hlast.
    split; [|exact Hlast].
    rewrite Ha, Hlast. vm_compute. reflexivity.
Defined.

Lemma draw_reads_the_uploaded_quad_witness :
  GLRenderer.VBO
    (GLResources.context
       (snd (GLResources.initializeGL (D:=DemoGL.driver true) 3 2 DemoGL.blank)))
  ∈ GLResources.buffers
      (snd (GLResources.initializeGL (D:=DemoGL.driver true) 3 2 DemoGL.blank)).
Proof.
  destruct (draw_reads_the_uploaded_quad (D:=DemoGL.driver true) 3 2
              (GLRenderer.mkShaderProgram 7 0 1 0 (-1))
              (GLRenderer.mkTextureInfo 9 3 2 6408) DemoGL.blank)
    as (_ & H & _); [discriminate | discriminate | exact H].
Defined.

Lemma applySobel_kernel_size_witness :
  EdgeDetection.succeeded (EdgeDetection.applySobel (K:=Demo.kernels) Demo.step_frame 5)
  = true /\
  EdgeDetection.applySobel (K:=Demo.kernels) Demo.step_frame 4
  = inl EdgeDetection.OpenCVException.
Proof.
  destruct (applySobel_kernel_size (K:=Demo.kernels) Demo.step_frame 5)
    as [Hok _]; [reflexivity | reflexivity |].
  destruct (applySobel_kernel_size (K:=Demo.kernels) Demo.step_frame 4)
    as [_ Hbad]; [reflexivity | reflexivity |].
  split.
  - apply Hok. right. split; [reflexivity | lia].
  - apply Hbad; [lia | left; reflexivity].
Defined.

Lemma bridge_handles_are_faithful_witness :
  fst (JNIRenderer.createTexture (D:=DemoGL.driver true) 3 2 DemoGL.blank) <> 0 /\
  JNIRenderer.to_unsigned
    (fst (JNIRenderer.createShaderProgram (D:=DemoGL.driver true) DemoGL.blank))
  = GLRenderer.programId
      (fst (GLResources.createShaderProgram (D:=DemoGL.driver true)
              JNIRenderer.vertexShaderSource JNIRenderer.fragmentShaderSource
              DemoGL.blank)).
Proof.
  destruct (bridge_handles_are_faithful (D:=DemoGL.driver true) 3 2 DemoGL.blank)
    as (_ & Hp & Ht & _).
  - vm_compute. split; [discriminate | reflexivity].
  - vm_compute. split; [discriminate | reflexivity].
  - split; [exact Ht | exact Hp].
Defined.

Lemma per_frame_entries_keep_objects_witness :
  GLResources.live
    (JNIRenderer.device
       (JNIRenderer.session (K:=Demo.kernels) (D:=DemoGL.driver true)
          [JNIRenderer.ProcessFrame "" 1 (Demo.frame_at 5);
           JNIRenderer.UpdateTexture true 1 (Some [1; 2; 3; 4]) 1 1;
           JNIRenderer.RenderFrame 3 1 (GLRenderer.mkTextureInfo 0 0 0 0)]
          (JNIRenderer.mkNative (JNI.mkStats 0 0 (Double.of_Z 0)) DemoGL.blank)))
  = GLResources.live DemoGL.blank.
Proof.
  apply (per_frame_entries_keep_objects (K:=Demo.kernels) (D:=DemoGL.driver true)
           [JNIRenderer.ProcessFrame "" 1 (Demo.frame_at 5);
            JNIRenderer.UpdateTexture true 1 (Some [1; 2; 3; 4]) 1 1;
            JNIRenderer.RenderFrame 3 1 (GLRenderer.mkTextureInfo 0 0 0 0)]).
  repeat constructor.
Defined.
